(** * XHSClient: the signed request pipeline of media_platform/xhs/client.py

    A shallow embedding of [XHSClient] (request classification, comment
    pagination, the upload and publish pipeline, the liveness probe) together
    with the part of Python's [json] module the client relies on, and the
    properties of the specification proved over it.

    Python values are embedded as follows.
    - [str] is a list of Unicode code points ([pystr]).
    - Decoded JSON is the inductive [json]; a [dict] is an association list
      in insertion order.
    - An [async def] is a computation in the monad [M]: it threads the
      [world] (client state, scripted network, local files, observable
      trace) and either returns or raises. *)

From Stdlib Require Import List ZArith NArith Lia Bool String Ascii.
From Stdlib Require Import Decimal DecimalFacts DecimalPos DecimalN DecimalZ.
From Stdlib Require Import Floats.SpecFloat.
Import ListNotations.

(* ===================================================================== *)
(** * Part I: definitions *)
(* ===================================================================== *)

(** ** Python strings *)

Module PyStr.

(** A Python [str]: its code points, in order. *)
Definition pystr := list N.

Definition bytes_of_string (s : string) : list N :=
  map N_of_ascii (list_ascii_of_string s).

(** The source file is UTF-8: a literal is read from its bytes. *)
Fixpoint utf8_decode (l : list N) : pystr :=
  match l with
  | [] => []
  | b0 :: r0 =>
    if (b0 <? 0x80)%N then b0 :: utf8_decode r0
    else
      match r0 with
      | [] => [b0]
      | b1 :: r1 =>
        if (b0 <? 0xE0)%N
        then ((b0 - 0xC0) * 64 + (b1 - 0x80))%N :: utf8_decode r1
        else
          match r1 with
          | [] => [b0; b1]
          | b2 :: r2 =>
            if (b0 <? 0xF0)%N
            then ((b0 - 0xE0) * 4096 + (b1 - 0x80) * 64 + (b2 - 0x80))%N
                 :: utf8_decode r2
            else
              match r2 with
              | [] => [b0; b1; b2]
              | b3 :: r3 =>
                ((b0 - 0xF0) * 262144 + (b1 - 0x80) * 4096
                 + (b2 - 0x80) * 64 + (b3 - 0x80))%N :: utf8_decode r3
              end
          end
      end
  end.

(** [py "text"] is the Python literal ['text']. *)
Definition py (s : string) : pystr := utf8_decode (bytes_of_string s).

Fixpoint str_eqb (a b : pystr) : bool :=
  match a, b with
  | [], [] => true
  | x :: a', y :: b' => (x =? y)%N && str_eqb a' b'
  | _, _ => false
  end.

(** [sep.join(parts)] *)
Fixpoint join (sep : pystr) (parts : list pystr) : pystr :=
  match parts with
  | [] => []
  | [p] => p
  | p :: rest => p ++ sep ++ join sep rest
  end.

End PyStr.
Export PyStr.

(** ** Decoded JSON values *)

Module Json.

#[local] Unset Elimination Schemes.
Inductive json : Type :=
| JNull
| JBool (b : bool)
| JInt (z : Z)
| JFloat (f : spec_float)
| JStr (s : pystr)
| JArr (l : list json)
| JObj (d : list (pystr * json)).
#[local] Set Elimination Schemes.

(** A Python [dict] with [str] keys, in insertion order. *)
Definition dict := list (pystr * json).

(** Induction over a value, through its lists and dictionaries. *)
Section JsonInduction.
Variable Q : json -> Prop.
Hypothesis HNull : Q JNull.
Hypothesis HBool : forall b, Q (JBool b).
Hypothesis HInt : forall z, Q (JInt z).
Hypothesis HFloat : forall f, Q (JFloat f).
Hypothesis HStr : forall s, Q (JStr s).
Hypothesis HArr : forall l, Forall Q l -> Q (JArr l).
Hypothesis HObj : forall d, Forall (fun kv => Q (snd kv)) d -> Q (JObj d).

Fixpoint json_induction (v : json) : Q v :=
  match v with
  | JNull => HNull
  | JBool b => HBool b
  | JInt z => HInt z
  | JFloat f => HFloat f
  | JStr s => HStr s
  | JArr l =>
    HArr l ((fix elems (l : list json) : Forall Q l :=
               match l with
               | [] => Forall_nil Q
               | x :: l' => Forall_cons x (json_induction x) (elems l')
               end) l)
  | JObj d =>
    HObj d ((fix members (d : list (pystr * json))
               : Forall (fun kv => Q (snd kv)) d :=
               match d with
               | [] => Forall_nil _
               | kv :: d' =>
                 Forall_cons (P := fun kv => Q (snd kv)) kv
                             (json_induction (snd kv)) (members d')
               end) d)
  end.

End JsonInduction.

(** [d.get(k)] as an option. *)
Fixpoint dict_get (k : pystr) (d : dict) : option json :=
  match d with
  | [] => None
  | (k', v) :: d' => if str_eqb k k' then Some v else dict_get k d'
  end.

(** [d.get(k, default)] *)
Definition dict_get_default (k : pystr) (default : json) (d : dict) : json :=
  match dict_get k d with Some v => v | None => default end.

(** [k in d] *)
Definition dict_mem (k : pystr) (d : dict) : bool :=
  match dict_get k d with Some _ => true | None => false end.

(** [d[k] = v]: an existing key keeps its place. *)
Fixpoint dict_set (k : pystr) (v : json) (d : dict) : dict :=
  match d with
  | [] => [(k, v)]
  | (k', v') :: d' =>
    if str_eqb k k' then (k', v) :: d' else (k', v') :: dict_set k v d'
  end.

(** [d.update(other)] *)
Definition dict_update (d other : dict) : dict :=
  fold_left (fun acc kv => dict_set (fst kv) (snd kv) acc) other d.

(** [dict(pairs)] *)
Definition dict_of_pairs (pairs : list (pystr * json)) : dict :=
  dict_update [] pairs.

(** Python truthiness, as [if v:] and [while v:] test it. *)
Definition truthy (v : json) : bool :=
  match v with
  | JNull => false
  | JBool b => b
  | JInt z => negb (z =? 0)%Z
  | JFloat (S754_zero _) => false
  | JFloat _ => true
  | JStr s => match s with [] => false | _ => true end
  | JArr l => match l with [] => false | _ => true end
  | JObj d => match d with [] => false | _ => true end
  end.

(** [f == z] for a float and an int: Python compares the exact values. *)
Definition float_eq_Z (f : spec_float) (z : Z) : bool :=
  match f with
  | S754_zero _ => (z =? 0)%Z
  | S754_finite s m e =>
    let mz := if s then Z.neg m else Z.pos m in
    if (0 <=? e)%Z then (mz * 2 ^ e =? z)%Z else (mz =? z * 2 ^ (- e))%Z
  | S754_infinity _ | S754_nan => false
  end.

(** [v == z] for a decoded value and an int literal. *)
Definition py_eq_int (v : json) (z : Z) : bool :=
  match v with
  | JInt a => (a =? z)%Z
  | JBool b => ((if b then 1 else 0) =? z)%Z
  | JFloat f => float_eq_Z f z
  | _ => false
  end.

(** What [list.extend(v)] iterates over; [None] where Python raises
    [TypeError] (the value is not iterable). *)
Definition py_iter (v : json) : option (list json) :=
  match v with
  | JArr l => Some l
  | JObj d => Some (map (fun kv => JStr (fst kv)) d)
  | JStr s => Some (map (fun c => JStr [c]) s)
  | _ => None
  end.

End Json.
Export Json.

(** ** Python's [json] module: [dumps] with compact separators, and [loads] *)

Module JsonCodec.

(** [float.__repr__] and [float(literal)] are taken as given. *)
Class FloatCodec : Type := {
  float_repr : spec_float -> pystr;
  float_of_literal : pystr -> spec_float
}.

(** The constants of the JSON text. *)
Definition lit_null : pystr := Eval cbv in py "null".
Definition lit_true : pystr := Eval cbv in py "true".
Definition lit_false : pystr := Eval cbv in py "false".
Definition lit_NaN : pystr := Eval cbv in py "NaN".
Definition lit_Infinity : pystr := Eval cbv in py "Infinity".
Definition lit_neg_Infinity : pystr := Eval cbv in py "-Infinity".

(** *** Encoder *)

Definition hexdigit (n : N) : N := (if n <? 10 then 48 + n else 87 + n)%N.

(** ['{0:04x}'.format(n)] for [n < 0x10000] *)
Definition hex4 (n : N) : pystr :=
  [hexdigit ((n / 4096) mod 16); hexdigit ((n / 256) mod 16);
   hexdigit ((n / 16) mod 16); hexdigit (n mod 16)]%N.

(** The named entries of [ESCAPE_DCT]: backslash, quote, \b, \f, \n, \r, \t. *)
Definition escape_short (c : N) : option pystr :=
  if (c =? 92)%N then Some [92; 92]%N
  else if (c =? 34)%N then Some [92; 34]%N
  else if (c =? 8)%N then Some [92; 98]%N
  else if (c =? 12)%N then Some [92; 102]%N
  else if (c =? 10)%N then Some [92; 110]%N
  else if (c =? 13)%N then Some [92; 114]%N
  else if (c =? 9)%N then Some [92; 116]%N
  else None.

(** One character of [py_encode_basestring_ascii] ([ensure_ascii = true])
    or of [py_encode_basestring] ([ensure_ascii = false]). *)
Definition escape_char (ensure_ascii : bool) (c : N) : pystr :=
  match escape_short c with
  | Some e => e
  | None =>
    if ensure_ascii then
      if ((32 <=? c) && (c <=? 126))%N then [c]
      else if (c <? 0x10000)%N then 92 :: 117 :: hex4 c
      else
        let n := (c - 0x10000)%N in
        let s1 := N.lor 0xd800 (N.land (N.shiftr n 10) 0x3ff) in
        let s2 := N.lor 0xdc00 (N.land n 0x3ff) in
        (92 :: 117 :: hex4 s1) ++ (92 :: 117 :: hex4 s2)
    else if (c <? 32)%N then 92 :: 117 :: hex4 c
    else [c]
  end%N.

Definition encode_basestring (ensure_ascii : bool) (s : pystr) : pystr :=
  34%N :: flat_map (escape_char ensure_ascii) s ++ [34%N].

Fixpoint uint_codes (u : Decimal.uint) : pystr :=
  match u with
  | Nil => []
  | D0 u' => 48 :: uint_codes u'
  | D1 u' => 49 :: uint_codes u'
  | D2 u' => 50 :: uint_codes u'
  | D3 u' => 51 :: uint_codes u'
  | D4 u' => 52 :: uint_codes u'
  | D5 u' => 53 :: uint_codes u'
  | D6 u' => 54 :: uint_codes u'
  | D7 u' => 55 :: uint_codes u'
  | D8 u' => 56 :: uint_codes u'
  | D9 u' => 57 :: uint_codes u'
  end%N.

(** [int.__repr__] *)
Definition int_repr (z : Z) : pystr :=
  match Z.to_int z with
  | Pos u => uint_codes u
  | Neg u => 45%N :: uint_codes u
  end.

Section Encoder.
Context {FC : FloatCodec}.

(** [json.dumps(v, separators=(",", ":"), ensure_ascii=ensure_ascii)] *)
Fixpoint dumps (ensure_ascii : bool) (v : json) : pystr :=
  match v with
  | JNull => lit_null
  | JBool true => lit_true
  | JBool false => lit_false
  | JInt z => int_repr z
  | JFloat f => float_repr f
  | JStr s => encode_basestring ensure_ascii s
  | JArr l => 91%N :: join [44%N] (map (dumps ensure_ascii) l) ++ [93%N]
  | JObj d =>
    123%N ::
    join [44%N]
      (map (fun kv => encode_basestring ensure_ascii (fst kv)
                      ++ 58%N :: dumps ensure_ascii (snd kv)) d)
    ++ [125%N]
  end.

End Encoder.

(** *** Decoder *)

Definition is_ws (c : N) : bool :=
  ((c =? 32) || (c =? 9) || (c =? 10) || (c =? 13))%N.

Fixpoint skip_ws (s : pystr) : pystr :=
  match s with
  | c :: r => if is_ws c then skip_ws r else s
  | [] => []
  end.

Definition hexval (c : N) : option N :=
  if ((48 <=? c) && (c <=? 57))%N then Some (c - 48)%N
  else if ((97 <=? c) && (c <=? 102))%N then Some (c - 87)%N
  else if ((65 <=? c) && (c <=? 70))%N then Some (c - 55)%N
  else None.

(** [_decode_uXXXX]: exactly four hexadecimal digits. *)
Definition decode_hex4 (a b c d : N) : option N :=
  match hexval a, hexval b, hexval c, hexval d with
  | Some x, Some y, Some z, Some w => Some (x * 4096 + y * 256 + z * 16 + w)%N
  | _, _, _, _ => None
  end.

(** The [BACKSLASH] table of the decoder. *)
Definition unescape_short (e : N) : option N :=
  if (e =? 34)%N then Some 34%N
  else if (e =? 92)%N then Some 92%N
  else if (e =? 47)%N then Some 47%N
  else if (e =? 98)%N then Some 8%N
  else if (e =? 102)%N then Some 12%N
  else if (e =? 110)%N then Some 10%N
  else if (e =? 114)%N then Some 13%N
  else if (e =? 116)%N then Some 9%N
  else None.

Definition is_high_surrogate (u : N) : bool := ((0xd800 <=? u) && (u <=? 0xdbff))%N.
Definition is_low_surrogate (u : N) : bool := ((0xdc00 <=? u) && (u <=? 0xdfff))%N.

(** [py_scanstring] with [strict=True], from just after the opening
    quote: the decoded string and what follows the closing quote. *)
Fixpoint scanstring (s : pystr) : option (pystr * pystr) :=
  match s with
  | [] => None
  | c :: r =>
    if (c =? 34)%N then Some ([], r)
    else if (c =? 92)%N then
      match r with
      | [] => None
      | e :: r1 =>
        if (e =? 117)%N then
          match r1 with
          | a :: r2 =>
            match r2 with
            | b :: r3 =>
              match r3 with
              | h :: r4 =>
                match r4 with
                | l :: r5 =>
                  match decode_hex4 a b h l with
                  | None => None
                  | Some u =>
                    if is_high_surrogate u then
                      match r5 with
                      | 92%N :: 117%N :: a2 :: b2 :: h2 :: l2 :: r6 =>
                        match decode_hex4 a2 b2 h2 l2 with
                        | None => None
                        | Some u2 =>
                          if is_low_surrogate u2 then
                            match scanstring r6 with
                            | Some (t, rest) =>
                              Some ((0x10000 + N.lor (N.shiftl (u - 0xd800) 10)
                                                     (u2 - 0xdc00))%N :: t, rest)
                            | None => None
                            end
                          else
                            match scanstring r5 with
                            | Some (t, rest) => Some (u :: t, rest)
                            | None => None
                            end
                        end
                      | _ =>
                        match scanstring r5 with
                        | Some (t, rest) => Some (u :: t, rest)
                        | None => None
                        end
                      end
                    else
                      match scanstring r5 with
                      | Some (t, rest) => Some (u :: t, rest)
                      | None => None
                      end
                  end
                | [] => None
                end
              | [] => None
              end
            | [] => None
            end
          | [] => None
          end
        else
          match unescape_short e with
          | None => None
          | Some ch =>
            match scanstring r1 with
            | Some (t, rest) => Some (ch :: t, rest)
            | None => None
            end
          end
      end
    else if (c <? 32)%N then None
    else
      match scanstring r with
      | Some (t, rest) => Some (c :: t, rest)
      | None => None
      end
  end.

Definition is_digit (c : N) : bool := ((48 <=? c) && (c <=? 57))%N.

Definition digit_of_code (c : N) (u : Decimal.uint) : Decimal.uint :=
  if (c =? 48)%N then D0 u else if (c =? 49)%N then D1 u
  else if (c =? 50)%N then D2 u else if (c =? 51)%N then D3 u
  else if (c =? 52)%N then D4 u else if (c =? 53)%N then D5 u
  else if (c =? 54)%N then D6 u else if (c =? 55)%N then D7 u
  else if (c =? 56)%N then D8 u else D9 u.

Fixpoint uint_of_codes (ds : pystr) : Decimal.uint :=
  match ds with
  | [] => Nil
  | c :: r => digit_of_code c (uint_of_codes r)
  end.

(** The longest run of digits at the head, and what follows it. *)
Fixpoint span_digits (s : pystr) : pystr * pystr :=
  match s with
  | c :: r =>
    if is_digit c then let (ds, rest) := span_digits r in (c :: ds, rest)
    else ([], s)
  | [] => ([], [])
  end.

(** The optional fraction: a dot and at least one digit. *)
Definition match_frac (s : pystr) : pystr * pystr :=
  match s with
  | c :: r =>
    if (c =? 46)%N then
      match span_digits r with
      | ([], _) => ([], s)
      | (fd, rest) => (c :: fd, rest)
      end
    else ([], s)
  | [] => ([], s)
  end.

(** The optional exponent: [e] or [E], an optional sign, at least one digit. *)
Definition match_exp (s : pystr) : pystr * pystr :=
  match s with
  | e :: r =>
    if ((e =? 101) || (e =? 69))%N then
      let (sg, r1) :=
        match r with
        | c :: t => if ((c =? 43) || (c =? 45))%N then ([c], t) else ([], r)
        | [] => ([], r)
        end in
      match span_digits r1 with
      | ([], _) => ([], s)
      | (ed, rest) => (e :: sg ++ ed, rest)
      end
    else ([], s)
  | [] => ([], s)
  end.

(** [s.startswith(p)], with what follows the prefix. *)
Fixpoint strip_prefix (p s : pystr) : option pystr :=
  match p, s with
  | [], _ => Some s
  | x :: p', y :: s' => if (x =? y)%N then strip_prefix p' s' else None
  | _ :: _, [] => None
  end.

Section Decoder.
Context {FC : FloatCodec}.

(** [NUMBER_RE.match]: an optional minus sign, then [0] or a run of digits
    that starts with a nonzero one, then an optional fraction and an optional
    exponent; the result is an [int] unless a fraction or an exponent is
    present. *)
Definition match_number (s : pystr) : option (json * pystr) :=
  let (neg, s1) :=
    match s with
    | c :: r => if (c =? 45)%N then (true, r) else (false, s)
    | [] => (false, s)
    end in
  match s1 with
  | [] => None
  | c :: r =>
    if is_digit c then
      let (integer, rest) := if (c =? 48)%N then ([48%N], r) else span_digits s1 in
      let (frac, rest1) := match_frac rest in
      let (exp, rest2) := match_exp rest1 in
      match frac, exp with
      | [], [] =>
        let u := uint_of_codes integer in
        Some (JInt (Z.of_int (if neg then Neg u else Pos u)), rest2)
      | _, _ =>
        Some (JFloat (float_of_literal
                        ((if neg then [45%N] else []) ++ integer ++ frac ++ exp)),
              rest2)
      end
    else None
  end.

(** The constants and numbers of [scan_once], tried in its order. *)
Definition scan_atom (s : pystr) : option (json * pystr) :=
  match strip_prefix lit_null s with
  | Some rest => Some (JNull, rest)
  | None =>
  match strip_prefix lit_true s with
  | Some rest => Some (JBool true, rest)
  | None =>
  match strip_prefix lit_false s with
  | Some rest => Some (JBool false, rest)
  | None =>
  match match_number s with
  | Some r => Some r
  | None =>
  match strip_prefix lit_NaN s with
  | Some rest => Some (JFloat S754_nan, rest)
  | None =>
  match strip_prefix lit_Infinity s with
  | Some rest => Some (JFloat (S754_infinity false), rest)
  | None =>
  match strip_prefix lit_neg_Infinity s with
  | Some rest => Some (JFloat (S754_infinity true), rest)
  | None => None
  end end end end end end end.

(** [scan_once], [JSONArray] and [JSONObject]. The fuel bounds the number
    of nested calls; [loads] gives one more than the length of the text. *)
Fixpoint parse_value (fuel : nat) (s : pystr) {struct fuel} : option (json * pystr) :=
  match fuel with
  | O => None
  | S n =>
    match s with
    | [] => None
    | c :: r =>
      if (c =? 34)%N then
        match scanstring r with
        | Some (t, rest) => Some (JStr t, rest)
        | None => None
        end
      else if (c =? 123)%N then
        match skip_ws r with
        | 125%N :: rest => Some (JObj [], rest)
        | 34%N :: r1 =>
          match parse_members n r1 with
          | Some (pairs, rest) => Some (JObj (dict_of_pairs pairs), rest)
          | None => None
          end
        | _ => None
        end
      else if (c =? 91)%N then
        match skip_ws r with
        | [] => None
        | c1 :: rest =>
          if (c1 =? 93)%N then Some (JArr [], rest)
          else
            match parse_elems n (c1 :: rest) with
            | Some (l, rest') => Some (JArr l, rest')
            | None => None
            end
        end
      else scan_atom s
    end
  end
with parse_elems (fuel : nat) (s : pystr) {struct fuel} : option (list json * pystr) :=
  match fuel with
  | O => None
  | S n =>
    match parse_value n s with
    | None => None
    | Some (v, r) =>
      match skip_ws r with
      | 93%N :: rest => Some ([v], rest)
      | 44%N :: r1 =>
        match parse_elems n (skip_ws r1) with
        | Some (l, rest) => Some (v :: l, rest)
        | None => None
        end
      | _ => None
      end
    end
  end
with parse_members (fuel : nat) (s : pystr) {struct fuel}
  : option (list (pystr * json) * pystr) :=
  match fuel with
  | O => None
  | S n =>
    match scanstring s with
    | None => None
    | Some (key, r) =>
      match skip_ws r with
      | 58%N :: r1 =>
        match parse_value n (skip_ws r1) with
        | None => None
        | Some (v, r2) =>
          match skip_ws r2 with
          | 125%N :: rest => Some ([(key, v)], rest)
          | 44%N :: r3 =>
            match skip_ws r3 with
            | 34%N :: r4 =>
              match parse_members n r4 with
              | Some (ps, rest) => Some ((key, v) :: ps, rest)
              | None => None
              end
            | _ => None
            end
          | _ => None
          end
        end
      | _ => None
      end
    end
  end.

(** [json.loads(s)]: [None] stands for [JSONDecodeError]. *)
Definition loads (s : pystr) : option json :=
  match parse_value (S (List.length s)) (skip_ws s) with
  | Some (v, rest) =>
    match skip_ws rest with
    | [] => Some v
    | _ :: _ => None
    end
  | None => None
  end.

End Decoder.

End JsonCodec.
Export JsonCodec.

(** ** The world the client runs in *)

Module World.

(** The exceptions of [response.json()] other than [JSONDecodeError]:
    [UnicodeDecodeError] for a body whose bytes are not text,
    [RecursionError] for nesting beyond the interpreter's depth,
    [ValueError] for an integer literal beyond the interpreter's limit. *)
Inductive decoder_error : Type :=
| NotText
| NestingTooDeep
| IntegerTooLong.

(** What [response.json()] gives: the decoded value, [JSONDecodeError] for
    text that is not JSON, or another exception of the decoder. *)
Inductive json_result : Type :=
| Decoded (data : json)
| JSONDecodeError
| DecoderRaised (e : decoder_error).

(** An [httpx.Response], as far as the client looks at it. *)
Record response : Type := {
  status_code : Z;
  text : pystr;
  json_of : json_result
}.

(** The exceptions that can leave a method of the client. *)
Inductive exn : Type :=
| IPBlockError (msg : pystr)
| DataFetchError (msg : json)
| TransportError (reason : pystr)
| KeyError (key : json)
| IndexError
| TypeError
| AttributeError
| ValueError
| UnicodeDecodeError
| RecursionError
| OSError (path : pystr)
| Exception (msg : pystr).

(** The exception a failure of the decoder is in Python. *)
Definition decoder_exn (e : decoder_error) : exn :=
  match e with
  | NotText => UnicodeDecodeError
  | NestingTooDeep => RecursionError
  | IntegerTooLong => ValueError
  end.

(** What the network does with one request: it answers, or [httpx] raises. *)
Inductive transport : Type :=
| Reply (r : response)
| Fails (reason : pystr).

Inductive http_body : Type :=
| NoBody
| TextBody (s : pystr)
| FileBody (path : pystr).

(** The observable actions of the client. *)
Inductive event : Type :=
| EvSign (url : pystr) (data : option json)
| EvHttp (method url : pystr) (headers : dict) (body : http_body)
| EvCallback (note_id : pystr) (comments : json)
| EvSleep (seconds : spec_float)
| EvLog (level message : pystr)
| EvPrint (v : json).

Record world : Type := {
  headers : dict;               (* self.headers *)
  cookie_dict : dict;           (* self.cookie_dict *)
  network : list transport;     (* what the requests still to come will meet *)
  files : list (pystr * Z);     (* local files: path and size in bytes *)
  trace : list event            (* the actions so far, oldest first *)
}.

Definition set_headers (h : dict) (w : world) : world :=
  {| headers := h; cookie_dict := cookie_dict w; network := network w;
     files := files w; trace := trace w |}.

Definition set_network (n : list transport) (w : world) : world :=
  {| headers := headers w; cookie_dict := cookie_dict w; network := n;
     files := files w; trace := trace w |}.

Definition add_event (e : event) (w : world) : world :=
  {| headers := headers w; cookie_dict := cookie_dict w; network := network w;
     files := files w; trace := trace w ++ [e] |}.

(** A call either returns a value or raises. *)
Inductive result (A : Type) : Type :=
| Return (a : A)
| Raise (e : exn).
Arguments Return {A} a.
Arguments Raise {A} e.

(** A method of the client: from the world before the call to its outcome
    and the world after it. *)
Definition M (A : Type) : Type := world -> result A * world.

Definition ret {A : Type} (a : A) : M A := fun w => (Return a, w).

Definition raise {A : Type} (e : exn) : M A := fun w => (Raise e, w).

Definition bind {A B : Type} (c : M A) (k : A -> M B) : M B :=
  fun w =>
    match c w with
    | (Return a, w') => k a w'
    | (Raise e, w') => (Raise e, w')
    end.

(** [try: c except Exception as e: handler(e)] *)
Definition try_except {A : Type} (c : M A) (handler : exn -> M A) : M A :=
  fun w =>
    match c w with
    | (Return a, w') => (Return a, w')
    | (Raise e, w') => handler e w'
    end.

Definition emit (e : event) : M unit := fun w => (Return tt, add_event e w).

Definition get_world : M world := fun w => (Return w, w).

End World.
Export World.

Declare Scope py_scope.
Delimit Scope py_scope with py.
Notation "x <- c1 ;; c2" := (bind c1 (fun x => c2))
  (at level 61, c1 at next level, right associativity) : py_scope.
Notation "c1 ;; c2" := (bind c1 (fun _ => c2))
  (at level 61, right associativity) : py_scope.
Open Scope py_scope.

(** ** Python operations on the values the client handles *)

Module PyOps.

(** What [request] returns: the raw response or a decoded payload. *)
Inductive pyval : Type :=
| VResponse (r : response)
| VJson (v : json).

(** [v[k]] for a string key. *)
Definition py_getitem (v : json) (k : pystr) : M json :=
  match v with
  | JObj d =>
    match dict_get k d with
    | Some x => ret x
    | None => raise (KeyError (JStr k))
    end
  | _ => raise TypeError
  end.

(** [v.get(k, default)]: only a [dict] has the method. *)
Definition py_get (v : json) (k : pystr) (default : json) : M json :=
  match v with
  | JObj d => ret (dict_get_default k default d)
  | _ => raise AttributeError
  end.

(** [v[0]] *)
Definition py_first (v : json) : M json :=
  match v with
  | JArr (x :: _) => ret x
  | JArr [] => raise IndexError
  | JStr (c :: _) => ret (JStr [c])
  | JStr [] => raise IndexError
  | JObj _ => raise (KeyError (JInt 0))
  | _ => raise TypeError
  end.

Fixpoint is_prefix (p s : pystr) : bool :=
  match p, s with
  | [], _ => true
  | x :: p', y :: s' => (x =? y)%N && is_prefix p' s'
  | _ :: _, [] => false
  end.

Fixpoint is_substring (p s : pystr) : bool :=
  is_prefix p s || match s with [] => false | _ :: s' => is_substring p s' end.

(** [k in v] for a string [k] *)
Definition py_contains (k : pystr) (v : json) : M bool :=
  match v with
  | JObj d => ret (dict_mem k d)
  | JArr l =>
    ret (existsb (fun x => match x with JStr s => str_eqb s k | _ => false end) l)
  | JStr s => ret (is_substring k s)
  | _ => raise TypeError
  end.

(** The same operations on what [request] returned: an [httpx.Response]
    has no [get], is not subscriptable and is not a container. *)
Definition pv_getitem (v : pyval) (k : pystr) : M json :=
  match v with
  | VJson j => py_getitem j k
  | VResponse _ => raise TypeError
  end.

Definition pv_get (v : pyval) (k : pystr) (default : json) : M json :=
  match v with
  | VJson j => py_get j k default
  | VResponse _ => raise AttributeError
  end.

Definition pv_contains (k : pystr) (v : pyval) : M bool :=
  match v with
  | VJson j => py_contains k j
  | VResponse _ => raise TypeError
  end.

(** [prefix + v] for a string literal [prefix] *)
Definition str_concat (prefix : pystr) (v : json) : M pystr :=
  match v with
  | JStr s => ret (prefix ++ s)
  | _ => raise TypeError
  end.

(** [os.path.getsize(path)] *)
Definition getsize (path : pystr) : M Z :=
  fun w =>
    match find (fun f => str_eqb path (fst f)) (files w) with
    | Some f => (Return (snd f), w)
    | None => (Raise (OSError path), w)
    end.

(** [aiofiles.open(path, "rb")]: the handle is its path. *)
Definition open_rb (path : pystr) : M pystr :=
  fun w =>
    match find (fun f => str_eqb path (fst f)) (files w) with
    | Some _ => (Return path, w)
    | None => (Raise (OSError path), w)
    end.

(** [asyncio.sleep(seconds)] *)
Definition sleep (seconds : spec_float) : M unit := emit (EvSleep seconds).

(** [utils.logger.info] and [utils.logger.error]; a formatted value is left
    out of the recorded message. *)
Definition log_info (message : pystr) : M unit := emit (EvLog (py "info") message).
Definition log_error (message : pystr) : M unit := emit (EvLog (py "error") message).

(** [httpx.AsyncClient.request]: the next answer of the network. With
    nothing left to answer, the connection fails. *)
Definition send : M response :=
  fun w =>
    match network w with
    | [] => (Raise (TransportError (py "no answer")), w)
    | Reply r :: rest => (Return r, set_network rest w)
    | Fails reason :: rest => (Raise (TransportError reason), set_network rest w)
    end.

End PyOps.
Export PyOps.

(** ** media_platform/xhs/client.py *)

Module XHSClient.

(** The four header values computed by [help.sign]. *)
Record signs : Type := {
  sg_x_s : json;
  sg_x_t : json;
  sg_x_s_common : json;
  sg_x_b3_traceid : json
}.

(** What the client takes from outside this file: the browser page, the
    helpers of [help.py] and [field.py], and library functions. *)
Class Platform : Type := {
  (** [page.evaluate] of [window._webmsxyw(url, data)] *)
  page_webmsxyw : pystr -> option json -> dict;
  (** [page.evaluate] of [window.localStorage] *)
  page_local_storage : dict;
  (** [help.sign(a1, b1, x_s, x_t)], the last argument before [str] *)
  sign : json -> json -> json -> json -> signs;
  (** [help.get_search_id()]; it varies with the moment of the call *)
  get_search_id : list event -> pystr;
  (** [urllib.parse.urlencode] *)
  urlencode : dict -> pystr;
  (** [int(datetime.strptime(s, "%Y-%m-%d %H:%M:%S").timestamp())];
      [None] where [strptime] raises [ValueError] *)
  strptime_timestamp : pystr -> option Z;
  (** [SearchSortType.GENERAL.value] and [SearchNoteType.ALL.value] *)
  SearchSortType_GENERAL : json;
  SearchNoteType_ALL : json;
  (** how floats are written and read *)
  float_codec :: FloatCodec
}.

Definition _host : pystr := py "https://edith.xiaohongshu.com".
Definition IP_ERROR_STR : pystr := py "网络连接异常，请检查网络设置或重启试试".
Definition IP_ERROR_CODE : Z := 300012.
Definition NOTE_ABNORMAL_STR : pystr := py "笔记状态异常，请稍后查看".
Definition NOTE_ABNORMAL_CODE : Z := -510001.

(** [NoteType.NORMAL.value] and [NoteType.VIDEO.value] *)
Definition NoteType_NORMAL : pystr := py "normal".
Definition NoteType_VIDEO : pystr := py "video".

(** A caller's sink for [get_note_all_comments]. *)
Definition callback_t : Type := pystr -> json -> M unit.

(** One turn of a [while] loop: leave it, or go on with the new state. *)
Inductive loop_step (S : Type) : Type :=
| Break
| Next (s : S).
Arguments Break {S}.
Arguments Next {S} s.

Section Methods.
Context {P : Platform}.

Definition _pre_headers (url : pystr) (data : option json) : M dict :=
  emit (EvSign url data) ;;
  w <- get_world ;;
  let encrypt_params := page_webmsxyw url data in
  let local_storage := page_local_storage in
  let signs :=
    sign (dict_get_default (py "a1") (JStr []) (cookie_dict w))
         (dict_get_default (py "b1") (JStr []) local_storage)
         (dict_get_default (py "X-s") (JStr []) encrypt_params)
         (dict_get_default (py "X-t") (JStr []) encrypt_params) in
  let headers' :=
    [(py "X-S", sg_x_s signs);
     (py "X-T", sg_x_t signs);
     (py "x-S-Common", sg_x_s_common signs);
     (py "X-B3-Traceid", sg_x_b3_traceid signs)] in
  (fun w => (Return tt, set_headers (dict_update (headers w) headers') w)) ;;
  w' <- get_world ;;
  ret (headers w').

(** What [request] does with the response once it has one. Only
    [JSONDecodeError] is caught around [response.json()]; any other
    exception of the decoder leaves [request]. *)
Definition handle_response (response : response) : M pyval :=
  match text response with
  | [] => ret (VResponse response)
  | _ :: _ =>
    match json_of response with
    | JSONDecodeError => ret (VResponse response)
    | DecoderRaised e => raise (decoder_exn e)
    | Decoded data =>
      success <- py_getitem data (py "success") ;;
      if truthy success then
        fallback <- py_get data (py "success") (JObj []) ;;
        payload <- py_get data (py "data") fallback ;;
        ret (VJson payload)
      else
        code <- py_getitem data (py "code") ;;
        if py_eq_int code IP_ERROR_CODE then raise (IPBlockError IP_ERROR_STR)
        else
          msg <- py_get data (py "msg") JNull ;;
          raise (DataFetchError msg)
    end
  end.

Definition request (method url : pystr) (hdrs : dict) (body : http_body) : M pyval :=
  emit (EvHttp method url hdrs body) ;;
  response <- send ;;
  handle_response response.

Definition get (uri : pystr) (params : option dict) : M pyval :=
  let final_uri :=
    match params with
    | Some p => uri ++ py "?" ++ urlencode p
    | None => uri
    end in
  hdrs <- _pre_headers final_uri None ;;
  request (py "GET") (_host ++ final_uri) hdrs NoBody.

Definition post (uri : pystr) (data : json) : M pyval :=
  hdrs <- _pre_headers uri (Some data) ;;
  let json_str := dumps false data in
  request (py "POST") (_host ++ uri) hdrs (TextBody json_str).

Definition get_note_by_keyword (keyword : pystr) (page page_size : Z)
    (sort note_type : json) : M pyval :=
  let uri := py "/api/sns/web/v1/search/notes" in
  w <- get_world ;;
  let data :=
    JObj [(py "keyword", JStr keyword);
          (py "page", JInt page);
          (py "page_size", JInt page_size);
          (py "search_id", JStr (get_search_id (trace w)));
          (py "sort", sort);
          (py "note_type", note_type)] in
  post uri data.

Definition pong : M bool :=
  log_info (py "[XHSClient.pong] Begin to pong xhs...") ;;
  try_except
    (note_card <- get_note_by_keyword (py "小红书") 1 20
                    SearchSortType_GENERAL SearchNoteType_ALL ;;
     items <- pv_get note_card (py "items") JNull ;;
     if truthy items then ret true else ret false)
    (fun e =>
       log_error (py "[XHSClient.pong] Ping xhs failed, and try to login again...") ;;
       ret false).

Definition get_note_comments (note_id : pystr) (cursor : json) : M pyval :=
  let uri := py "/api/sns/web/v2/comment/page" in
  let params := [(py "note_id", JStr note_id); (py "cursor", cursor)] in
  get uri (Some params).

(** The state of the loop of [get_note_all_comments]:
    [result], [comments_has_more], [comments_cursor]. *)
Definition crawl_state : Type := (list json * json * json)%type.

(** The body of [while comments_has_more:]. *)
Definition comments_page (note_id : pystr) (crawl_interval : spec_float)
    (callback : option callback_t) (result : list json) (comments_cursor : json)
  : M (loop_step crawl_state) :=
  comments_res <- get_note_comments note_id comments_cursor ;;
  comments_has_more <- pv_get comments_res (py "has_more") (JBool false) ;;
  comments_cursor' <- pv_get comments_res (py "cursor") (JStr []) ;;
  present <- pv_contains (py "comments") comments_res ;;
  if negb present then
    log_info (py "[XHSClient.get_note_all_comments] No 'comments' key found in response") ;;
    ret Break
  else
    comments <- pv_getitem comments_res (py "comments") ;;
    match callback with
    | Some cb => cb note_id comments
    | None => ret tt
    end ;;
    sleep crawl_interval ;;
    match py_iter comments with
    | Some items => ret (Next (result ++ items, comments_has_more, comments_cursor'))
    | None => raise TypeError
    end.

(** The [while] loop: [None] when [fuel] turns did not end it. *)
Fixpoint comments_loop (fuel : nat) (note_id : pystr) (crawl_interval : spec_float)
    (callback : option callback_t) (st : crawl_state) (w : world) {struct fuel}
  : option (result (list json) * world) :=
  let '(result, comments_has_more, comments_cursor) := st in
  if truthy comments_has_more then
    match fuel with
    | O => None
    | S fuel' =>
      match comments_page note_id crawl_interval callback result comments_cursor w with
      | (Raise e, w') => Some (Raise e, w')
      | (Return Break, w') => Some (Return result, w')
      | (Return (Next st'), w') =>
        comments_loop fuel' note_id crawl_interval callback st' w'
      end
    end
  else Some (Return result, w).

Definition get_note_all_comments (fuel : nat) (note_id : pystr)
    (crawl_interval : spec_float) (callback : option callback_t) (w : world)
  : option (result (list json) * world) :=
  comments_loop fuel note_id crawl_interval callback ([], JBool true, JStr []) w.

Definition get_upload_files_permit (file_type : pystr) (count : Z) : M (json * json) :=
  let uri := py "/api/media/v1/upload/web/permit" in
  let params :=
    [(py "biz_name", JStr (py "spectrum"));
     (py "scene", JStr file_type);
     (py "file_count", JInt count);
     (py "version", JStr (py "1"));
     (py "source", JStr (py "web"))] in
  res <- get uri (Some params) ;;
  permits <- pv_getitem res (py "uploadTempPermits") ;;
  temp_permit <- py_first permits ;;
  file_ids <- py_getitem temp_permit (py "fileIds") ;;
  file_id <- py_first file_ids ;;
  token <- py_getitem temp_permit (py "token") ;;
  ret (file_id, token).

Definition max_file_size : Z := 5 * 1024 * 1024.

Definition upload_file (file_id token : json) (file_path content_type : pystr)
  : M pyval :=
  url <- str_concat (py "https://ros-upload.xiaohongshu.com/") file_id ;;
  size <- getsize file_path ;;
  if (max_file_size <? size)%Z && str_eqb content_type (py "video/mp4") then
    raise (Exception (py "video too large, < 5M"))
  else
    let hdrs := [(py "X-Cos-Security-Token", token);
                 (py "Content-Type", JStr content_type)] in
    f <- open_rb file_path ;;
    request (py "PUT") url hdrs (FileBody f).

(** The value bound to [post_time] after the first statement of
    [create_note]: epoch milliseconds for a non-empty string, the argument
    itself for [None] and for the empty string. *)
Definition post_time_value (post_time : option pystr) : M json :=
  match post_time with
  | Some (c :: s) =>
    match strptime_timestamp (c :: s) with
    | Some seconds => ret (JInt (seconds * 1000))
    | None => raise ValueError
    end
  | Some [] => ret (JStr [])
  | None => ret JNull
  end.

Definition business_binds_of (post_time : json) : json :=
  JObj [(py "version", JInt 1);
        (py "noteId", JInt 0);
        (py "noteOrderBind", JObj []);
        (py "notePostTiming", JObj [(py "postTime", post_time)]);
        (py "noteCollectionBind", JObj [(py "id", JStr [])])].

Definition quote : pystr := [34%N].
Definition backslash : pystr := [92%N].

(** The literal bound to ["source"]. *)
Definition note_source : pystr :=
  py "{" ++ quote ++ py "type" ++ quote ++ py ":" ++ quote ++ py "web" ++ quote
  ++ py "," ++ quote ++ py "ids" ++ quote ++ py ":" ++ quote ++ quote
  ++ py "," ++ quote ++ py "extraInfo" ++ quote ++ py ":" ++ quote
  ++ py "{" ++ backslash ++ quote ++ py "subType" ++ backslash ++ quote ++ py ":"
  ++ backslash ++ quote ++ py "official" ++ backslash ++ quote ++ py "}"
  ++ quote ++ py "}".

(** The dictionary [data] that [create_note] posts. *)
Definition note_payload (title desc note_type ats topics image_info video_info : json)
    (post_time : json) (is_private : bool) : json :=
  JObj [(py "common",
         JObj [(py "type", note_type);
               (py "title", title);
               (py "note_id", JStr []);
               (py "desc", desc);
               (py "source", JStr note_source);
               (py "business_binds", JStr (dumps true (business_binds_of post_time)));
               (py "ats", ats);
               (py "hash_tag", topics);
               (py "post_loc", JObj []);
               (py "privacy_info",
                JObj [(py "op_type", JInt 1);
                      (py "type", JInt (if is_private then 1 else 0))])]);
        (py "image_info", image_info);
        (py "video_info", video_info)].

Definition create_note (title desc note_type ats topics image_info video_info : json)
    (post_time : option pystr) (is_private : bool) : M pyval :=
  post_time' <- post_time_value post_time ;;
  let uri := py "/web_api/sns/v2/note" in
  let data := note_payload title desc note_type ats topics image_info video_info
                           post_time' is_private in
  emit (EvPrint data) ;;
  post uri data.

(** The literal bound to ["extra_info_json"]. *)
Definition image_extra_info : pystr :=
  py "{" ++ quote ++ py "mimeType" ++ quote ++ py ":" ++ quote ++ py "image/jpeg"
  ++ quote ++ py "}".

Definition image_descriptor (image_id : json) : json :=
  JObj [(py "file_id", image_id);
        (py "metadata", JObj [(py "source", JInt (-1))]);
        (py "stickers", JObj [(py "version", JInt 2); (py "floating", JArr [])]);
        (py "extra_info_json", JStr image_extra_info)].

(** The [for file in files:] loop of [create_image_note]. *)
Fixpoint upload_images (files : list pystr) (images : list json) : M (list json) :=
  match files with
  | [] => ret images
  | file :: rest =>
    permit <- get_upload_files_permit (py "image") 1 ;;
    let (image_id, token) := permit in
    upload_file image_id token file (py "image/jpeg") ;;
    upload_images rest (images ++ [image_descriptor image_id])
  end.

Definition create_image_note (title desc : json) (files : list pystr)
    (post_time : option pystr) (ats topics : json) (is_private : bool) : M pyval :=
  let ats := match ats with JNull => JArr [] | _ => ats end in
  let topics := match topics with JNull => JArr [] | _ => topics end in
  images <- upload_images files [] ;;
  create_note title desc (JStr NoteType_NORMAL) ats topics
              (JObj [(py "images", JArr images)]) JNull post_time is_private.

End Methods.

End XHSClient.
Export XHSClient.

(** ** media_platform/xhs/client.py: the remaining methods *)

Module XHSClientRest.

(** Truthiness of what [request] returned: a response object defines
    neither [__bool__] nor [__len__], so it is truthy. *)
Definition pv_truthy (v : pyval) : bool :=
  match v with
  | VJson j => truthy j
  | VResponse _ => true
  end.

Definition set_cookie_dict (c : dict) (w : world) : world :=
  {| headers := headers w; cookie_dict := c; network := network w;
     files := files w; trace := trace w |}.

Section Methods.
Context {P : Platform}.

Definition get_self_info : M pyval :=
  let uri := py "/api/sns/web/v1/user/selfinfo" in
  get uri None.

Definition get_note_by_id (note_id : pystr) : M json :=
  let data := JObj [(py "source_note_id", JStr note_id)] in
  let uri := py "/api/sns/web/v1/feed" in
  res <- post uri data ;;
  found <- (if pv_truthy res then
              items <- pv_get res (py "items") JNull ;;
              ret (truthy items)
            else ret false) ;;
  if found then
    items <- pv_getitem res (py "items") ;;
    first <- py_first items ;;
    res_dict <- py_getitem first (py "note_card") ;;
    ret res_dict
  else
    log_error (py "[XHSClient.get_note_by_id] get note empty and res") ;;
    ret (JObj []).

Definition get_note_sub_comments (note_id root_comment_id : pystr) (num : Z)
    (cursor : json) : M pyval :=
  let uri := py "/api/sns/web/v2/comment/sub/page" in
  let params :=
    [(py "note_id", JStr note_id);
     (py "root_comment_id", JStr root_comment_id);
     (py "num", JInt num);
     (py "cursor", cursor)] in
  get uri (Some params).

End Methods.

Section Cookies.
(** [utils.convert_cookies], applied to what [browser_context.cookies()]
    gave: the header string and the dictionary. *)
Variable convert_cookies : json -> pystr * dict.

Definition update_cookies (browser_cookies : json) : M unit :=
  let (cookie_str, cookie_dict') := convert_cookies browser_cookies in
  fun w =>
    (Return tt,
     set_cookie_dict cookie_dict'
       (set_headers (dict_set (py "Cookie") (JStr cookie_str) (headers w)) w)).

End Cookies.

End XHSClientRest.
Export XHSClientRest.

(** ** The vocabulary of the specification *)

Module Spec.

(** The four outcomes of a request. *)
Inductive variant : Type :=
| Success
| PlatformError
| IPBlocked
| RawHTTP.

(** How an outcome of [request] reads as a variant; any other exception
    is none of them. *)
Definition variant_of (r : result pyval) : option variant :=
  match r with
  | Return (VJson _) => Some Success
  | Return (VResponse _) => Some RawHTTP
  | Raise (IPBlockError _) => Some IPBlocked
  | Raise (DataFetchError _) => Some PlatformError
  | Raise _ => None
  end.

(** The classification rule, by the two facts it may depend on. *)
Definition classification (success code_is_ip_block : bool) : variant :=
  if success then Success
  else if code_is_ip_block then IPBlocked
  else PlatformError.

(** A sink that does nothing but record its invocation. *)
Definition recording_sink : callback_t :=
  fun note_id comments => emit (EvCallback note_id comments).

Definition sink (supplied : bool) : option callback_t :=
  if supplied then Some recording_sink else None.

(** The invocations of the sink, the sleeps and the HTTP requests
    (method and URL) of a trace, in order. *)
Definition callbacks_of (t : list event) : list (pystr * json) :=
  flat_map (fun e => match e with EvCallback i c => [(i, c)] | _ => [] end) t.

Definition sleeps_of (t : list event) : list spec_float :=
  flat_map (fun e => match e with EvSleep s => [s] | _ => [] end) t.

Definition requests_of (t : list event) : list (pystr * pystr) :=
  flat_map (fun e => match e with EvHttp m u _ _ => [(m, u)] | _ => [] end) t.

Definition signatures_of (t : list event) : list pystr :=
  flat_map (fun e => match e with EvSign u _ => [u] | _ => [] end) t.

Definition prints_of (t : list event) : list json :=
  flat_map (fun e => match e with EvPrint v => [v] | _ => [] end) t.

(** A call that leaves the world as it found it. *)
Definition pure_call {A : Type} (c : M A) : Prop := forall w, snd (c w) = w.

(** A call that sends nothing: the answers still to come stay the same. *)
Definition keeps_network {A : Type} (c : M A) : Prop :=
  forall w, network (snd (c w)) = network w.

(** Content types that denote a video, and an image. *)
Definition denotes_video (content_type : pystr) : bool :=
  is_prefix (py "video/") content_type.

Definition denotes_image (content_type : pystr) : bool :=
  is_prefix (py "image/") content_type.

(** The size of a local file, if it is there. *)
Definition file_size (w : world) (path : pystr) : option Z :=
  option_map snd (find (fun f => str_eqb path (fst f)) (files w)).

Definition size_limit_error : exn := Exception (py "video too large, < 5M").

Definition upload_url (file_id : pystr) : pystr :=
  py "https://ros-upload.xiaohongshu.com/" ++ file_id.

Definition upload_headers (token : json) (content_type : pystr) : dict :=
  [(py "X-Cos-Security-Token", token); (py "Content-Type", JStr content_type)].

(** Values [dumps] and [loads] take to themselves: every [dict] with
    distinct keys, as a Python [dict] has them, and every float among
    those [ok] admits. *)
Fixpoint distinct_keys (d : dict) : bool :=
  match d with
  | [] => true
  | (k, _) :: d' => negb (dict_mem k d') && distinct_keys d'
  end.

Fixpoint plain (ok : spec_float -> bool) (v : json) : bool :=
  match v with
  | JFloat f => ok f
  | JArr l => forallb (plain ok) l
  | JObj d => forallb (fun kv => plain ok (snd kv)) d && distinct_keys d
  | _ => true
  end.

(** No float at all, and no float but [0.0]. *)
Definition no_floats : spec_float -> bool := fun _ => false.

Definition only_zero (f : spec_float) : bool :=
  match f with
  | S754_zero false => true
  | _ => false
  end.

(** What may follow a value in compact JSON text: the end, a comma, a
    closing bracket or a closing brace. *)
Definition value_ends (rest : pystr) : bool :=
  match rest with
  | [] => true
  | c :: _ => ((c =? 44) || (c =? 93) || (c =? 125))%N
  end.

(** The characters a value's text can start with. *)
Definition value_start (c : N) : bool :=
  ((c =? 110) || (c =? 116) || (c =? 102) || (c =? 34) || (c =? 91)
   || (c =? 123) || (c =? 45) || (c =? 78) || (c =? 73))%N || is_digit c.

(** The characters the text of a float can start with: a minus sign, a
    digit, or the first letter of [NaN] and [Infinity]. *)
Definition float_start (c : N) : bool :=
  ((c =? 45) || (c =? 78) || (c =? 73))%N || is_digit c.

Definition no_digit_ahead (rest : pystr) : Prop :=
  match rest with
  | [] => True
  | c :: _ => is_digit c = false
  end.

Definition printable (c : N) : bool := ((32 <=? c) && (c <=? 126))%N.

(** Values whose strings are printable ASCII throughout. *)
Fixpoint ascii_only (v : json) : bool :=
  match v with
  | JStr s => forallb printable s
  | JArr l => forallb ascii_only l
  | JObj d => forallb (fun kv => forallb printable (fst kv) && ascii_only (snd kv)) d
  | _ => true
  end.

Section Texts.
Context {FC : FloatCodec}.

(** The text of the elements of a list and of the members of a
    dictionary, as [dumps] writes them between the brackets. *)
Definition elems_text (l : list json) : pystr :=
  join [44%N] (map (dumps false) l).

Definition member_text (kv : pystr * json) : pystr :=
  encode_basestring false (fst kv) ++ 58%N :: dumps false (snd kv).

Definition members_text (d : dict) : pystr :=
  join [44%N] (map member_text d).

(** The text of a float is read back as that float. *)
Definition float_reads_back (f : spec_float) : Prop :=
  (exists c t, float_repr f = c :: t /\ float_start c = true) /\
  (forall rest, value_ends rest = true ->
                scan_atom (float_repr f ++ rest) = Some (JFloat f, rest)).

(** What follows the first element, and the first member. *)
Definition more_elems (l : list json) : pystr :=
  match l with
  | [] => []
  | _ :: _ => 44%N :: elems_text l
  end.

Definition more_members (d : dict) : pystr :=
  match d with
  | [] => []
  | _ :: _ => 44%N :: members_text d
  end.

(** The decoder reads back what the encoder wrote, with [n] units of
    fuel: for a value, for the elements of a list after its bracket, and
    for the members of a dictionary after the quote of the first key. *)
Definition value_roundtrip (ok : spec_float -> bool) (n : nat) : Prop :=
  forall (v : json) (rest : pystr),
    plain ok v = true ->
    (List.length (dumps false v) <= n)%nat ->
    value_ends rest = true ->
    parse_value n (dumps false v ++ rest) = Some (v, rest).

Definition elems_roundtrip (ok : spec_float -> bool) (n : nat) : Prop :=
  forall (v : json) (l : list json) (rest : pystr),
    forallb (plain ok) (v :: l) = true ->
    (List.length (elems_text (v :: l)) < n)%nat ->
    parse_elems n (dumps false v ++ more_elems l ++ 93%N :: rest)
    = Some (v :: l, rest).

Definition members_roundtrip (ok : spec_float -> bool) (n : nat) : Prop :=
  forall (k : pystr) (v : json) (d : dict) (rest : pystr),
    forallb (fun kv => plain ok (snd kv)) ((k, v) :: d) = true ->
    (List.length (members_text ((k, v) :: d)) < n)%nat ->
    parse_members n (flat_map (escape_char false) k
                     ++ 34%N :: 58%N :: dumps false v
                     ++ more_members d ++ 125%N :: rest)
    = Some ((k, v) :: d, rest).

End Texts.

Section Replies.
Context {P : Platform}.

(** The answer of the platform to a successful call: an envelope with
    [success] true around [data]. *)
Definition envelope (data : json) : json :=
  JObj [(py "success", JBool true); (py "data", data)].

Definition envelope_reply (data : json) : transport :=
  Reply {| status_code := 200;
           text := dumps false (envelope data);
           json_of := Decoded (envelope data) |}.

(** One page of comments, by the fields the crawl reads. *)
Definition page (cursor has_more : json) (items : list json) : dict :=
  [(py "cursor", cursor); (py "has_more", has_more); (py "comments", JArr items)].

Definition page_reply (d : dict) : transport := envelope_reply (JObj d).

Definition page_has_more (d : dict) : json :=
  dict_get_default (py "has_more") (JBool false) d.

Definition page_items (d : dict) : list json :=
  match dict_get (py "comments") d with
  | Some comments =>
    match py_iter comments with
    | Some items => items
    | None => []
    end
  | None => []
  end.

(** A page after which the crawl goes on: its items are there and can be
    added, and [has_more] holds. *)
Definition page_continues (d : dict) : bool :=
  match dict_get (py "comments") d with
  | Some comments =>
    match py_iter comments with
    | Some _ => truthy (page_has_more d)
    | None => false
    end
  | None => false
  end.

(** A page that lacks the items key. *)
Definition page_comments (d : dict) : json :=
  dict_get_default (py "comments") JNull d.

Definition page_cursor (d : dict) : json :=
  dict_get_default (py "cursor") (JStr []) d.

Definition page_malformed (d : dict) : bool := negb (dict_mem (py "comments") d).

(** A well-formed page that is the last one. *)
Definition page_last (d : dict) : bool :=
  match dict_get (py "comments") d with
  | Some comments =>
    match py_iter comments with
    | Some _ => negb (truthy (page_has_more d))
    | None => false
    end
  | None => false
  end.

Definition comments_uri (note_id : pystr) (cursor : json) : pystr :=
  py "/api/sns/web/v2/comment/page" ++ py "?"
  ++ urlencode [(py "note_id", JStr note_id); (py "cursor", cursor)].

Definition permit_uri : pystr :=
  py "/api/media/v1/upload/web/permit" ++ py "?"
  ++ urlencode [(py "biz_name", JStr (py "spectrum"));
                (py "scene", JStr (py "image"));
                (py "file_count", JInt 1);
                (py "version", JStr (py "1"));
                (py "source", JStr (py "web"))].

Definition note_uri : pystr := py "/web_api/sns/v2/note".

(** The probe [pong] sends, in the world [pong] sends it from. *)
Definition pong_probe (w : world) : result pyval * world :=
  get_note_by_keyword (py "小红书") 1 20 SearchSortType_GENERAL SearchNoteType_ALL
    (add_event (EvLog (py "info") (py "[XHSClient.pong] Begin to pong xhs...")) w).

(** The world after [_pre_headers url data]: the signature is recorded and
    the four signature headers are set. *)
Definition signed (url : pystr) (data : option json) (w : world) : world :=
  let w1 := add_event (EvSign url data) w in
  let signs :=
    sign (dict_get_default (py "a1") (JStr []) (cookie_dict w1))
         (dict_get_default (py "b1") (JStr []) page_local_storage)
         (dict_get_default (py "X-s") (JStr []) (page_webmsxyw url data))
         (dict_get_default (py "X-t") (JStr []) (page_webmsxyw url data)) in
  set_headers
    (dict_update (headers w1)
       [(py "X-S", sg_x_s signs);
        (py "X-T", sg_x_t signs);
        (py "x-S-Common", sg_x_s_common signs);
        (py "X-B3-Traceid", sg_x_b3_traceid signs)])
    w1.

(** The world after a signed GET of [final_uri] was sent and answered,
    with [rest] left on the network. *)
Definition after_get (final_uri : pystr) (rest : list transport) (w : world) : world :=
  let w1 := signed final_uri None w in
  set_network rest
    (add_event (EvHttp (py "GET") (_host ++ final_uri) (headers w1) NoBody) w1).

(** The events one well-formed page leaves after its request. *)
Definition page_events (supplied : bool) (note_id : pystr) (interval : spec_float)
    (comments : json) : list event :=
  (if supplied then [EvCallback note_id comments] else []) ++ [EvSleep interval].

Definition add_events (es : list event) (w : world) : world :=
  fold_left (fun acc e => add_event e acc) es w.

(** What a world has seen more than an earlier one, by the projections
    the properties below read: invocations of the sink, sleeps, HTTP
    requests. *)
Record grew (interval : spec_float) (w w' : world) (calls : list (pystr * json))
    (sleeps requests : nat) : Prop := {
  grew_callbacks : callbacks_of (trace w') = callbacks_of (trace w) ++ calls;
  grew_sleeps : sleeps_of (trace w') = sleeps_of (trace w) ++ repeat interval sleeps;
  grew_requests :
    List.length (requests_of (trace w'))
    = (List.length (requests_of (trace w)) + requests)%nat
}.

(** The invocations of the sink over a run of pages. *)
Definition sink_calls (supplied : bool) (note_id : pystr) (pages : list dict)
  : list (pystr * json) :=
  if supplied then map (fun d => (note_id, page_comments d)) pages else [].

End Replies.

(** A concrete platform, for running the client on examples. *)
Definition demo_float_codec : FloatCodec :=
  {| float_repr := fun _ => py "0.0";
     float_of_literal := fun _ => S754_zero false |}.

Definition demo_platform : Platform :=
  {| page_webmsxyw := fun url _ => [(py "X-s", JStr url); (py "X-t", JInt 1700000000)];
     page_local_storage := [(py "b1", JStr (py "b1-value"))];
     sign := fun a1 b1 x_s x_t =>
       {| sg_x_s := x_s; sg_x_t := x_t; sg_x_s_common := b1; sg_x_b3_traceid := a1 |};
     get_search_id := fun t => py "search-" ++ repeat 49%N (List.length t);
     urlencode := fun d =>
       join (py "&")
            (map (fun kv => fst kv ++ py "=" ++
                            match snd kv with
                            | JStr s => s
                            | v => @dumps demo_float_codec false v
                            end) d);
     strptime_timestamp := fun s =>
       if str_eqb s (py "2023-10-11 12:11:11") then Some 1697026271%Z else None;
     SearchSortType_GENERAL := JStr (py "general");
     SearchNoteType_ALL := JInt 0;
     float_codec := demo_float_codec |}.

(** One second, as the default [crawl_interval = 1.0]. *)
Definition one_second : spec_float := S754_finite false 4503599627370496 (-52).

(** The platform's answer to a permit request, and an empty answer to a
    transfer. *)
Definition demo_permit_reply (file_id token : pystr) : transport :=
  @envelope_reply demo_platform
    (JObj [(py "uploadTempPermits",
            JArr [JObj [(py "fileIds", JArr [JStr file_id]);
                        (py "token", JStr token)]])]).

Definition demo_empty_reply : transport :=
  Reply {| status_code := 200; text := []; json_of := JSONDecodeError |}.

(** A rejection by the upload host: status 403 and a body that is not
    JSON. *)
Definition demo_rejected_reply : transport :=
  Reply {| status_code := 403; text := py "<Error>AccessDenied</Error>";
           json_of := JSONDecodeError |}.

Definition demo_world (net : list transport) : world :=
  {| headers := [(py "User-Agent", JStr (py "Mozilla/5.0"))];
     cookie_dict := [(py "a1", JStr (py "a1-value"))];
     network := net;
     files := [(py "a.jpg", 1000%Z); (py "b.jpg", 2000%Z); (py "c.jpg", 3000%Z);
               (py "big.mp4", 6291456%Z); (py "five.mp4", 5242880%Z);
               (py "big.jpg", 6291456%Z)];
     trace := [] |}.

End Spec.
Export Spec.

(** ** Further vocabulary *)

Module SpecRest.

(** The keys [_pre_headers] sets. *)
Definition signature_keys : list pystr :=
  [py "X-S"; py "X-T"; py "x-S-Common"; py "X-B3-Traceid"].

Definition is_signature_key (k : pystr) : bool :=
  existsb (str_eqb k) signature_keys.

Definition keys_of (d : dict) : list pystr := map fst d.

(** The transfers of a trace: URL, headers and body of each PUT. *)
Definition uploads_of (t : list event) : list (pystr * dict * http_body) :=
  flat_map (fun e =>
              match e with
              | EvHttp m u h b => if str_eqb m (py "PUT") then [(u, h, b)] else []
              | _ => []
              end) t.

(** The bodies posted, with their URLs. *)
Definition posts_of (t : list event) : list (pystr * http_body) :=
  flat_map (fun e =>
              match e with
              | EvHttp m u _ b => if str_eqb m (py "POST") then [(u, b)] else []
              | _ => []
              end) t.



(** Text no character of which [dumps] escapes when [ensure_ascii] is off. *)
Definition unescaped (c : N) : bool :=
  ((32 <=? c) && negb (c =? 34) && negb (c =? 92))%N.

(** A decoded body that is not an envelope [request] can classify: not an
    object, an object without [success], or a falsy [success] without
    [code]; with the exception each one makes [request] raise. *)
Definition envelope_fault (data : json) : option exn :=
  match data with
  | JObj d =>
    match dict_get (py "success") d with
    | None => Some (KeyError (JStr (py "success")))
    | Some success =>
      if truthy success then None
      else if dict_mem (py "code") d then None
      else Some (KeyError (JStr (py "code")))
    end
  | _ => Some TypeError
  end.

(** The body of a search, and of the request for one note. *)
Definition search_data (keyword : pystr) (page page_size : Z) (search_id : pystr)
    (sort note_type : json) : json :=
  JObj [(py "keyword", JStr keyword);
        (py "page", JInt page);
        (py "page_size", JInt page_size);
        (py "search_id", JStr search_id);
        (py "sort", sort);
        (py "note_type", note_type)].

Definition feed_data (note_id : pystr) : json :=
  JObj [(py "source_note_id", JStr note_id)].

(** A payload in which [get_note_by_id] finds no note: it is falsy, or it
    is a dictionary whose [items] is missing or falsy. *)
Definition note_absent (res : json) : bool :=
  negb (truthy res)
  || match res with
     | JObj d => negb (truthy (dict_get_default (py "items") JNull d))
     | _ => false
     end.

(** What [request] returned is not a dictionary: a raw response, or a
    payload of another type. *)
Definition not_dict (v : pyval) : bool :=
  match v with
  | VJson (JObj _) => false
  | _ => true
  end.

(** The answer of the platform that blocks the address. *)
Definition ip_block_response : response :=
  {| status_code := 200;
     text := py "blocked";
     json_of := Decoded (JObj [(py "success", JBool false);
                               (py "code", JInt 300012)]) |}.



Definition note_empty : event :=
  EvLog (py "error") (py "[XHSClient.get_note_by_id] get note empty and res").

(** One file to upload, with the permit the platform will give for it. *)
Record transfer : Type := {
  tr_file : pystr;
  tr_file_id : pystr;
  tr_token : pystr
}.

Section Scripts.
Context {P : Platform}.

(** The four signature headers for a URL and a body, in a world. *)
Definition signature_of (url : pystr) (data : option json) (w : world) : signs :=
  sign (dict_get_default (py "a1") (JStr []) (cookie_dict w))
       (dict_get_default (py "b1") (JStr []) page_local_storage)
       (dict_get_default (py "X-s") (JStr []) (page_webmsxyw url data))
       (dict_get_default (py "X-t") (JStr []) (page_webmsxyw url data)).

(** The [data] of a permit answer: the first permit block with its first
    file id and its token, and whatever follows them. *)
Definition permit_data (file_id token : json) (more_ids more_permits : list json)
  : json :=
  JObj [(py "uploadTempPermits",
         JArr (JObj [(py "fileIds", JArr (file_id :: more_ids));
                     (py "token", token)] :: more_permits))].

Definition permit_reply (t : transfer) : transport :=
  envelope_reply (permit_data (JStr (tr_file_id t)) (JStr (tr_token t)) [] []).

(** An answer to a transfer that [request] returns: an empty body. *)
Definition transfer_done : transport :=
  Reply {| status_code := 200; text := []; json_of := JSONDecodeError |}.

(** The answers to the permit and the transfer of each file, in order. *)
Definition transfer_script (ts : list transfer) : list transport :=
  flat_map (fun t => [permit_reply t; transfer_done]) ts.

Definition transfer_requests (ts : list transfer) : list (pystr * pystr) :=
  flat_map (fun t => [(py "GET", _host ++ permit_uri);
                      (py "PUT", upload_url (tr_file_id t))]) ts.

Definition transfer_uploads (ts : list transfer) : list (pystr * dict * http_body) :=
  map (fun t => (upload_url (tr_file_id t),
                 upload_headers (JStr (tr_token t)) (py "image/jpeg"),
                 FileBody (tr_file t))) ts.

Definition files_present (w : world) (ts : list transfer) : bool :=
  forallb (fun t => match file_size w (tr_file t) with
                    | Some _ => true
                    | None => false
                    end) ts.

(** The payload [create_image_note] publishes for these transfers. *)
Definition image_note_payload (title desc : json) (ts : list transfer)
    (post_time ats topics : json) (is_private : bool) : json :=
  note_payload title desc (JStr NoteType_NORMAL)
    (match ats with JNull => JArr [] | _ => ats end)
    (match topics with JNull => JArr [] | _ => topics end)
    (JObj [(py "images",
            JArr (map (fun t => image_descriptor (JStr (tr_file_id t))) ts))])
    JNull post_time is_private.

(** The requests of a run of pages that all go on, from the cursor the
    first is asked with, and the cursor the run ends with. *)
Fixpoint chain_requests (note_id : pystr) (cursor : json) (pages : list dict)
  : list (pystr * pystr) :=
  match pages with
  | [] => []
  | d :: pages' =>
    (py "GET", _host ++ comments_uri note_id cursor)
    :: chain_requests note_id (page_cursor d) pages'
  end.

Fixpoint chain_end (cursor : json) (pages : list dict) : json :=
  match pages with
  | [] => cursor
  | d :: pages' => chain_end (page_cursor d) pages'
  end.

Definition search_uri : pystr := py "/api/sns/web/v1/search/notes".
Definition feed_uri : pystr := py "/api/sns/web/v1/feed".

(** The path and query of a permit request. *)
Definition permit_uri_for (file_type : pystr) (count : Z) : pystr :=
  py "/api/media/v1/upload/web/permit" ++ py "?"
  ++ urlencode [(py "biz_name", JStr (py "spectrum"));
                (py "scene", JStr file_type);
                (py "file_count", JInt count);
                (py "version", JStr (py "1"));
                (py "source", JStr (py "web"))].


End Scripts.

Definition demo_transfers : list transfer :=
  [{| tr_file := py "a.jpg"; tr_file_id := py "file-1"; tr_token := py "token-1" |};
   {| tr_file := py "b.jpg"; tr_file_id := py "file-2"; tr_token := py "token-2" |}].

End SpecRest.
Export SpecRest.

(* ===================================================================== *)
(** * Part II: properties *)
(* ===================================================================== *)

(** ** Strings and dictionaries *)

Lemma str_eqb_refl (a : pystr) : str_eqb a a = true.
Proof.
  induction a as [|x a IH]; simpl; [reflexivity|].
  now rewrite N.eqb_refl, IH.
Qed.

Lemma str_eqb_eq (a b : pystr) : str_eqb a b = true <-> a = b.
Proof.
  split.
  - revert b. induction a as [|x a IH]; intros [|y b]; simpl; try discriminate; auto.
    intros H. apply andb_true_iff in H. destruct H as [Hx Hr].
    apply N.eqb_eq in Hx. apply IH in Hr. now subst.
  - intros ->. apply str_eqb_refl.
Qed.

Lemma str_eqb_neq (a b : pystr) : str_eqb a b = false <-> a <> b.
Proof.
  split.
  - intros H E. apply str_eqb_eq in E. congruence.
  - intros H. destruct (str_eqb a b) eqn:E; [|reflexivity].
    apply str_eqb_eq in E. contradiction.
Qed.

Example demo_request_ip_blocked :
  fst (request (py "GET") (py "https://x") [] NoBody
         (demo_world [Reply {| status_code := 200; text := py "{...}";
                               json_of := Decoded (JObj [(py "success", JBool false);
                                                         (py "code", JFloat (S754_finite false 300012 0))]) |}]))
  = Raise (IPBlockError IP_ERROR_STR).
Proof. vm_compute. reflexivity. Qed.

(** ** The request executor *)

Ltac unfold_monad :=
  unfold pv_getitem, pv_get, pv_contains in *;
  unfold py_getitem, py_get, py_first, py_contains, str_concat in *;
  unfold bind, ret, raise, try_except, sleep, log_info, log_error, emit,
    get_world in *.

(** The response never changes the world: classification is a function of
    the response alone. *)
Lemma handle_response_world (r : response) (w : world) :
  snd (handle_response r w) = w.
Proof.
  unfold handle_response.
  destruct (text r); [reflexivity|].
  destruct (json_of r) as [data| |e]; [|reflexivity|reflexivity].
  destruct data; try reflexivity.
  unfold_monad.
  destruct (dict_get (py "success") d) as [s|]; [|reflexivity].
  destruct (truthy s); [reflexivity|].
  destruct (dict_get (py "code") d) as [c|]; [|reflexivity].
  destruct (py_eq_int c IP_ERROR_CODE); reflexivity.
Qed.

Lemma handle_response_fst (r : response) (w w' : world) :
  fst (handle_response r w) = fst (handle_response r w').
Proof.
  unfold handle_response.
  destruct (text r); [reflexivity|].
  destruct (json_of r) as [data| |e]; [|reflexivity|reflexivity].
  destruct data; try reflexivity.
  unfold_monad.
  destruct (dict_get (py "success") d) as [s|]; [|reflexivity].
  destruct (truthy s); [reflexivity|].
  destruct (dict_get (py "code") d) as [c|]; [|reflexivity].
  destruct (py_eq_int c IP_ERROR_CODE); reflexivity.
Qed.

(** One request: the event, then the next answer of the network. *)
Lemma request_reply (method url : pystr) (hdrs : dict) (body : http_body)
    (r : response) (rest : list transport) (w : world) :
  network w = Reply r :: rest ->
  request method url hdrs body w
  = handle_response r (set_network rest (add_event (EvHttp method url hdrs body) w)).
Proof.
  intros H. unfold request, send. unfold_monad. simpl. now rewrite H.
Qed.


(** A request leaves exactly one event, whatever its outcome. *)
Lemma request_trace (method url : pystr) (hdrs : dict) (body : http_body) (w : world) :
  trace (snd (request method url hdrs body w))
  = trace w ++ [EvHttp method url hdrs body].
Proof.
  unfold request, send. unfold_monad. simpl.
  destruct (network w) as [|[r|reason] rest]; simpl; try reflexivity.
  rewrite handle_response_world. reflexivity.
Qed.

(** The outcome of [handle_response] on an envelope that is an object with
    a [success] key and, where [success] is falsy, a [code] key. *)
Lemma handle_response_envelope (r : response) (d : dict) (success code : json)
    (w : world) :
  text r <> [] ->
  json_of r = Decoded (JObj d) ->
  dict_get (py "success") d = Some success ->
  (truthy success = false -> dict_get (py "code") d = Some code) ->
  fst (handle_response r w)
  = if truthy success
    then Return (VJson (dict_get_default (py "data") success d))
    else if py_eq_int code IP_ERROR_CODE
         then Raise (IPBlockError IP_ERROR_STR)
         else Raise (DataFetchError (dict_get_default (py "msg") JNull d)).
Proof.
  intros Ht Hj Hs Hc. unfold handle_response.
  destruct (text r); [congruence|]. rewrite Hj.
  unfold_monad. rewrite Hs.
  destruct (truthy success) eqn:E.
  - simpl. unfold dict_get_default at 2. now rewrite Hs.
  - rewrite (Hc eq_refl). destruct (py_eq_int code IP_ERROR_CODE); reflexivity.
Qed.

(** C1, as stated, fails: an envelope without a [success] key is none of
    the four variants; [request] raises [KeyError]. *)
Lemma request_without_success_key_raises :
  let r := {| status_code := 200; text := py "{}"; json_of := Decoded (JObj []) |} in
  let out := fst (request (py "GET") (_host ++ py "/api/sns/web/v1/user/selfinfo")
                          [] NoBody (demo_world [Reply r])) in
  out = Raise (KeyError (JStr (py "success"))) /\ variant_of out = None.
Proof. split; vm_compute; reflexivity. Qed.

(** C1 (amended): an empty body, and a body on which the decoder raises
    [JSONDecodeError], give back the raw response; an envelope that is an
    object with a [success] key, and a [code] key where [success] is
    falsy, gives exactly one of Success, IPBlocked and PlatformError,
    chosen by the truth of [success] and by whether [code] equals the
    reserved code, by nothing else. *)
Theorem request_classifies (method url : pystr) (hdrs : dict) (body : http_body)
    (r : response) (rest : list transport) (w : world) :
  network w = Reply r :: rest ->
  (text r = [] \/ json_of r = JSONDecodeError ->
   fst (request method url hdrs body w) = Return (VResponse r)) /\
  (forall (d : dict) (success code : json),
     text r <> [] ->
     json_of r = Decoded (JObj d) ->
     dict_get (py "success") d = Some success ->
     (truthy success = false -> dict_get (py "code") d = Some code) ->
     variant_of (fst (request method url hdrs body w))
     = Some (classification (truthy success) (py_eq_int code IP_ERROR_CODE))).
Proof.
  intros Hn. rewrite (request_reply method url hdrs body r rest w Hn). split.
  - intros [Ht|Hj]; unfold handle_response.
    + now rewrite Ht.
    + destruct (text r); [reflexivity|]. now rewrite Hj.
  - intros d success code Ht Hj Hs Hc.
    rewrite (handle_response_envelope r d success code _ Ht Hj Hs Hc).
    unfold classification.
    destruct (truthy success); [reflexivity|].
    destruct (py_eq_int code IP_ERROR_CODE); reflexivity.
Qed.

Lemma request_classifies_witness :
  variant_of
    (fst (request (py "POST") (_host ++ py "/api/sns/web/v1/feed") [] NoBody
            (demo_world
               [Reply {| status_code := 200; text := py "{...}";
                         json_of := Decoded (JObj [(py "success", JBool false);
                                                   (py "code", JInt 300012)]) |}])))
  = Some IPBlocked.
Proof.
  set (d := [(py "success", JBool false); (py "code", JInt 300012)]).
  set (r := {| status_code := 200; text := py "{...}"; json_of := Decoded (JObj d) |}).
  refine (proj2 (request_classifies _ _ _ _ r [] (demo_world [Reply r]) eq_refl)
            d (JBool false) (JInt 300012) _ eq_refl eq_refl _).
  - vm_compute. discriminate.
  - intros _. reflexivity.
Defined.

(** [JSONDecodeError] is the one exception caught around the decoder: a
    body on which it raises another one, bytes that are not text among
    them, makes [request] raise that exception, which is none of the four
    variants. *)
Lemma request_decoder_error_propagates (method url : pystr) (hdrs : dict)
    (body : http_body) (r : response) (e : decoder_error)
    (rest : list transport) (w : world) :
  network w = Reply r :: rest ->
  text r <> [] ->
  json_of r = DecoderRaised e ->
  fst (request method url hdrs body w) = Raise (decoder_exn e)
  /\ variant_of (fst (request method url hdrs body w)) = None.
Proof.
  intros Hn Ht Hj. rewrite (request_reply method url hdrs body r rest w Hn).
  unfold handle_response. destruct (text r); [congruence|]. rewrite Hj.
  split; [reflexivity|]. destruct e; reflexivity.
Qed.

Example request_non_text_body_raises :
  fst (request (py "GET") (_host ++ py "/api/sns/web/v1/user/selfinfo") [] NoBody
         (demo_world
            [Reply {| status_code := 200; text := [65533%N];
                      json_of := DecoderRaised NotText |}]))
  = Raise UnicodeDecodeError.
Proof. vm_compute. reflexivity. Qed.

(** C2: with [success] true the outcome is Success, carrying [data] when
    the envelope has it and the flag itself when it has not. *)
Theorem request_success_payload (method url : pystr) (hdrs : dict) (body : http_body)
    (r : response) (rest : list transport) (w : world) (d : dict) :
  network w = Reply r :: rest ->
  text r <> [] ->
  json_of r = Decoded (JObj d) ->
  dict_get (py "success") d = Some (JBool true) ->
  fst (request method url hdrs body w)
  = Return (VJson (match dict_get (py "data") d with
                   | Some data => data
                   | None => JBool true
                   end))
  /\ variant_of (fst (request method url hdrs body w)) = Some Success.
Proof.
  intros Hn Ht Hj Hs. rewrite (request_reply method url hdrs body r rest w Hn).
  rewrite (handle_response_envelope r d (JBool true) JNull _ Ht Hj Hs); simpl.
  - split; reflexivity.
  - discriminate.
Qed.

Lemma request_success_payload_witness :
  fst (request (py "GET") (_host ++ py "/api/sns/web/v1/user/selfinfo") [] NoBody
         (demo_world
            [Reply {| status_code := 200; text := py "{...}";
                      json_of := Decoded (JObj [(py "success", JBool true)]) |}]))
  = Return (VJson (JBool true)).
Proof.
  set (d := [(py "success", JBool true)]).
  set (r := {| status_code := 200; text := py "{...}"; json_of := Decoded (JObj d) |}).
  refine (proj1 (request_success_payload _ _ _ _ r [] (demo_world [Reply r]) d
                   eq_refl _ eq_refl eq_refl)).
  vm_compute. discriminate.
Defined.

(** ** The liveness probe *)

(** A handler that always returns makes the whole [try] return. *)
Lemma try_except_returns {A : Type} (c : M A) (handler : exn -> M A) :
  (forall e w, exists a w', handler e w = (Return a, w')) ->
  forall w, exists a w', try_except c handler w = (Return a, w').
Proof.
  intros Hh w. unfold try_except.
  destruct (c w) as [[a|e] w1].
  - now exists a, w1.
  - apply Hh.
Qed.

Section Probe.
Context {P : Platform}.

(** C9: [pong] always returns, whatever the probe did; it returns [true]
    exactly when the probe returned a dictionary whose [items] is truthy. *)
Theorem pong_never_raises (w : world) :
  exists (b : bool) (w' : world),
    pong w = (Return b, w') /\
    (b = true <->
     exists d : dict,
       fst (pong_probe w) = Return (VJson (JObj d)) /\
       truthy (dict_get_default (py "items") JNull d) = true).
Proof.
  unfold pong, pong_probe.
  unfold bind at 1. unfold log_info at 1. unfold emit at 1.
  set (w0 := add_event _ w).
  unfold try_except. unfold bind at 1.
  destruct (get_note_by_keyword _ _ _ _ _ w0) as [[v|e] w1] eqn:E.
  - destruct v as [r|j].
    + simpl. eexists _, _. split; [reflexivity|]. split; [discriminate|].
      intros [d [H _]]. discriminate.
    + destruct j; simpl;
        try (eexists _, _; split; [reflexivity|]; split; [discriminate|];
             intros [d' [H _]]; discriminate).
      unfold_monad.
      destruct (truthy (dict_get_default (py "items") JNull d)) eqn:T.
      * eexists _, _. split; [reflexivity|]. split; [|reflexivity].
        intros _. exists d. split; [reflexivity|exact T].
      * eexists _, _. split; [reflexivity|]. split; [discriminate|].
        intros [d' [H T']]. injection H as <-. congruence.
  - simpl. eexists _, _. split; [reflexivity|]. split; [discriminate|].
    intros [d [H _]]. discriminate.
Qed.

End Probe.

(** ** The size check of [upload_file] *)

Lemma getsize_file_size (w : world) (path : pystr) (size : Z) :
  file_size w path = Some size -> getsize path w = (Return size, w).
Proof.
  unfold file_size, getsize.
  destruct (find _ (files w)); simpl; [|discriminate].
  now intros [= ->].
Qed.

Lemma open_rb_file_size (w : world) (path : pystr) (size : Z) :
  file_size w path = Some size -> open_rb path w = (Return path, w).
Proof.
  unfold file_size, open_rb.
  destruct (find _ (files w)); simpl; [reflexivity|discriminate].
Qed.

(** [upload_file] on a file that is there, by the outcome of its check. *)
Lemma upload_file_run (file_id : pystr) (token : json) (path content_type : pystr)
    (size : Z) (w : world) :
  file_size w path = Some size ->
  upload_file (JStr file_id) token path content_type w
  = if (max_file_size <? size)%Z && str_eqb content_type (py "video/mp4")
    then (Raise size_limit_error, w)
    else request (py "PUT") (upload_url file_id) (upload_headers token content_type)
                 (FileBody path) w.
Proof.
  intros Hs. unfold upload_file. unfold_monad.
  rewrite (getsize_file_size w path size Hs).
  destruct ((max_file_size <? size)%Z && str_eqb content_type (py "video/mp4"));
    [reflexivity|].
  rewrite (open_rb_file_size w path size Hs).
  unfold upload_url, upload_headers. reflexivity.
Qed.

(** C10: the check rejects exactly when the size is strictly above
    5 * 1024 * 1024 bytes and the content type is ["video/mp4"]; in every
    other case the file goes to one PUT, not signed, whose headers are the
    permit token and the content type. *)
Theorem upload_size_check_exact (file_id : pystr) (token : json)
    (path content_type : pystr) (size : Z) (w : world) :
  file_size w path = Some size ->
  max_file_size = 5242880%Z /\
  ((max_file_size < size)%Z /\ content_type = py "video/mp4" ->
   upload_file (JStr file_id) token path content_type w
   = (Raise size_limit_error, w)) /\
  ((size <= max_file_size)%Z \/ content_type <> py "video/mp4" ->
   upload_file (JStr file_id) token path content_type w
   = request (py "PUT") (upload_url file_id) (upload_headers token content_type)
             (FileBody path) w
   /\ trace (snd (upload_file (JStr file_id) token path content_type w))
      = trace w ++ [EvHttp (py "PUT") (upload_url file_id)
                           [(py "X-Cos-Security-Token", token);
                            (py "Content-Type", JStr content_type)]
                           (FileBody path)]
   /\ signatures_of (trace (snd (upload_file (JStr file_id) token path
                                             content_type w)))
      = signatures_of (trace w)).
Proof.
  intros Hs. rewrite (upload_file_run file_id token path content_type size w Hs).
  split; [reflexivity|]. split.
  - intros [Hlt ->]. apply Z.ltb_lt in Hlt. now rewrite Hlt.
  - intros H.
    assert (E : (max_file_size <? size)%Z && str_eqb content_type (py "video/mp4")
                = false).
    { destruct H as [Hle|Hne].
      - apply Z.ltb_ge in Hle. now rewrite Hle.
      - apply str_eqb_neq in Hne. rewrite Hne. apply andb_false_r. }
    rewrite E. split; [reflexivity|].
    rewrite request_trace. split; [reflexivity|].
    unfold signatures_of. rewrite flat_map_app. cbn [flat_map].
    now rewrite !List.app_nil_r.
Qed.

Lemma upload_size_check_exact_witness :
  upload_file (JStr (py "file-1")) (JStr (py "token-1")) (py "five.mp4")
              (py "video/mp4") (demo_world [])
  = request (py "PUT") (upload_url (py "file-1"))
            (upload_headers (JStr (py "token-1")) (py "video/mp4"))
            (FileBody (py "five.mp4")) (demo_world []).
Proof.
  refine (proj1 (proj2 (proj2 (upload_size_check_exact (py "file-1")
                   (JStr (py "token-1")) (py "five.mp4") (py "video/mp4") 5242880
                   (demo_world []) eq_refl)) _)).
  left. vm_compute. discriminate.
Defined.

(** ** Signed requests *)

Lemma trace_add_events (es : list event) (w : world) :
  trace (add_events es w) = trace w ++ es.
Proof.
  revert w. induction es as [|e es IH]; intros w; simpl.
  - now rewrite List.app_nil_r.
  - unfold add_events in IH. rewrite IH. simpl. now rewrite <- List.app_assoc.
Qed.

Lemma network_add_events (es : list event) (w : world) :
  network (add_events es w) = network w.
Proof.
  revert w. induction es as [|e es IH]; intros w; simpl; [reflexivity|].
  unfold add_events in IH. now rewrite IH.
Qed.

Lemma callbacks_of_app (t u : list event) :
  callbacks_of (t ++ u) = callbacks_of t ++ callbacks_of u.
Proof. apply flat_map_app. Qed.

Lemma sleeps_of_app (t u : list event) :
  sleeps_of (t ++ u) = sleeps_of t ++ sleeps_of u.
Proof. apply flat_map_app. Qed.

Lemma requests_of_app (t u : list event) :
  requests_of (t ++ u) = requests_of t ++ requests_of u.
Proof. apply flat_map_app. Qed.

Lemma prints_of_app (t u : list event) :
  prints_of (t ++ u) = prints_of t ++ prints_of u.
Proof. apply flat_map_app. Qed.

Section Signed.
Context {P : Platform}.

Lemma pre_headers_run (url : pystr) (data : option json) (w : world) :
  _pre_headers url data w = (Return (headers (signed url data w)), signed url data w).
Proof. reflexivity. Qed.

Lemma trace_signed (url : pystr) (data : option json) (w : world) :
  trace (signed url data w) = trace w ++ [EvSign url data].
Proof. reflexivity. Qed.

Lemma network_signed (url : pystr) (data : option json) (w : world) :
  network (signed url data w) = network w.
Proof. reflexivity. Qed.

Lemma files_signed (url : pystr) (data : option json) (w : world) :
  files (signed url data w) = files w.
Proof. reflexivity. Qed.

Lemma trace_after_get (final_uri : pystr) (rest : list transport) (w : world) :
  trace (after_get final_uri rest w)
  = trace w ++ [EvSign final_uri None;
                EvHttp (py "GET") (_host ++ final_uri)
                       (headers (signed final_uri None w)) NoBody].
Proof. unfold after_get. simpl. now rewrite <- List.app_assoc. Qed.

Lemma network_after_get (final_uri : pystr) (rest : list transport) (w : world) :
  network (after_get final_uri rest w) = rest.
Proof. reflexivity. Qed.

(** A signed GET that the network answers. *)
Lemma get_reply (uri : pystr) (params : dict) (r : response)
    (rest : list transport) (w : world) :
  network w = Reply r :: rest ->
  get uri (Some params) w
  = handle_response r (after_get (uri ++ py "?" ++ urlencode params) rest w).
Proof.
  intros Hn. unfold get. unfold bind at 1. rewrite pre_headers_run.
  apply request_reply. rewrite network_signed. exact Hn.
Qed.

(** An envelope with [success] true is handed back as its [data]. *)
Lemma handle_envelope (data : json) (w : world) :
  handle_response {| status_code := 200;
                     text := dumps false (envelope data);
                     json_of := Decoded (envelope data) |} w
  = (Return (VJson data), w).
Proof. reflexivity. Qed.

Lemma get_envelope (uri : pystr) (params : dict) (data : json)
    (rest : list transport) (w : world) :
  network w = envelope_reply data :: rest ->
  get uri (Some params) w
  = (Return (VJson data), after_get (uri ++ py "?" ++ urlencode params) rest w).
Proof.
  intros Hn. unfold envelope_reply in Hn.
  rewrite (get_reply uri params _ rest w Hn). apply handle_envelope.
Qed.

End Signed.

(** ** The pagination crawler *)

Section Crawl.
Context {P : Platform}.
Variables (note_id : pystr) (interval : spec_float) (supplied : bool).

(** A page without the items key ends the loop: one request, one log
    line, no sink, no sleep. *)
Lemma comments_page_malformed (d : dict) (rest : list transport)
    (result : list json) (cursor : json) (w : world) :
  network w = page_reply d :: rest ->
  page_malformed d = true ->
  comments_page note_id interval (sink supplied) result cursor w
  = (Return Break,
     add_events
       [EvLog (py "info")
              (py "[XHSClient.get_note_all_comments] No 'comments' key found in response")]
       (after_get (comments_uri note_id cursor) rest w)).
Proof.
  intros Hn Hm. unfold comments_page, get_note_comments.
  unfold bind at 1.
  rewrite (get_envelope _ _ (JObj d) rest w Hn).
  unfold page_malformed in Hm. apply negb_true_iff in Hm.
  unfold_monad. rewrite Hm. cbn [negb].
  unfold comments_uri, add_events. cbn [fold_left]. reflexivity.
Qed.

(** A page with its items: the sink (when supplied), then the sleep, then
    the items are added and the loop state is read off the page. *)
Lemma comments_page_items (d : dict) (rest : list transport)
    (result : list json) (cursor comments : json) (items : list json) (w : world) :
  network w = page_reply d :: rest ->
  dict_get (py "comments") d = Some comments ->
  py_iter comments = Some items ->
  comments_page note_id interval (sink supplied) result cursor w
  = (Return (Next (result ++ items, page_has_more d, page_cursor d)),
     add_events (page_events supplied note_id interval comments)
                (after_get (comments_uri note_id cursor) rest w)).
Proof.
  intros Hn Hc Hi. unfold comments_page, get_note_comments.
  unfold bind at 1.
  rewrite (get_envelope _ _ (JObj d) rest w Hn).
  unfold_monad. unfold dict_mem. rewrite Hc. cbn [negb].
  unfold sink, recording_sink, page_events, comments_uri, add_events. rewrite Hi.
  destruct supplied; unfold emit; cbn [fold_left List.app]; reflexivity.
Qed.

Lemma page_continues_inv (d : dict) :
  page_continues d = true ->
  exists comments items,
    dict_get (py "comments") d = Some comments /\
    py_iter comments = Some items /\
    page_items d = items /\ page_comments d = comments /\
    truthy (page_has_more d) = true.
Proof.
  unfold page_continues, page_items, page_comments, dict_get_default.
  destruct (dict_get (py "comments") d) as [c|]; [|discriminate].
  destruct (py_iter c) as [items|] eqn:Hi; [|discriminate].
  intros H. exists c, items. repeat split; auto.
Qed.

Lemma page_last_inv (d : dict) :
  page_last d = true ->
  exists comments items,
    dict_get (py "comments") d = Some comments /\
    py_iter comments = Some items /\
    page_items d = items /\ page_comments d = comments /\
    truthy (page_has_more d) = false.
Proof.
  unfold page_last, page_items, page_comments, dict_get_default.
  destruct (dict_get (py "comments") d) as [c|]; [|discriminate].
  destruct (py_iter c) as [items|] eqn:Hi; [|discriminate].
  intros H. apply negb_true_iff in H. exists c, items. repeat split; auto.
Qed.


Lemma grew_items (cursor comments : json) (rest : list transport) (w : world) :
  grew interval w
    (add_events (page_events supplied note_id interval comments)
                (after_get (comments_uri note_id cursor) rest w))
    (if supplied then [(note_id, comments)] else []) 1 1.
Proof.
  unfold page_events.
  split; rewrite trace_add_events, trace_after_get.
  - rewrite !callbacks_of_app. destruct supplied; simpl; now rewrite ?List.app_nil_r.
  - rewrite !sleeps_of_app. destruct supplied; simpl; now rewrite ?List.app_nil_r.
  - rewrite !requests_of_app, !length_app. destruct supplied; simpl; lia.
Qed.



Lemma sink_calls_cons (d : dict) (pages : list dict) :
  sink_calls supplied note_id (d :: pages)
  = (if supplied then [(note_id, page_comments d)] else []) ++ sink_calls supplied note_id pages.
Proof. unfold sink_calls. destruct supplied; reflexivity. Qed.



Lemma crawl_stop_last (last : dict) (rest : list transport) (fuel : nat)
    (result : list json) (has_more cursor : json) (w : world) :
  truthy has_more = true ->
  network w = page_reply last :: rest ->
  page_last last = true ->
  exists w',
    comments_loop (S fuel) note_id interval (sink supplied)
                  (result, has_more, cursor) w
    = Some (Return (result ++ page_items last), w')
    /\ network w' = rest
    /\ grew interval w w' (sink_calls supplied note_id [last]) 1 1.
Proof.
  intros Ht Hn Hl.
  destruct (page_last_inv last Hl) as [c [items [Hc [Hi [Hpi [Hpc Hm]]]]]].
  eexists. cbn [comments_loop]. rewrite Ht.
  rewrite (comments_page_items last rest result cursor c items w Hn Hc Hi).
  split; [|split].
  - destruct fuel; cbn [comments_loop]; rewrite Hm, Hpi; reflexivity.
  - now rewrite network_add_events, network_after_get.
  - unfold sink_calls. cbn [map]. rewrite Hpc. apply grew_items.
Qed.



(** C4 (amended): a first page with no items and [has_more] false ends the
    crawl with an empty result after one request and one sleep; a
    supplied sink is invoked once, with the empty list. *)
Theorem empty_last_page_crawl (k : json) (rest : list transport) (fuel : nat)
    (w : world) :
  network w = page_reply (page k (JBool false) []) :: rest ->
  (1 <= fuel)%nat ->
  exists w',
    get_note_all_comments fuel note_id interval (sink supplied) w
    = Some (Return [], w')
    /\ callbacks_of (trace w')
       = callbacks_of (trace w) ++ (if supplied then [(note_id, JArr [])] else [])
    /\ sleeps_of (trace w') = sleeps_of (trace w) ++ [interval]
    /\ network w' = rest.
Proof.
  intros Hn Hf. destruct fuel as [|fuel]; [lia|].
  destruct (crawl_stop_last (page k (JBool false) []) rest fuel [] (JBool true)
              (JStr []) w eq_refl Hn eq_refl) as [w' [E [Hn' G]]].
  exists w'. unfold get_note_all_comments. rewrite E.
  repeat split; auto.
  - rewrite (grew_callbacks _ _ _ _ _ _ G). unfold sink_calls.
    destruct supplied; reflexivity.
  - now rewrite (grew_sleeps _ _ _ _ _ _ G).
Qed.

End Crawl.

Section TwoPages.
Context {P : Platform}.
Variables (note_id : pystr) (interval : spec_float).

(** C3: the scripted crawl of two pages. The first request carries the
    empty cursor, the second the cursor the first page gave. *)
Theorem two_page_crawl (a b c k1 k2 : json) (rest : list transport) (fuel : nat)
    (w : world) :
  network w = page_reply (page k1 (JBool true) [a; b])
              :: page_reply (page k2 (JBool false) [c]) :: rest ->
  (2 <= fuel)%nat ->
  exists w',
    get_note_all_comments fuel note_id interval (sink true) w
    = Some (Return [a; b; c], w')
    /\ callbacks_of (trace w')
       = callbacks_of (trace w) ++ [(note_id, JArr [a; b]); (note_id, JArr [c])]
    /\ sleeps_of (trace w') = sleeps_of (trace w) ++ [interval; interval]
    /\ requests_of (trace w')
       = requests_of (trace w)
         ++ [(py "GET", _host ++ comments_uri note_id (JStr []));
             (py "GET", _host ++ comments_uri note_id k1)]
    /\ network w' = rest.
Proof.
  intros Hn Hf.
  destruct fuel as [|[|fuel]]; try lia.
  set (w1 := add_events (page_events true note_id interval (JArr [a; b]))
               (after_get (comments_uri note_id (JStr []))
                  (page_reply (page k2 (JBool false) [c]) :: rest) w)).
  set (w2 := add_events (page_events true note_id interval (JArr [c]))
               (after_get (comments_uri note_id k1) rest w1)).
  assert (Hn1 : network w1 = page_reply (page k2 (JBool false) [c]) :: rest).
  { unfold w1. now rewrite network_add_events, network_after_get. }
  assert (Ht1 : trace w1 = trace w ++
            [EvSign (comments_uri note_id (JStr [])) None;
             EvHttp (py "GET") (_host ++ comments_uri note_id (JStr []))
                    (headers (signed (comments_uri note_id (JStr [])) None w)) NoBody;
             EvCallback note_id (JArr [a; b]); EvSleep interval]).
  { unfold w1. rewrite trace_add_events, trace_after_get.
    now rewrite <- List.app_assoc. }
  assert (Ht2 : trace w2 = trace w1 ++
            [EvSign (comments_uri note_id k1) None;
             EvHttp (py "GET") (_host ++ comments_uri note_id k1)
                    (headers (signed (comments_uri note_id k1) None w1)) NoBody;
             EvCallback note_id (JArr [c]); EvSleep interval]).
  { unfold w2. rewrite trace_add_events, trace_after_get.
    now rewrite <- List.app_assoc. }
  exists w2. split; [|split; [|split; [|split]]]; [| | | |reflexivity].
  - unfold get_note_all_comments. cbn [comments_loop truthy].
    rewrite (comments_page_items note_id interval true _ _ [] (JStr []) (JArr [a; b])
               [a; b] w Hn eq_refl eq_refl).
    fold w1.
    change (page_has_more (page k1 (JBool true) [a; b])) with (JBool true).
    change (page_cursor (page k1 (JBool true) [a; b])) with k1.
    cbn [truthy].
    rewrite (comments_page_items note_id interval true _ _ ([] ++ [a; b]) k1 (JArr [c])
               [c] w1 Hn1 eq_refl eq_refl).
    fold w2.
    change (page_has_more (page k2 (JBool false) [c])) with (JBool false).
    destruct fuel; reflexivity.
  - rewrite Ht2, Ht1, !callbacks_of_app. cbn [callbacks_of flat_map List.app].
    now rewrite <- List.app_assoc.
  - rewrite Ht2, Ht1, !sleeps_of_app. cbn [sleeps_of flat_map List.app].
    now rewrite <- List.app_assoc.
  - rewrite Ht2, Ht1, !requests_of_app. cbn [requests_of flat_map List.app].
    now rewrite <- List.app_assoc.
Qed.

End TwoPages.

Lemma two_page_crawl_witness :
  exists w',
    @get_note_all_comments demo_platform 2 (py "note-1") one_second (sink true)
      (demo_world
         [@page_reply demo_platform
            (page (JStr (py "x")) (JBool true) [JStr (py "a"); JStr (py "b")]);
          @page_reply demo_platform (page (JStr []) (JBool false) [JStr (py "c")])])
    = Some (Return [JStr (py "a"); JStr (py "b"); JStr (py "c")], w')
    /\ callbacks_of (trace w')
       = [] ++ [(py "note-1", JArr [JStr (py "a"); JStr (py "b")]);
                (py "note-1", JArr [JStr (py "c")])]
    /\ sleeps_of (trace w') = [] ++ [one_second; one_second]
    /\ requests_of (trace w')
       = [] ++ [(py "GET", _host ++ @comments_uri demo_platform (py "note-1") (JStr []));
                (py "GET", _host ++ @comments_uri demo_platform (py "note-1")
                                      (JStr (py "x")))]
    /\ network w' = [].
Proof.
  exact (@two_page_crawl demo_platform (py "note-1") one_second
           (JStr (py "a")) (JStr (py "b")) (JStr (py "c")) (JStr (py "x")) (JStr [])
           [] 2 (demo_world _) eq_refl (le_n 2)).
Defined.

(** C4, as stated, fails: on a first page with no items and [has_more]
    false the crawl returns the empty list, and the sink has been invoked
    once, with the empty list. *)
Lemma empty_page_invokes_sink :
  exists w',
    @get_note_all_comments demo_platform 1 (py "note-1") one_second (sink true)
      (demo_world [@page_reply demo_platform (page (JStr []) (JBool false) [])])
    = Some (Return [], w')
    /\ callbacks_of (trace w') = [(py "note-1", JArr [])].
Proof.
  eexists. split; vm_compute; reflexivity.
Qed.

Lemma empty_last_page_crawl_witness :
  exists w',
    @get_note_all_comments demo_platform 1 (py "note-1") one_second (sink true)
      (demo_world [@page_reply demo_platform (page (JStr []) (JBool false) [])])
    = Some (Return [], w')
    /\ callbacks_of (trace w') = [] ++ [(py "note-1", JArr [])]
    /\ sleeps_of (trace w') = [] ++ [one_second]
    /\ network w' = [].
Proof.
  exact (@empty_last_page_crawl demo_platform (py "note-1") one_second true
           (JStr []) [] 1 (demo_world _) eq_refl (le_n 1)).
Defined.


(** ** The upload and publish pipeline *)

Lemma pure_ret {A : Type} (a : A) : pure_call (ret a).
Proof. intros w. reflexivity. Qed.

Lemma pure_raise {A : Type} (e : exn) : pure_call (@raise A e).
Proof. intros w. reflexivity. Qed.

Lemma pure_bind {A B : Type} (c : M A) (k : A -> M B) :
  pure_call c -> (forall a, pure_call (k a)) -> pure_call (bind c k).
Proof.
  intros Hc Hk w. unfold bind. specialize (Hc w).
  destruct (c w) as [[a|e] w1]; simpl in *; subst w1; [apply Hk|reflexivity].
Qed.

Lemma bind_pure_world {A B : Type} (c : M A) (k : A -> M B) (w : world) :
  (forall a, pure_call (k a)) -> snd (bind c k w) = snd (c w).
Proof.
  intros Hk. unfold bind.
  destruct (c w) as [[a|e] w1]; simpl; [apply Hk|reflexivity].
Qed.

Lemma pure_py_getitem (v : json) (k : pystr) : pure_call (py_getitem v k).
Proof.
  unfold py_getitem. destruct v; try apply pure_raise.
  destruct (dict_get k d); [apply pure_ret|apply pure_raise].
Qed.

Lemma pure_pv_getitem (v : pyval) (k : pystr) : pure_call (pv_getitem v k).
Proof.
  destruct v; [apply pure_raise|apply pure_py_getitem].
Qed.

Lemma pure_py_first (v : json) : pure_call (py_first v).
Proof.
  unfold py_first. destruct v; try apply pure_raise.
  - destruct s; [apply pure_raise|apply pure_ret].
  - destruct l; [apply pure_raise|apply pure_ret].
Qed.

Create HintDb pure_calls.
#[global] Hint Resolve pure_ret pure_raise pure_py_getitem pure_pv_getitem pure_py_first
  : pure_calls.

(** ** The crawl ends on every finite script *)

Lemma keeps_network_pure {A : Type} (c : M A) : pure_call c -> keeps_network c.
Proof. intros H w. now rewrite H. Qed.

Lemma keeps_network_emit (e : event) : keeps_network (emit e).
Proof. intros w. reflexivity. Qed.

Lemma keeps_network_bind {A B : Type} (c : M A) (k : A -> M B) :
  keeps_network c -> (forall a, keeps_network (k a)) -> keeps_network (bind c k).
Proof.
  intros Hc Hk w. unfold bind. specialize (Hc w).
  destruct (c w) as [[a|e] w1]; simpl in *; [now rewrite Hk|exact Hc].
Qed.

Lemma bind_keeps_network {A B : Type} (c : M A) (k : A -> M B) (w : world) :
  (forall a, keeps_network (k a)) ->
  network (snd (bind c k w)) = network (snd (c w)).
Proof.
  intros Hk. unfold bind.
  destruct (c w) as [[a|e] w1]; simpl; [apply Hk|reflexivity].
Qed.

Lemma bind_raises {A B : Type} (c : M A) (k : A -> M B) (w : world) (e : exn) :
  fst (c w) = Raise e -> fst (bind c k w) = Raise e.
Proof.
  unfold bind. destruct (c w) as [[a|e'] w1]; cbn [fst]; intros H;
    [discriminate H|injection H as ->; reflexivity].
Qed.

Lemma pure_py_get (v : json) (k : pystr) (default : json) :
  pure_call (py_get v k default).
Proof. destruct v; try apply pure_raise. apply pure_ret. Qed.

Lemma pure_pv_get (v : pyval) (k : pystr) (default : json) :
  pure_call (pv_get v k default).
Proof. destruct v; [apply pure_raise|apply pure_py_get]. Qed.

Lemma pure_pv_contains (k : pystr) (v : pyval) : pure_call (pv_contains k v).
Proof.
  destruct v as [r|j]; [apply pure_raise|].
  destruct j; try apply pure_raise; apply pure_ret.
Qed.

Section Termination.
Context {P : Platform}.
Variables (note_id : pystr) (interval : spec_float) (supplied : bool).

(** A signed GET takes the next answer off the network, and fails when
    there is none. *)
Lemma get_network (uri : pystr) (params : dict) (w : world) :
  network (snd (get uri (Some params) w)) = tl (network w).
Proof.
  unfold get. unfold bind at 1. rewrite pre_headers_run.
  unfold request, send. unfold bind, emit.
  change (network (add_event _ (signed _ None w))) with (network w).
  destruct (network w) as [|[r|reason] rest] eqn:E; cbn [snd];
    rewrite ?handle_response_world;
    cbn [network set_network add_event signed set_headers];
    rewrite ?E; reflexivity.
Qed.

Lemma get_no_answer (uri : pystr) (params : dict) (w : world) :
  network w = [] ->
  fst (get uri (Some params) w) = Raise (TransportError (py "no answer")).
Proof.
  intros H. unfold get. unfold bind at 1. rewrite pre_headers_run.
  unfold request, send. unfold bind, emit.
  change (network (add_event _ (signed _ None w))) with (network w).
  now rewrite H.
Qed.

Lemma comments_page_keeps (result : list json) (res : pyval) :
  keeps_network
    (comments_has_more <- pv_get res (py "has_more") (JBool false) ;;
     comments_cursor' <- pv_get res (py "cursor") (JStr []) ;;
     present <- pv_contains (py "comments") res ;;
     if negb present then
       log_info (py "[XHSClient.get_note_all_comments] No 'comments' key found in response") ;;
       ret Break
     else
       comments <- pv_getitem res (py "comments") ;;
       match sink supplied with
       | Some cb => cb note_id comments
       | None => ret tt
       end ;;
       sleep interval ;;
       match py_iter comments with
       | Some items =>
         ret (Next (result ++ items, comments_has_more, comments_cursor'))
       | None => raise TypeError
       end).
Proof.
  apply keeps_network_bind; [apply keeps_network_pure, pure_pv_get|intros hm].
  apply keeps_network_bind; [apply keeps_network_pure, pure_pv_get|intros cur].
  apply keeps_network_bind; [apply keeps_network_pure, pure_pv_contains|intros b].
  destruct b; cbn [negb].
  - apply keeps_network_bind; [apply keeps_network_pure, pure_pv_getitem|intros c].
    apply keeps_network_bind.
    + destruct supplied; cbn [sink]; [apply keeps_network_emit|].
      apply keeps_network_pure, pure_ret.
    + intros _. apply keeps_network_bind; [apply keeps_network_emit|intros _].
      destruct (py_iter c); apply keeps_network_pure;
        [apply pure_ret|apply pure_raise].
  - apply keeps_network_bind; [apply keeps_network_emit|intros _].
    apply keeps_network_pure, pure_ret.
Qed.

Lemma comments_page_network (result : list json) (cursor : json) (w : world) :
  network (snd (comments_page note_id interval (sink supplied) result cursor w))
  = tl (network w).
Proof.
  unfold comments_page, get_note_comments.
  rewrite bind_keeps_network; [apply get_network|].
  intros res. apply comments_page_keeps.
Qed.

Lemma comments_page_no_answer (result : list json) (cursor : json) (w : world) :
  network w = [] ->
  fst (comments_page note_id interval (sink supplied) result cursor w)
  = Raise (TransportError (py "no answer")).
Proof.
  intros H. unfold comments_page, get_note_comments.
  apply bind_raises. now apply get_no_answer.
Qed.

(** With more fuel than there are answers on the network, the loop always
    comes to an end: it returns or it raises. *)
Lemma crawl_terminates (fuel : nat) :
  forall (st : crawl_state) (w : world),
    (List.length (network w) < fuel)%nat ->
    exists out,
      comments_loop fuel note_id interval (sink supplied) st w = Some out.
Proof.
  induction fuel as [|fuel IH]; intros [[result has_more] cursor] w Hl; [lia|].
  cbn [comments_loop]. destruct (truthy has_more); [|now eexists].
  assert (Hn := comments_page_network result cursor w).
  assert (He := comments_page_no_answer result cursor w).
  destruct (comments_page note_id interval (sink supplied) result cursor w)
    as [[[|st']|e] w'].
  - now eexists.
  - apply IH. cbn [snd fst] in *. rewrite Hn.
    destruct (network w); [now discriminate He|]. cbn [tl List.length] in *. lia.
  - now eexists.
Qed.

End Termination.

Section Pipeline.
Context {P : Platform}.

(** A signed GET leaves its signature and its request in the trace,
    whatever the answer. *)
Lemma get_trace (uri : pystr) (params : dict) (w : world) :
  trace (snd (get uri (Some params) w))
  = trace w ++ [EvSign (uri ++ py "?" ++ urlencode params) None;
                EvHttp (py "GET") (_host ++ uri ++ py "?" ++ urlencode params)
                       (headers (signed (uri ++ py "?" ++ urlencode params) None w))
                       NoBody].
Proof.
  unfold get. unfold bind at 1. rewrite pre_headers_run.
  rewrite request_trace, trace_signed. now rewrite <- List.app_assoc.
Qed.

(** Asking for a permit is one signed GET of the permit endpoint. *)
Lemma permit_trace (w : world) :
  trace (snd (get_upload_files_permit (py "image") 1 w))
  = trace w ++ [EvSign permit_uri None;
                EvHttp (py "GET") (_host ++ permit_uri)
                       (headers (signed permit_uri None w)) NoBody].
Proof.
  unfold get_upload_files_permit.
  rewrite bind_pure_world.
  - rewrite get_trace. unfold permit_uri. reflexivity.
  - intros res.
    repeat (apply pure_bind; [auto with pure_calls|intros ?]).
    apply pure_ret.
Qed.

(** A transfer that returns has sent exactly one PUT to the upload host. *)
Lemma upload_returns (file_id token : json) (path content_type : pystr)
    (r : pyval) (w w' : world) :
  upload_file file_id token path content_type w = (Return r, w') ->
  exists s,
    file_id = JStr s /\
    trace w' = trace w ++ [EvHttp (py "PUT") (upload_url s)
                                  (upload_headers token content_type)
                                  (FileBody path)].
Proof.
  unfold upload_file. unfold_monad.
  destruct file_id; try discriminate.
  unfold getsize, open_rb.
  destruct (find _ (files w)) as [f|] eqn:F; [|discriminate].
  destruct ((max_file_size <? snd f)%Z && str_eqb content_type (py "video/mp4"));
    [discriminate|].
  rewrite F. intros H. exists s. split; [reflexivity|].
  change w' with (snd (Return r, w')). rewrite <- H.
  unfold upload_url, upload_headers. apply request_trace.
Qed.

(** A transfer that raises has sent one PUT, or nothing at all. *)
Lemma upload_raises (file_id token : json) (path content_type : pystr)
    (e : exn) (w w' : world) :
  upload_file file_id token path content_type w = (Raise e, w') ->
  trace w' = trace w \/
  exists s,
    file_id = JStr s /\
    trace w' = trace w ++ [EvHttp (py "PUT") (upload_url s)
                                  (upload_headers token content_type)
                                  (FileBody path)].
Proof.
  unfold upload_file. unfold_monad.
  destruct file_id; try (intros [= _ <-]; now left).
  unfold getsize, open_rb.
  destruct (find _ (files w)) as [f|] eqn:F; [|intros [= _ <-]; now left].
  destruct ((max_file_size <? snd f)%Z && str_eqb content_type (py "video/mp4"));
    [intros [= _ <-]; now left|].
  rewrite F. intros H. right. exists s. split; [reflexivity|].
  change w' with (snd (Raise (A := pyval) e, w')). rewrite <- H.
  unfold upload_url, upload_headers. apply request_trace.
Qed.

End Pipeline.

Section Composite.
Context {P : Platform}.

(** C7 (amended): when the transfer of the second of three files raises
    (the connection fails, the host answers with an error envelope, the
    file is not there), the whole operation raises that error, where the
    transfer left off. The requests sent are the two permits and the
    transfers (one, or two when the second got as far as its PUT): no
    publish call, no deletion, and [create_note] was not entered. *)
Theorem image_note_aborts_on_second_transfer
    (title desc : json) (f1 f2 f3 : pystr) (post_time : option pystr)
    (ats topics : json) (is_private : bool)
    (w0 w1 w2 w3 w4 : world) (id1 tok1 id2 tok2 : json) (r1 : pyval) (e : exn) :
  get_upload_files_permit (py "image") 1 w0 = (Return (id1, tok1), w1) ->
  upload_file id1 tok1 f1 (py "image/jpeg") w1 = (Return r1, w2) ->
  get_upload_files_permit (py "image") 1 w2 = (Return (id2, tok2), w3) ->
  upload_file id2 tok2 f2 (py "image/jpeg") w3 = (Raise e, w4) ->
  create_image_note title desc [f1; f2; f3] post_time ats topics is_private w0
  = (Raise e, w4)
  /\ prints_of (trace w4) = prints_of (trace w0)
  /\ exists (s1 : pystr) (sent : list (pystr * pystr)),
       id1 = JStr s1
       /\ requests_of (trace w4) = requests_of (trace w0) ++ sent
       /\ (sent = [(py "GET", _host ++ permit_uri);
                   (py "PUT", upload_url s1);
                   (py "GET", _host ++ permit_uri)]
           \/ exists s2,
                sent = [(py "GET", _host ++ permit_uri);
                        (py "PUT", upload_url s1);
                        (py "GET", _host ++ permit_uri);
                        (py "PUT", upload_url s2)])
       /\ Forall (fun r => fst r = py "GET" \/ fst r = py "PUT") sent.
Proof.
  intros H1 H2 H3 H4.
  assert (T1 := permit_trace w0). rewrite H1 in T1. cbn [snd] in T1.
  destruct (upload_returns id1 tok1 f1 (py "image/jpeg") r1 w1 w2 H2) as [s1 [-> T2]].
  assert (T3 := permit_trace w2). rewrite H3 in T3. cbn [snd] in T3.
  assert (T4 := upload_raises id2 tok2 f2 (py "image/jpeg") e w3 w4 H4).
  split; [|split].
  - unfold create_image_note. unfold bind at 1.
    cbn [upload_images]. unfold bind at 1. rewrite H1.
    unfold bind at 1. rewrite H2.
    unfold bind at 1. rewrite H3.
    unfold bind at 1. rewrite H4. reflexivity.
  - destruct T4 as [T4|[s2 [_ T4]]]; rewrite T4, T3, T2, T1, !prints_of_app;
      cbn [prints_of flat_map List.app]; now rewrite !List.app_nil_r.
  - exists s1.
    destruct T4 as [T4|[s2 [_ T4]]].
    + eexists. split; [reflexivity|]. split; [|split].
      * rewrite T4, T3, T2, T1, !requests_of_app.
        cbn [requests_of flat_map List.app]. rewrite <- !List.app_assoc. reflexivity.
      * left. reflexivity.
      * repeat (apply Forall_cons;
                [first [left; reflexivity|right; reflexivity]|]).
        apply Forall_nil.
    + eexists. split; [reflexivity|]. split; [|split].
      * rewrite T4, T3, T2, T1, !requests_of_app.
        cbn [requests_of flat_map List.app]. rewrite <- !List.app_assoc. reflexivity.
      * right. exists s2. reflexivity.
      * repeat (apply Forall_cons;
                [first [left; reflexivity|right; reflexivity]|]).
        apply Forall_nil.
Qed.

End Composite.

Lemma image_note_aborts_on_second_transfer_witness :
  fst (@create_image_note demo_platform (JStr (py "title")) (JStr (py "desc"))
         [py "a.jpg"; py "b.jpg"; py "c.jpg"] None JNull JNull false
         (demo_world [demo_permit_reply (py "file-1") (py "token-1");
                      demo_empty_reply;
                      demo_permit_reply (py "file-2") (py "token-2");
                      Fails (py "connection reset")]))
  = Raise (TransportError (py "connection reset")).
Proof.
  set (w0 := demo_world _).
  set (w1 := snd (@get_upload_files_permit demo_platform (py "image") 1 w0)).
  set (w2 := snd (upload_file (JStr (py "file-1")) (JStr (py "token-1"))
                              (py "a.jpg") (py "image/jpeg") w1)).
  set (w3 := snd (@get_upload_files_permit demo_platform (py "image") 1 w2)).
  set (w4 := snd (upload_file (JStr (py "file-2")) (JStr (py "token-2"))
                              (py "b.jpg") (py "image/jpeg") w3)).
  assert (H1 : @get_upload_files_permit demo_platform (py "image") 1 w0
               = (Return (JStr (py "file-1"), JStr (py "token-1")), w1))
    by (vm_compute; reflexivity).
  assert (H2 : upload_file (JStr (py "file-1")) (JStr (py "token-1"))
                           (py "a.jpg") (py "image/jpeg") w1
               = (Return (VResponse {| status_code := 200; text := [];
                                       json_of := JSONDecodeError |}), w2))
    by (vm_compute; reflexivity).
  assert (H3 : @get_upload_files_permit demo_platform (py "image") 1 w2
               = (Return (JStr (py "file-2"), JStr (py "token-2")), w3))
    by (vm_compute; reflexivity).
  assert (H4 : upload_file (JStr (py "file-2")) (JStr (py "token-2"))
                           (py "b.jpg") (py "image/jpeg") w3
               = (Raise (TransportError (py "connection reset")), w4))
    by (vm_compute; reflexivity).
  exact (f_equal fst
           (proj1 (@image_note_aborts_on_second_transfer demo_platform
                     (JStr (py "title")) (JStr (py "desc"))
                     (py "a.jpg") (py "b.jpg") (py "c.jpg") None JNull JNull false
                     w0 w1 w2 w3 w4 _ _ _ _ _ _ H1 H2 H3 H4))).
Defined.

(** A failed transfer is an exception of [upload_file]. An answer of the
    upload host whose body is not JSON is the RawHTTP outcome, whatever
    its status: [upload_file] returns it, the loop goes on and the note is
    published. *)
Example rejected_transfer_goes_on :
  map fst
    (requests_of
       (trace
          (snd (@create_image_note demo_platform (JStr (py "title")) (JStr (py "desc"))
                  [py "a.jpg"; py "b.jpg"] None JNull JNull false
                  (demo_world [demo_permit_reply (py "file-1") (py "token-1");
                               demo_empty_reply;
                               demo_permit_reply (py "file-2") (py "token-2");
                               demo_rejected_reply;
                               @envelope_reply demo_platform (JObj [])])))))
  = [py "GET"; py "PUT"; py "GET"; py "PUT"; py "POST"].
Proof. vm_compute. reflexivity. Qed.

(** C7, as stated, fails: [request] never looks at the status of an
    answer. When the upload host refuses the second of three files with
    status 403 and a body that is not JSON, [upload_file] returns that
    answer, the loop goes on to the third file, and the note is printed
    and published. *)
Lemma rejected_second_transfer_still_publishes :
  let w := demo_world [demo_permit_reply (py "file-1") (py "token-1");
                       demo_empty_reply;
                       demo_permit_reply (py "file-2") (py "token-2");
                       demo_rejected_reply;
                       demo_permit_reply (py "file-3") (py "token-3");
                       demo_empty_reply;
                       @envelope_reply demo_platform (JObj [])] in
  let out := @create_image_note demo_platform (JStr (py "title")) (JStr (py "desc"))
               [py "a.jpg"; py "b.jpg"; py "c.jpg"] None JNull JNull false w in
  fst out = Return (VJson (JObj []))
  /\ requests_of (trace (snd out))
     = [(py "GET", _host ++ @permit_uri demo_platform);
        (py "PUT", upload_url (py "file-1"));
        (py "GET", _host ++ @permit_uri demo_platform);
        (py "PUT", upload_url (py "file-2"));
        (py "GET", _host ++ @permit_uri demo_platform);
        (py "PUT", upload_url (py "file-3"));
        (py "POST", _host ++ note_uri)]
  /\ List.length (prints_of (trace (snd out))) = 1%nat
  /\ network (snd out) = [].
Proof. vm_compute. repeat split; reflexivity. Qed.

(** ** The JSON codec: strings *)

(** A character the scanner takes as it stands. *)
Lemma scanstring_plain (c : N) (t : pystr) :
  c <> 34%N -> c <> 92%N -> (32 <= c)%N ->
  scanstring (c :: t)
  = match scanstring t with
    | Some (s, rest) => Some (c :: s, rest)
    | None => None
    end.
Proof.
  intros H34 H92 H32. cbn [scanstring].
  apply N.eqb_neq in H34. apply N.eqb_neq in H92. rewrite H34, H92.
  assert (E : (c <? 32)%N = false) by (apply N.ltb_ge; exact H32).
  rewrite E. reflexivity.
Qed.

Lemma below_32_cases (c : N) :
  (c < 32)%N -> exists n : nat, (n < 32)%nat /\ c = N.of_nat n.
Proof.
  intros H. exists (N.to_nat c). split; [lia|]. now rewrite N2Nat.id.
Qed.

Ltac eval_escape :=
  match goal with
  | |- context [escape_char false ?c] =>
    let e := eval vm_compute in (escape_char false c) in
    change (escape_char false c) with e
  end;
  cbn [List.app]; simpl; reflexivity.

(** What the encoder writes for one character, the scanner reads back as
    that character. *)
Lemma scanstring_escape_char (c : N) (t : pystr) :
  scanstring (escape_char false c ++ t)
  = match scanstring t with
    | Some (s, rest) => Some (c :: s, rest)
    | None => None
    end.
Proof.
  destruct (N.lt_ge_cases c 32) as [Hlt|Hge].
  - destruct (below_32_cases c Hlt) as [n [Hn ->]].
    do 32 (destruct n as [|n]; [eval_escape|]). lia.
  - destruct (N.eq_dec c 34) as [->|H34]; [eval_escape|].
    destruct (N.eq_dec c 92) as [->|H92]; [eval_escape|].
    assert (E : escape_char false c = [c]).
    { unfold escape_char, escape_short.
      repeat match goal with
             | |- context [(c =? ?k)%N] =>
               let F := fresh in
               assert (F : (c =? k)%N = false) by (apply N.eqb_neq; lia);
               rewrite F; clear F
             end.
      assert (F : (c <? 32)%N = false) by (apply N.ltb_ge; exact Hge).
      now rewrite F. }
    rewrite E. apply scanstring_plain; assumption.
Qed.

Lemma scanstring_escaped (s rest : pystr) :
  scanstring (flat_map (escape_char false) s ++ 34%N :: rest) = Some (s, rest).
Proof.
  induction s as [|c s IH]; [reflexivity|].
  cbn [flat_map]. rewrite <- List.app_assoc.
  rewrite scanstring_escape_char, IH. reflexivity.
Qed.

(** ** The JSON codec: integers *)

Lemma span_digits_codes (u : Decimal.uint) (rest : pystr) :
  no_digit_ahead rest ->
  span_digits (uint_codes u ++ rest) = (uint_codes u, rest).
Proof.
  intros H. induction u; cbn [uint_codes List.app span_digits];
    try (change (is_digit _) with true; cbv beta iota; rewrite IHu; reflexivity).
  destruct rest as [|c r]; [reflexivity|].
  cbn [span_digits]. unfold no_digit_ahead in H. now rewrite H.
Qed.

Lemma uint_of_codes_codes (u : Decimal.uint) : uint_of_codes (uint_codes u) = u.
Proof.
  induction u; cbn [uint_codes uint_of_codes]; try reflexivity;
    unfold digit_of_code; cbn; now rewrite IHu.
Qed.

Lemma to_uint_normal (p : positive) : unorm (Pos.to_uint p) = Pos.to_uint p.
Proof.
  change (Pos.to_uint p) with (N.to_uint (Npos p)) at 2.
  rewrite <- (DecimalPos.Unsigned.of_to p). symmetry. apply DecimalPos.Unsigned.to_of.
Qed.

(** The digits of a positive number start with a digit other than 0. *)
Lemma to_uint_head (p : positive) :
  exists (c : N) (t : pystr),
    uint_codes (Pos.to_uint p) = c :: t /\ is_digit c = true /\ c <> 48%N.
Proof.
  assert (Hn := to_uint_normal p).
  assert (Hz := DecimalPos.Unsigned.to_uint_nonzero p).
  assert (Hnil := DecimalPos.Unsigned.to_uint_nonnil p).
  destruct (Pos.to_uint p) as [|u|u|u|u|u|u|u|u|u|u] eqn:E;
    try (eexists _, _; split; [reflexivity|]; split; [reflexivity|]; discriminate).
  - congruence.
  - exfalso. rewrite unorm_D0 in Hn. unfold unorm in Hn.
    destruct (nzhead u) eqn:Hu; try discriminate.
    + injection Hn as <-. apply Hz. reflexivity.
    + now apply nzhead_nonzero in Hu.
Qed.

Lemma value_ends_cases (rest : pystr) :
  value_ends rest = true ->
  rest = [] \/ exists c r, rest = c :: r /\ (c = 44 \/ c = 93 \/ c = 125)%N.
Proof.
  destruct rest as [|c r]; [now left|]. cbn [value_ends]. intros H. right.
  exists c, r. split; [reflexivity|].
  apply orb_true_iff in H. destruct H as [H|H].
  - apply orb_true_iff in H. destruct H as [H|H]; apply N.eqb_eq in H; auto.
  - apply N.eqb_eq in H; auto.
Qed.

Lemma value_ends_no_digit (rest : pystr) :
  value_ends rest = true -> no_digit_ahead rest.
Proof.
  intros H. destruct (value_ends_cases rest H) as [-> | [c [r [-> [-> | [-> | ->]]]]]];
    reflexivity.
Qed.

Lemma match_frac_none (rest : pystr) :
  value_ends rest = true -> match_frac rest = ([], rest).
Proof.
  intros H. destruct (value_ends_cases rest H) as [-> | [c [r [-> [-> | [-> | ->]]]]]];
    reflexivity.
Qed.

Lemma match_exp_none (rest : pystr) :
  value_ends rest = true -> match_exp rest = ([], rest).
Proof.
  intros H. destruct (value_ends_cases rest H) as [-> | [c [r [-> [-> | [-> | ->]]]]]];
    reflexivity.
Qed.

Lemma digit_is_not_minus (c : N) : is_digit c = true -> (c =? 45)%N = false.
Proof.
  unfold is_digit. intros H. apply andb_true_iff in H. destruct H as [H _].
  apply N.leb_le in H. apply N.eqb_neq. lia.
Qed.

Section Numbers.
Context {FC : FloatCodec}.

(** The digits of a number, read as a number. *)
Lemma match_number_digits (neg : bool) (u : Decimal.uint) (c : N) (t rest : pystr) :
  uint_codes u = c :: t ->
  is_digit c = true ->
  (c = 48%N -> t = []) ->
  value_ends rest = true ->
  match_number ((if neg then [45%N] else []) ++ uint_codes u ++ rest)
  = Some (JInt (Z.of_int (if neg then Neg u else Pos u)), rest).
Proof.
  intros E Hd Hz He.
  assert (Hs : span_digits (uint_codes u ++ rest) = (uint_codes u, rest))
    by (apply span_digits_codes, value_ends_no_digit, He).
  assert (Hi : (if (c =? 48)%N then ([48%N], t ++ rest)
                else span_digits (uint_codes u ++ rest))
               = (uint_codes u, rest)).
  { destruct (c =? 48)%N eqn:E48; [|exact Hs].
    apply N.eqb_eq in E48. rewrite E, (Hz E48), E48. reflexivity. }
  unfold match_number.
  destruct neg; cbn [List.app N.eqb Pos.eqb].
  - rewrite E in *. cbn [List.app] in *. rewrite Hd, Hi.
    rewrite (match_frac_none rest He), (match_exp_none rest He).
    rewrite <- E, uint_of_codes_codes. reflexivity.
  - rewrite E in *. cbn [List.app] in *.
    rewrite (digit_is_not_minus c Hd), Hd, Hi.
    rewrite (match_frac_none rest He), (match_exp_none rest He).
    rewrite <- E, uint_of_codes_codes. reflexivity.
Qed.

Lemma match_number_int (z : Z) (rest : pystr) :
  value_ends rest = true ->
  match_number (int_repr z ++ rest) = Some (JInt z, rest).
Proof.
  intros He. unfold int_repr. rewrite <- (DecimalZ.of_to z) at 2.
  destruct z as [|p|p]; cbn [Z.to_int].
  - apply (match_number_digits false zero 48%N [] rest); auto.
  - destruct (to_uint_head p) as [c [t [E [Hd Hc]]]].
    apply (match_number_digits false (Pos.to_uint p) c t rest); auto.
    intros ->. contradiction.
  - destruct (to_uint_head p) as [c [t [E [Hd Hc]]]].
    apply (match_number_digits true (Pos.to_uint p) c t rest); auto.
    intros ->. contradiction.
Qed.

End Numbers.

(** ** The JSON codec: dictionaries *)

Lemma dict_get_app_miss (k : pystr) (d e : dict) :
  dict_get k d = None -> dict_get k (d ++ e) = dict_get k e.
Proof.
  induction d as [|[k' v'] d IH]; [reflexivity|].
  cbn [dict_get List.app]. destruct (str_eqb k k'); [discriminate|exact IH].
Qed.

Lemma dict_set_fresh (k : pystr) (v : json) (d : dict) :
  dict_mem k d = false -> dict_set k v d = d ++ [(k, v)].
Proof.
  unfold dict_mem. induction d as [|[k' v'] d IH]; [reflexivity|].
  cbn [dict_get dict_set List.app]. destruct (str_eqb k k'); [discriminate|].
  intros H. now rewrite IH.
Qed.

Lemma str_eqb_sym (a b : pystr) : str_eqb a b = str_eqb b a.
Proof.
  destruct (str_eqb a b) eqn:E.
  - apply str_eqb_eq in E. subst. symmetry. apply str_eqb_refl.
  - apply str_eqb_neq in E. symmetry. apply str_eqb_neq. congruence.
Qed.

Lemma dict_mem_app_one (k k' : pystr) (v : json) (d : dict) :
  dict_mem k d = false -> str_eqb k k' = false ->
  dict_mem k (d ++ [(k', v)]) = false.
Proof.
  unfold dict_mem. intros H E.
  destruct (dict_get k d) eqn:G; [discriminate|].
  rewrite (dict_get_app_miss k d _ G). cbn [dict_get]. now rewrite E.
Qed.

Lemma dict_mem_false_entries (k : pystr) (d : dict) :
  dict_mem k d = false ->
  forallb (fun kv => negb (str_eqb (fst kv) k)) d = true.
Proof.
  unfold dict_mem. induction d as [|[k' v'] d IH]; [reflexivity|].
  cbn [dict_get forallb fst]. rewrite (str_eqb_sym k' k).
  destruct (str_eqb k k'); [discriminate|]. exact IH.
Qed.

Lemma dict_update_distinct (d acc : dict) :
  distinct_keys d = true ->
  forallb (fun kv => negb (dict_mem (fst kv) acc)) d = true ->
  dict_update acc d = acc ++ d.
Proof.
  revert acc. induction d as [|[k v] d IH]; intros acc Hd Ha.
  - cbn. now rewrite List.app_nil_r.
  - cbn [distinct_keys] in Hd. apply andb_true_iff in Hd. destruct Hd as [Hk Hd].
    cbn [forallb fst] in Ha. apply andb_true_iff in Ha. destruct Ha as [Hka Ha].
    apply negb_true_iff in Hk. apply negb_true_iff in Hka.
    unfold dict_update. cbn [fold_left fst snd].
    rewrite (dict_set_fresh k v acc Hka).
    change (dict_update (acc ++ [(k, v)]) d = acc ++ (k, v) :: d).
    rewrite IH; [now rewrite <- List.app_assoc|exact Hd|].
    assert (Hne := dict_mem_false_entries k d Hk).
    clear IH Hd Hk. induction d as [|[k' v'] d IHd]; [reflexivity|].
    cbn [forallb fst] in *.
    apply andb_true_iff in Ha. destruct Ha as [Ha1 Ha].
    apply andb_true_iff in Hne. destruct Hne as [Hn1 Hne].
    apply negb_true_iff in Ha1. apply negb_true_iff in Hn1.
    rewrite (dict_mem_app_one k' k v acc Ha1 Hn1). cbn [negb andb].
    now apply IHd.
Qed.

(** A dictionary with distinct keys is what [dict] builds from its pairs. *)
Lemma dict_of_pairs_distinct (d : dict) :
  distinct_keys d = true -> dict_of_pairs d = d.
Proof.
  intros H. unfold dict_of_pairs. rewrite dict_update_distinct; auto.
  clear H. induction d as [|[k v] d IH]; [reflexivity|exact IH].
Qed.

(** ** The JSON codec: the first character of a value *)

Lemma value_start_not_ws (c : N) : value_start c = true -> is_ws c = false.
Proof.
  unfold value_start, is_ws, is_digit. intros H.
  repeat match goal with
         | H : (_ || _) = true |- _ => apply orb_true_iff in H; destruct H as [H|H]
         | H : (_ =? _)%N = true |- _ => apply N.eqb_eq in H; subst
         end; try reflexivity.
  apply andb_true_iff in H. destruct H as [H1 H2].
  apply N.leb_le in H1. apply N.leb_le in H2.
  repeat (apply orb_false_iff; split); apply N.eqb_neq; lia.
Qed.

Lemma value_start_not_bracket (c : N) : value_start c = true -> (c =? 93)%N = false.
Proof.
  unfold value_start, is_digit. intros H.
  repeat match goal with
         | H : (_ || _) = true |- _ => apply orb_true_iff in H; destruct H as [H|H]
         | H : (_ =? _)%N = true |- _ => apply N.eqb_eq in H; subst
         end; try reflexivity.
  apply andb_true_iff in H. destruct H as [H1 H2].
  apply N.leb_le in H1. apply N.leb_le in H2. apply N.eqb_neq; lia.
Qed.

Lemma skip_ws_value_start (c : N) (t : pystr) :
  value_start c = true -> skip_ws (c :: t) = c :: t.
Proof.
  intros H. cbn [skip_ws]. now rewrite (value_start_not_ws c H).
Qed.

Lemma int_repr_head (z : Z) :
  exists c t, int_repr z = c :: t /\ (is_digit c = true \/ c = 45%N).
Proof.
  unfold int_repr. destruct z as [|p|p]; cbn [Z.to_int].
  - exists 48%N, []. split; [reflexivity|now left].
  - destruct (to_uint_head p) as [c [t [E [Hd _]]]]. exists c, t. auto.
  - eexists _, _. split; [reflexivity|now right].
Qed.

Lemma float_start_value_start (c : N) : float_start c = true -> value_start c = true.
Proof.
  unfold float_start, value_start. intros H.
  repeat match goal with
         | H : (_ || _) = true |- _ => apply orb_true_iff in H; destruct H as [H|H]
         | H : (_ =? _)%N = true |- _ => apply N.eqb_eq in H; subst
         end; try reflexivity.
  rewrite H. apply orb_true_r.
Qed.

Lemma float_start_dispatch (c : N) :
  float_start c = true ->
  (c =? 34)%N = false /\ (c =? 123)%N = false /\ (c =? 91)%N = false.
Proof.
  unfold float_start, is_digit. intros H.
  repeat match goal with
         | H : (_ || _) = true |- _ => apply orb_true_iff in H; destruct H as [H|H]
         | H : (_ =? _)%N = true |- _ => apply N.eqb_eq in H; subst
         end; try (repeat split; reflexivity).
  apply andb_true_iff in H. destruct H as [H1 H2].
  apply N.leb_le in H1. apply N.leb_le in H2.
  repeat split; apply N.eqb_neq; lia.
Qed.

Section Heads.
Context {FC : FloatCodec}.
Variable ok : spec_float -> bool.
Hypothesis ok_reads_back : forall f, ok f = true -> float_reads_back f.

Lemma dumps_head (v : json) :
  plain ok v = true ->
  exists c t, dumps false v = c :: t /\ value_start c = true.
Proof.
  destruct v as [|[|]|z|f|s|l|d]; cbn [plain dumps]; intros H;
    try (eexists _, _; split; [reflexivity|reflexivity]).
  2: { destruct (ok_reads_back f H) as [[c [t [E Hs]]] _].
       exists c, t. split; [exact E|]. now apply float_start_value_start. }
  destruct (int_repr_head z) as [c [t [E [Hd | Hc]]]]; exists c, t;
    (split; [exact E|]).
  - unfold value_start. rewrite Hd. apply orb_true_r.
  - rewrite Hc. reflexivity.
Qed.

Lemma dumps_length_pos (v : json) :
  plain ok v = true -> (1 <= List.length (dumps false v))%nat.
Proof.
  intros H. destruct (dumps_head v H) as [c [t [E _]]]. rewrite E. simpl. lia.
Qed.

End Heads.

(** ** The JSON codec: values *)

Section RoundTrip.
Context {FC : FloatCodec}.

Lemma parse_value_S (n : nat) (c : N) (r : pystr) :
  parse_value (S n) (c :: r)
  = if (c =? 34)%N then
      match scanstring r with
      | Some (t, rest) => Some (JStr t, rest)
      | None => None
      end
    else if (c =? 123)%N then
      match skip_ws r with
      | 125%N :: rest => Some (JObj [], rest)
      | 34%N :: r1 =>
        match parse_members n r1 with
        | Some (pairs, rest) => Some (JObj (dict_of_pairs pairs), rest)
        | None => None
        end
      | _ => None
      end
    else if (c =? 91)%N then
      match skip_ws r with
      | [] => None
      | c1 :: rest =>
        if (c1 =? 93)%N then Some (JArr [], rest)
        else
          match parse_elems n (c1 :: rest) with
          | Some (l, rest') => Some (JArr l, rest')
          | None => None
          end
      end
    else scan_atom (c :: r).
Proof. reflexivity. Qed.

Lemma parse_elems_S (n : nat) (s : pystr) :
  parse_elems (S n) s
  = match parse_value n s with
    | None => None
    | Some (v, r) =>
      match skip_ws r with
      | 93%N :: rest => Some ([v], rest)
      | 44%N :: r1 =>
        match parse_elems n (skip_ws r1) with
        | Some (l, rest) => Some (v :: l, rest)
        | None => None
        end
      | _ => None
      end
    end.
Proof. reflexivity. Qed.

Lemma parse_members_S (n : nat) (s : pystr) :
  parse_members (S n) s
  = match scanstring s with
    | None => None
    | Some (key, r) =>
      match skip_ws r with
      | 58%N :: r1 =>
        match parse_value n (skip_ws r1) with
        | None => None
        | Some (v, r2) =>
          match skip_ws r2 with
          | 125%N :: rest => Some ([(key, v)], rest)
          | 44%N :: r3 =>
            match skip_ws r3 with
            | 34%N :: r4 =>
              match parse_members n r4 with
              | Some (ps, rest) => Some ((key, v) :: ps, rest)
              | None => None
              end
            | _ => None
            end
          | _ => None
          end
        end
      | _ => None
      end
    end.
Proof. reflexivity. Qed.

Lemma elems_text_cons (v : json) (l : list json) :
  elems_text (v :: l) = dumps false v ++ more_elems l.
Proof.
  unfold elems_text, more_elems. destruct l; cbn [map join].
  - now rewrite List.app_nil_r.
  - reflexivity.
Qed.

Lemma members_text_cons (kv : pystr * json) (d : dict) :
  members_text (kv :: d) = member_text kv ++ more_members d.
Proof.
  unfold members_text, more_members. destruct d; cbn [map join].
  - now rewrite List.app_nil_r.
  - reflexivity.
Qed.

Lemma more_elems_ends (l : list json) (rest : pystr) :
  value_ends (more_elems l ++ 93%N :: rest) = true.
Proof. destruct l; reflexivity. Qed.

Lemma more_members_ends (d : dict) (rest : pystr) :
  value_ends (more_members d ++ 125%N :: rest) = true.
Proof. destruct d; reflexivity. Qed.

(** A number is read by [scan_atom]. *)
Lemma scan_atom_int (z : Z) (rest : pystr) :
  value_ends rest = true ->
  scan_atom (int_repr z ++ rest) = Some (JInt z, rest).
Proof.
  intros He. unfold scan_atom.
  rewrite (match_number_int z rest He).
  destruct (int_repr_head z) as [c [t [E Hc]]]. rewrite E. cbn [List.app].
  assert (H1 : (110 =? c)%N = false /\ (116 =? c)%N = false /\ (102 =? c)%N = false).
  { destruct Hc as [Hd| ->]; [|repeat split; reflexivity].
    unfold is_digit in Hd. apply andb_true_iff in Hd. destruct Hd as [Ha Hb].
    apply N.leb_le in Ha. apply N.leb_le in Hb.
    repeat split; apply N.eqb_neq; lia. }
  destruct H1 as [Hn [Ht Hf]].
  unfold lit_null, lit_true, lit_false. cbn [strip_prefix].
  now rewrite Hn, Ht, Hf.
Qed.

End RoundTrip.

Section RoundTripSteps.
Context {FC : FloatCodec}.
Variable ok : spec_float -> bool.
Hypothesis ok_reads_back : forall f, ok f = true -> float_reads_back f.

Ltac right_nest :=
  repeat first [rewrite <- List.app_assoc | progress cbn [List.app]].

Lemma value_step (n : nat) :
  elems_roundtrip ok n -> members_roundtrip ok n -> value_roundtrip ok (S n).
Proof.
  intros HE HM v rest Hp Hl He.
  destruct v as [|[|]|z|f|s|l|d]; cbn [plain] in Hp.
  - reflexivity.
  - reflexivity.
  - reflexivity.
  - cbn [dumps].
    destruct (int_repr_head z) as [c [t [E Hc]]].
    assert (H : (c =? 34)%N = false /\ (c =? 123)%N = false /\ (c =? 91)%N = false).
    { destruct Hc as [Hd | ->]; [|repeat split; reflexivity].
      unfold is_digit in Hd. apply andb_true_iff in Hd. destruct Hd as [Ha Hb].
      apply N.leb_le in Ha. apply N.leb_le in Hb.
      repeat split; apply N.eqb_neq; lia. }
    destruct H as [H1 [H2 H3]].
    rewrite E. cbn [List.app]. rewrite parse_value_S, H1, H2, H3.
    change (c :: t ++ rest) with ((c :: t) ++ rest). rewrite <- E.
    apply scan_atom_int, He.
  - cbn [dumps].
    destruct (ok_reads_back f Hp) as [[c [t [E Hs]]] Hr].
    destruct (float_start_dispatch c Hs) as [H1 [H2 H3]].
    rewrite E. cbn [List.app]. rewrite parse_value_S, H1, H2, H3.
    change (c :: t ++ rest) with ((c :: t) ++ rest). rewrite <- E.
    apply Hr, He.
  - cbn [dumps]. unfold encode_basestring. right_nest.
    rewrite parse_value_S. cbn [N.eqb Pos.eqb].
    now rewrite scanstring_escaped.
  - cbn [dumps] in *. fold (elems_text l) in *.
    destruct l as [|v l].
    + reflexivity.
    + rewrite elems_text_cons in *. right_nest.
      rewrite parse_value_S. cbn [N.eqb Pos.eqb].
      assert (Hv : plain ok v = true).
      { cbn [forallb] in Hp. now apply andb_true_iff in Hp. }
      destruct (dumps_head ok ok_reads_back v Hv) as [c [t [E Hs]]].
      rewrite E. cbn [List.app].
      rewrite (skip_ws_value_start c _ Hs), (value_start_not_bracket c Hs).
      change (c :: t ++ more_elems l ++ 93%N :: rest)
        with ((c :: t) ++ more_elems l ++ 93%N :: rest).
      rewrite <- E. rewrite (HE v l rest Hp); [reflexivity|].
      rewrite elems_text_cons. cbn [List.length] in Hl.
      rewrite !length_app in *. cbn [List.length] in Hl. lia.
  - change (dumps false (JObj d)) with (123%N :: members_text d ++ [125%N]) in *.
    apply andb_true_iff in Hp. destruct Hp as [Hp Hd].
    destruct d as [|[k v] d].
    + reflexivity.
    + rewrite members_text_cons in *. unfold member_text, encode_basestring in *.
      cbn [fst snd] in *. right_nest.
      rewrite parse_value_S. cbn [N.eqb Pos.eqb skip_ws is_ws orb].
      rewrite (HM k v d rest Hp).
      * now rewrite (dict_of_pairs_distinct _ Hd).
      * rewrite members_text_cons. unfold member_text, encode_basestring.
        cbn [fst snd]. cbn [List.length] in Hl.
        rewrite !length_app in *. cbn [List.length] in *.
        rewrite !length_app in *. cbn [List.length] in *. lia.
Qed.

Lemma elems_step (n : nat) :
  value_roundtrip ok n -> elems_roundtrip ok n -> elems_roundtrip ok (S n).
Proof.
  intros HV HE v l rest Hp Hl.
  assert (Hp' := Hp). cbn [forallb] in Hp'. apply andb_true_iff in Hp'.
  destruct Hp' as [Hv Hls].
  rewrite elems_text_cons, length_app in Hl.
  rewrite parse_elems_S.
  rewrite (HV v _ Hv); [|lia|apply more_elems_ends].
  destruct l as [|v' l].
  - reflexivity.
  - cbn [more_elems List.app skip_ws is_ws N.eqb Pos.eqb orb].
    rewrite elems_text_cons. right_nest.
    assert (Hv' : plain ok v' = true).
    { cbn [forallb] in Hls. now apply andb_true_iff in Hls. }
    destruct (dumps_head ok ok_reads_back v' Hv') as [c [t [E Hs]]].
    rewrite E. cbn [List.app]. rewrite (skip_ws_value_start c _ Hs).
    change (c :: t ++ more_elems l ++ 93%N :: rest)
      with ((c :: t) ++ more_elems l ++ 93%N :: rest).
    rewrite <- E. rewrite (HE v' l rest Hls); [reflexivity|].
    cbn [more_elems List.length] in Hl.
    assert (Hpos := dumps_length_pos ok ok_reads_back v Hv). lia.
Qed.

Lemma members_step (n : nat) :
  value_roundtrip ok n -> members_roundtrip ok n -> members_roundtrip ok (S n).
Proof.
  intros HV HM k v d rest Hp Hl.
  assert (Hp' := Hp). cbn [forallb snd] in Hp'. apply andb_true_iff in Hp'.
  destruct Hp' as [Hv Hds].
  rewrite members_text_cons, length_app in Hl.
  unfold member_text, encode_basestring in Hl. cbn [fst snd List.length] in Hl.
  rewrite !length_app in Hl. cbn [List.length] in Hl.
  rewrite parse_members_S, scanstring_escaped.
  cbn [skip_ws is_ws N.eqb Pos.eqb orb].
  destruct (dumps_head ok ok_reads_back v Hv) as [c [t [E Hs]]].
  rewrite E. cbn [List.app]. rewrite (skip_ws_value_start c _ Hs).
  change (c :: t ++ more_members d ++ 125%N :: rest)
    with ((c :: t) ++ more_members d ++ 125%N :: rest).
  rewrite <- E.
  rewrite (HV v _ Hv); [|lia|apply more_members_ends].
  destruct d as [|[k' v'] d].
  - reflexivity.
  - cbn [more_members List.app skip_ws is_ws N.eqb Pos.eqb orb].
    rewrite members_text_cons. unfold member_text at 1, encode_basestring.
    cbn [fst snd]. right_nest.
    cbn [skip_ws is_ws N.eqb Pos.eqb orb].
    rewrite (HM k' v' d rest Hds); [reflexivity|].
    cbn [more_members List.length] in Hl. lia.
Qed.

Lemma roundtrip_all (n : nat) :
  value_roundtrip ok n /\ elems_roundtrip ok n /\ members_roundtrip ok n.
Proof.
  induction n as [|n [HV [HE HM]]].
  - repeat split.
    + intros v rest Hp Hl _.
      assert (H := dumps_length_pos ok ok_reads_back v Hp). lia.
    + intros v l rest _ Hl. lia.
    + intros k v d rest _ Hl. lia.
  - repeat split.
    + now apply value_step.
    + now apply elems_step.
    + now apply members_step.
Qed.

(** Decoding what [dumps] wrote gives the value back. *)
Theorem loads_dumps (v : json) :
  plain ok v = true -> loads (dumps false v) = Some v.
Proof.
  intros Hp. unfold loads.
  destruct (dumps_head ok ok_reads_back v Hp) as [c [t [E Hs]]].
  assert (Hk : skip_ws (dumps false v) = dumps false v).
  { rewrite E. apply skip_ws_value_start, Hs. }
  rewrite Hk.
  rewrite <- (List.app_nil_r (dumps false v)) at 2.
  destruct (roundtrip_all (S (List.length (dumps false v)))) as [HV _].
  rewrite (HV v [] Hp); [reflexivity|lia|reflexivity].
Qed.

End RoundTripSteps.

(** ** The JSON codec: [ensure_ascii] *)

Lemma escape_char_printable (c : N) :
  printable c = true -> escape_char true c = escape_char false c.
Proof.
  unfold printable, escape_char. intros H.
  destruct (escape_short c); [reflexivity|]. rewrite H.
  apply andb_true_iff in H. destruct H as [H _]. apply N.leb_le in H.
  assert (E : (c <? 32)%N = false) by (apply N.ltb_ge; exact H).
  now rewrite E.
Qed.

Lemma encode_basestring_printable (s : pystr) :
  forallb printable s = true ->
  encode_basestring true s = encode_basestring false s.
Proof.
  intros H. unfold encode_basestring. do 2 f_equal.
  induction s as [|c s IH]; [reflexivity|].
  cbn [forallb] in H. apply andb_true_iff in H. destruct H as [Hc Hs].
  cbn [flat_map]. now rewrite (escape_char_printable c Hc), (IH Hs).
Qed.

Section Ascii.
Context {FC : FloatCodec}.

(** Over printable ASCII, [ensure_ascii] changes nothing. *)
Lemma dumps_ascii_only (v : json) :
  ascii_only v = true -> dumps true v = dumps false v.
Proof.
  induction v as [|b|z|f|s|l IH|d IH] using json_induction;
    cbn [ascii_only dumps]; intros H; try reflexivity.
  - now apply encode_basestring_printable.
  - do 3 f_equal. induction IH as [|x l Hx _ IHl]; [reflexivity|].
    cbn [forallb] in H. apply andb_true_iff in H. destruct H as [H1 H2].
    cbn [map]. now rewrite (Hx H1), (IHl H2).
  - do 3 f_equal. induction IH as [|[k x] d Hx _ IHd]; [reflexivity|].
    cbn [forallb fst snd] in H. apply andb_true_iff in H. destruct H as [H1 H2].
    apply andb_true_iff in H1. destruct H1 as [Hk H1].
    cbn [map fst snd]. cbn [snd] in Hx.
    now rewrite (encode_basestring_printable k Hk), (Hx H1), (IHd H2).
Qed.

End Ascii.

(** ** The publish payload *)

Section Publish.
Context {P : Platform}.
Variable ok : spec_float -> bool.
Hypothesis ok_reads_back : forall f, ok f = true -> float_reads_back f.

(** [post_time] becomes [None], the empty string, or an integer; the world
    is not touched. *)
Lemma post_time_value_cases (post_time : option pystr) (pt : json) (w w' : world) :
  post_time_value post_time w = (Return pt, w') ->
  w' = w /\ (pt = JNull \/ pt = JStr [] \/ exists z, pt = JInt z).
Proof.
  unfold post_time_value.
  destruct post_time as [[|c s]|].
  - intros [= <- <-]. auto.
  - destruct (strptime_timestamp (c :: s)) as [seconds|]; [|discriminate].
    intros [= <- <-]. split; [reflexivity|]. right. right. now eexists.
  - intros [= <- <-]. auto.
Qed.

Lemma business_binds_plain (pt : json) :
  pt = JNull \/ pt = JStr [] \/ (exists z, pt = JInt z) ->
  plain ok (business_binds_of pt) = true
  /\ ascii_only (business_binds_of pt) = true.
Proof.
  intros [-> | [-> | [z ->]]]; split; reflexivity.
Qed.

Lemma note_payload_plain
    (title desc note_type ats topics image_info video_info pt : json)
    (is_private : bool) :
  forallb (plain ok)
          [title; desc; note_type; ats; topics; image_info; video_info] = true ->
  plain ok (note_payload title desc note_type ats topics image_info video_info
                         pt is_private) = true.
Proof.
  cbn [forallb]. intros H.
  repeat (apply andb_true_iff in H; destruct H as [?H H]).
  unfold note_payload. cbn [plain forallb snd].
  repeat match goal with E : plain ok _ = true |- _ => rewrite E; clear E end.
  reflexivity.
Qed.

(** What [create_note] does once [post_time] is converted: it prints the
    payload, signs, and posts the compact JSON text of the payload. *)
Lemma create_note_trace
    (title desc note_type ats topics image_info video_info : json)
    (post_time : option pystr) (is_private : bool) (pt : json) (w w' : world) :
  post_time_value post_time w = (Return pt, w') ->
  let data := note_payload title desc note_type ats topics image_info video_info
                           pt is_private in
  trace (snd (create_note title desc note_type ats topics image_info video_info
                          post_time is_private w))
  = trace w ++ [EvPrint data;
                EvSign note_uri (Some data);
                EvHttp (py "POST") (_host ++ note_uri)
                       (headers (signed note_uri (Some data)
                                        (add_event (EvPrint data) w)))
                       (TextBody (dumps false data))].
Proof.
  intros H data.
  destruct (post_time_value_cases post_time pt w w' H) as [-> _].
  unfold create_note. unfold bind at 1. rewrite H.
  unfold bind at 1. unfold emit at 1.
  unfold post. unfold bind at 1. rewrite pre_headers_run.
  rewrite request_trace, trace_signed. cbn [trace add_event].
  unfold note_uri. fold data. now rewrite <- !List.app_assoc.
Qed.

(** C8: the body [create_note] posts decodes to the payload; the value of
    its [business_binds] field is a string, and that string decodes to the
    [business_binds] structure the payload was built from. The arguments
    of the caller are any values with distinct keys whose floats, if any,
    have a text that reads back. *)
Theorem publish_payload_roundtrip
    (title desc note_type ats topics image_info video_info : json)
    (post_time : option pystr) (is_private : bool) (pt : json) (w w' : world) :
  post_time_value post_time w = (Return pt, w') ->
  forallb (plain ok)
          [title; desc; note_type; ats; topics; image_info; video_info] = true ->
  let data := note_payload title desc note_type ats topics image_info video_info
                           pt is_private in
  let body := dumps false data in
  (exists hdrs,
     In (EvHttp (py "POST") (_host ++ note_uri) hdrs (TextBody body))
        (trace (snd (create_note title desc note_type ats topics image_info
                                 video_info post_time is_private w))))
  /\ exists (outer common : dict) (encoded : pystr),
       loads body = Some (JObj outer)
       /\ dict_get (py "common") outer = Some (JObj common)
       /\ dict_get (py "business_binds") common = Some (JStr encoded)
       /\ loads encoded = Some (business_binds_of pt).
Proof.
  intros H Hp data body. split.
  - eexists.
    rewrite (create_note_trace title desc note_type ats topics image_info video_info
               post_time is_private pt w w' H).
    apply in_or_app. right. right. right. left. reflexivity.
  - destruct (post_time_value_cases post_time pt w w' H) as [_ Hpt].
    destruct (business_binds_plain pt Hpt) as [Hb Ha].
    eexists _, _, _. split; [|split; [|split]].
    + apply (loads_dumps ok ok_reads_back). now apply note_payload_plain.
    + reflexivity.
    + reflexivity.
    + rewrite (dumps_ascii_only _ Ha). now apply (loads_dumps ok ok_reads_back).
Qed.

End Publish.

(** The codec of the examples writes [0.0] and reads it back. *)
Lemma demo_zero_reads_back (f : spec_float) :
  only_zero f = true -> @float_reads_back demo_float_codec f.
Proof.
  destruct f as [[|]| | |]; try discriminate. intros _. split.
  - eexists _, _. split; reflexivity.
  - intros rest H.
    destruct (value_ends_cases rest H) as [-> | [c [r [-> [-> | [-> | ->]]]]]];
      reflexivity.
Qed.

Lemma publish_payload_roundtrip_witness :
  let pt := JInt 1697026271000 in
  let data :=
    @note_payload demo_platform (JStr (py "标题")) (JStr (py "line 1")) (JStr NoteType_NORMAL)
      (JArr []) (JArr [JStr (py "话题")])
      (JObj [(py "images", JArr [image_descriptor (JStr (py "file-1"))]);
             (py "ratio", JFloat (S754_zero false))]) JNull
      pt true in
  exists (outer common : dict) (encoded : pystr),
    @loads demo_float_codec (@dumps demo_float_codec false data) = Some (JObj outer)
    /\ dict_get (py "common") outer = Some (JObj common)
    /\ dict_get (py "business_binds") common = Some (JStr encoded)
    /\ @loads demo_float_codec encoded = Some (business_binds_of pt).
Proof.
  exact (proj2 (@publish_payload_roundtrip demo_platform only_zero
                  demo_zero_reads_back
                  (JStr (py "标题")) (JStr (py "line 1")) (JStr NoteType_NORMAL)
                  (JArr []) (JArr [JStr (py "话题")])
                  (JObj [(py "images", JArr [image_descriptor (JStr (py "file-1"))]);
                         (py "ratio", JFloat (S754_zero false))])
                  JNull (Some (py "2023-10-11 12:11:11")) true
                  (JInt 1697026271000) (demo_world []) (demo_world [])
                  eq_refl eq_refl)).
Defined.

(* --------------------------------------------------------------------- *)
(** ** Signing and sending *)

Lemma dict_get_set_same (k : pystr) (v : json) (d : dict) :
  dict_get k (dict_set k v d) = Some v.
Proof.
  induction d as [|[k' v'] d IH]; cbn [dict_set dict_get].
  - now rewrite str_eqb_refl.
  - destruct (str_eqb k k') eqn:E; cbn [dict_get]; rewrite E;
      [reflexivity|exact IH].
Qed.

Lemma dict_get_set_other (k k' : pystr) (v : json) (d : dict) :
  str_eqb k k' = false -> dict_get k (dict_set k' v d) = dict_get k d.
Proof.
  intros Hk. induction d as [|[k2 v2] d IH]; cbn [dict_set dict_get].
  - now rewrite Hk.
  - destruct (str_eqb k' k2) eqn:E; cbn [dict_get].
    + apply str_eqb_eq in E. subst k2. now rewrite Hk.
    + destruct (str_eqb k k2); [reflexivity|exact IH].
Qed.

Lemma dict_mem_set (k k' : pystr) (v : json) (d : dict) :
  dict_mem k d = true -> dict_mem k (dict_set k' v d) = true.
Proof.
  unfold dict_mem. intros H.
  destruct (str_eqb k k') eqn:E.
  - apply str_eqb_eq in E. subst k'. now rewrite dict_get_set_same.
  - now rewrite dict_get_set_other.
Qed.

Lemma dict_mem_set_same (k : pystr) (v : json) (d : dict) :
  dict_mem k (dict_set k v d) = true.
Proof. unfold dict_mem. now rewrite dict_get_set_same. Qed.

(** Assigning to a key that is there keeps the keys and their order. *)
Lemma keys_of_set_mem (k : pystr) (v : json) (d : dict) :
  dict_mem k d = true -> keys_of (dict_set k v d) = keys_of d.
Proof.
  unfold dict_mem, keys_of.
  induction d as [|[k' v'] d IH]; cbn [dict_get dict_set map fst]; [discriminate|].
  destruct (str_eqb k k'); cbn [map fst]; [reflexivity|].
  intros H. now rewrite IH.
Qed.

Section Signing.
Context {P : Platform}.

Lemma headers_signed (url : pystr) (data : option json) (w : world) :
  headers (signed url data w)
  = dict_set (py "X-B3-Traceid") (sg_x_b3_traceid (signature_of url data w))
      (dict_set (py "x-S-Common") (sg_x_s_common (signature_of url data w))
         (dict_set (py "X-T") (sg_x_t (signature_of url data w))
            (dict_set (py "X-S") (sg_x_s (signature_of url data w))
               (headers w)))).
Proof.
  unfold signed, signature_of.
  cbn [headers set_headers add_event cookie_dict dict_update fold_left fst snd].
  reflexivity.
Qed.


Lemma signed_header_values (url : pystr) (data : option json) (w : world) :
  let s := signature_of url data w in
  let h := headers (signed url data w) in
  dict_get (py "X-S") h = Some (sg_x_s s)
  /\ dict_get (py "X-T") h = Some (sg_x_t s)
  /\ dict_get (py "x-S-Common") h = Some (sg_x_s_common s)
  /\ dict_get (py "X-B3-Traceid") h = Some (sg_x_b3_traceid s).
Proof.
  intros s h. subst h. rewrite headers_signed. fold s.
  repeat split.
  - rewrite !dict_get_set_other by (vm_compute; reflexivity).
    apply dict_get_set_same.
  - rewrite !dict_get_set_other by (vm_compute; reflexivity).
    apply dict_get_set_same.
  - rewrite !dict_get_set_other by (vm_compute; reflexivity).
    apply dict_get_set_same.
  - apply dict_get_set_same.
Qed.

Lemma signed_other_headers (url : pystr) (data : option json) (w : world) (k : pystr) :
  is_signature_key k = false ->
  dict_get k (headers (signed url data w)) = dict_get k (headers w).
Proof.
  unfold is_signature_key, signature_keys. cbn [existsb]. intros H.
  apply orb_false_iff in H. destruct H as [H1 H].
  apply orb_false_iff in H. destruct H as [H2 H].
  apply orb_false_iff in H. destruct H as [H3 H].
  apply orb_false_iff in H. destruct H as [H4 _].
  rewrite headers_signed.
  now rewrite !dict_get_set_other.
Qed.


(** X2: signing again replaces the signature headers where they are: the
    names of the headers and their order stay as the first signing left
    them, so the headers do not grow from request to request. *)
Theorem pre_headers_again_keeps_keys (url1 url2 : pystr) (data1 data2 : option json)
    (w : world) :
  let w1 := snd (_pre_headers url1 data1 w) in
  keys_of (headers (snd (_pre_headers url2 data2 w1))) = keys_of (headers w1).
Proof.
  intros w1. subst w1. rewrite !pre_headers_run. cbn [snd].
  set (w1 := signed url1 data1 w).
  rewrite (headers_signed url2 data2 w1).
  assert (H1 : dict_mem (py "X-S") (headers w1) = true
               /\ dict_mem (py "X-T") (headers w1) = true
               /\ dict_mem (py "x-S-Common") (headers w1) = true
               /\ dict_mem (py "X-B3-Traceid") (headers w1) = true).
  { subst w1. rewrite headers_signed.
    repeat split;
      repeat first [apply dict_mem_set_same | apply dict_mem_set]. }
  destruct H1 as (Ha & Hb & Hc & Hd).
  set (h1 := headers w1) in *. clearbody h1.
  rewrite keys_of_set_mem by (do 3 apply dict_mem_set; exact Hd).
  rewrite keys_of_set_mem by (do 2 apply dict_mem_set; exact Hc).
  rewrite keys_of_set_mem by (apply dict_mem_set; exact Hb).
  now rewrite keys_of_set_mem.
Qed.

Lemma request_network (method url : pystr) (hdrs : dict) (body : http_body)
    (w : world) :
  network (snd (request method url hdrs body w)) = tl (network w).
Proof.
  unfold request, send. unfold bind, emit.
  change (network (add_event (EvHttp method url hdrs body) w)) with (network w).
  destruct (network w) as [|[r|reason] rest] eqn:E; cbn [snd];
    rewrite ?handle_response_world;
    cbn [network set_network add_event];
    rewrite ?E; reflexivity.
Qed.

Lemma request_keeps_client (method url : pystr) (hdrs : dict) (body : http_body)
    (w : world) :
  headers (snd (request method url hdrs body w)) = headers w
  /\ cookie_dict (snd (request method url hdrs body w)) = cookie_dict w
  /\ files (snd (request method url hdrs body w)) = files w.
Proof.
  unfold request, send. unfold bind, emit.
  change (network (add_event (EvHttp method url hdrs body) w)) with (network w).
  destruct (network w) as [|[r|reason] rest]; cbn [snd];
    rewrite ?handle_response_world; repeat split; reflexivity.
Qed.

(** X3: whatever the answer is, and if there is none, [request] sends the
    request once: one HTTP event is added, one answer at most is taken off
    the network, and the headers, cookies and files of the client are as
    before. *)
Theorem request_sends_once (method url : pystr) (hdrs : dict) (body : http_body)
    (w : world) :
  let w' := snd (request method url hdrs body w) in
  trace w' = trace w ++ [EvHttp method url hdrs body]
  /\ network w' = tl (network w)
  /\ headers w' = headers w
  /\ cookie_dict w' = cookie_dict w
  /\ files w' = files w.
Proof.
  intros w'. subst w'.
  split; [apply request_trace|].
  split; [apply request_network|].
  apply request_keeps_client.
Qed.


Lemma post_run (uri : pystr) (data : json) (w : world) :
  post uri data w
  = request (py "POST") (_host ++ uri)
            (headers (signed uri (Some data) w)) (TextBody (dumps false data))
            (signed uri (Some data) w).
Proof.
  unfold post. unfold bind at 1. now rewrite pre_headers_run.
Qed.


End Signing.

(** The envelope faults and what [request] raises on them. *)
Section Envelopes.
Context {P : Platform}.

Lemma handle_response_fault (r : response) (data : json) (e : exn) (w : world) :
  text r <> [] ->
  json_of r = Decoded data ->
  envelope_fault data = Some e ->
  handle_response r w = (Raise e, w).
Proof.
  intros Ht Hj Hf. unfold handle_response.
  destruct (text r) as [|c t]; [contradiction|]. rewrite Hj.
  unfold envelope_fault in Hf.
  destruct data as [|b|z|f|s|l|d];
    try (injection Hf as <-; reflexivity).
  unfold_monad.
  destruct (dict_get (py "success") d) as [success|] eqn:Hs.
  - destruct (truthy success) eqn:Htr; [discriminate|].
    unfold dict_mem in Hf.
    destruct (dict_get (py "code") d) as [code|] eqn:Hc; [discriminate|].
    injection Hf as <-. reflexivity.
  - injection Hf as <-. reflexivity.
Qed.

(** X5: a body that decodes but is no envelope makes [request] raise a
    Python error, not one of the client's own: [TypeError] when the body is
    not an object, [KeyError] when [success] is missing, and [KeyError]
    when [success] is falsy and [code] is missing. The answer is consumed
    all the same. *)
Theorem request_malformed_envelope (method url : pystr) (hdrs : dict)
    (body : http_body) (r : response) (rest : list transport) (data : json)
    (e : exn) (w : world) :
  network w = Reply r :: rest ->
  text r <> [] ->
  json_of r = Decoded data ->
  envelope_fault data = Some e ->
  fst (request method url hdrs body w) = Raise e
  /\ variant_of (Raise e) = None
  /\ (e = TypeError \/ e = KeyError (JStr (py "success"))
      \/ e = KeyError (JStr (py "code")))
  /\ network (snd (request method url hdrs body w)) = rest.
Proof.
  intros Hn Ht Hj Hf.
  rewrite (request_reply method url hdrs body r rest w Hn).
  rewrite (handle_response_fault r data e _ Ht Hj Hf). cbn [fst snd].
  assert (He : e = TypeError \/ e = KeyError (JStr (py "success"))
               \/ e = KeyError (JStr (py "code"))).
  { unfold envelope_fault in Hf.
    destruct data as [|b|z|f|s|l|d]; try (injection Hf as <-; now left).
    destruct (dict_get (py "success") d) as [success|].
    - destruct (truthy success); [discriminate|].
      destruct (dict_mem (py "code") d); [discriminate|].
      injection Hf as <-. right. now right.
    - injection Hf as <-. right. now left. }
  split; [reflexivity|]. split.
  - destruct He as [-> | [-> | ->]]; reflexivity.
  - split; [exact He|reflexivity].
Qed.

End Envelopes.

Lemma request_malformed_envelope_witness :
  let r := {| status_code := 200; text := py "{}"; json_of := Decoded (JObj []) |} in
  let w := demo_world [Reply r] in
  fst (@request (py "GET") (py "https://example.com/") [] NoBody w)
  = Raise (KeyError (JStr (py "success")))
  /\ variant_of (@Raise pyval (KeyError (JStr (py "success")))) = None
  /\ (KeyError (JStr (py "success")) = TypeError
      \/ KeyError (JStr (py "success")) = KeyError (JStr (py "success"))
      \/ KeyError (JStr (py "success")) = KeyError (JStr (py "code")))
  /\ network (snd (@request (py "GET") (py "https://example.com/") [] NoBody w)) = [].
Proof.
  intros r w.
  apply (@request_malformed_envelope (py "GET") (py "https://example.com/") []
           NoBody r [] (JObj []) (KeyError (JStr (py "success"))) w).
  - reflexivity.
  - discriminate.
  - reflexivity.
  - reflexivity.
Defined.

(* --------------------------------------------------------------------- *)
(** ** Bodies of POST requests, the probe, one note, cookies *)

Lemma escape_char_unescaped (c : N) :
  unescaped c = true -> escape_char false c = [c].
Proof.
  unfold unescaped. intros H.
  apply andb_true_iff in H. destruct H as [H H92].
  apply andb_true_iff in H. destruct H as [H32 H34].
  apply N.leb_le in H32.
  apply negb_true_iff in H34. apply negb_true_iff in H92.
  unfold escape_char, escape_short. rewrite H92, H34.
  assert (E8 : (c =? 8)%N = false) by (apply N.eqb_neq; lia).
  assert (E12 : (c =? 12)%N = false) by (apply N.eqb_neq; lia).
  assert (E10 : (c =? 10)%N = false) by (apply N.eqb_neq; lia).
  assert (E13 : (c =? 13)%N = false) by (apply N.eqb_neq; lia).
  assert (E9 : (c =? 9)%N = false) by (apply N.eqb_neq; lia).
  assert (E32 : (c <? 32)%N = false) by (apply N.ltb_ge; exact H32).
  now rewrite E8, E12, E10, E13, E9, E32.
Qed.

Lemma encode_unescaped (s : pystr) :
  forallb unescaped s = true -> encode_basestring false s = 34%N :: s ++ [34%N].
Proof.
  intros H. unfold encode_basestring. do 2 f_equal.
  induction s as [|c s IH]; [reflexivity|].
  cbn [forallb] in H. apply andb_true_iff in H. destruct H as [Hc Hs].
  cbn [flat_map]. rewrite (escape_char_unescaped c Hc), (IH Hs). reflexivity.
Qed.

Section Bodies.
Context {P : Platform}.

Lemma keyword_run (keyword : pystr) (page page_size : Z) (sort note_type : json)
    (w : world) :
  get_note_by_keyword keyword page page_size sort note_type w
  = post search_uri
         (search_data keyword page page_size (get_search_id (trace w)) sort note_type)
         w.
Proof.
  cbv beta iota delta [get_note_by_keyword bind get_world search_uri search_data].
  reflexivity.
Qed.

Lemma post_trace (uri : pystr) (data : json) (w : world) :
  trace (snd (post uri data w))
  = trace w ++ [EvSign uri (Some data);
                EvHttp (py "POST") (_host ++ uri)
                       (headers (signed uri (Some data) w))
                       (TextBody (dumps false data))].
Proof.
  rewrite post_run, request_trace, trace_signed. now rewrite <- List.app_assoc.
Qed.

Lemma post_network (uri : pystr) (data : json) (w : world) :
  network (snd (post uri data w)) = tl (network w).
Proof. rewrite post_run, request_network. now rewrite network_signed. Qed.

Lemma post_envelope (uri : pystr) (data res : json) (rest : list transport)
    (w : world) :
  network w = envelope_reply res :: rest ->
  post uri data w
  = (Return (VJson res),
     set_network rest
       (add_event (EvHttp (py "POST") (_host ++ uri)
                          (headers (signed uri (Some data) w))
                          (TextBody (dumps false data)))
                  (signed uri (Some data) w))).
Proof.
  intros H. rewrite post_run. unfold envelope_reply in H.
  erewrite request_reply; [|rewrite network_signed; exact H].
  apply handle_envelope.
Qed.

(** X7: a search sends its keyword as it is: when the keyword has no
    quote, backslash or control character, the posted text starts with the
    [keyword] member holding the keyword character for character, so text
    outside ASCII is not turned into escapes. *)
Theorem search_sends_keyword_verbatim (keyword : pystr) (page page_size : Z)
    (sort note_type : json) (w : world) :
  forallb unescaped keyword = true ->
  let data := search_data keyword page page_size (get_search_id (trace w))
                          sort note_type in
  exists (hdrs : dict) (rest : pystr),
    trace (snd (get_note_by_keyword keyword page page_size sort note_type w))
    = trace w ++ [EvSign search_uri (Some data);
                  EvHttp (py "POST") (_host ++ search_uri) hdrs
                         (TextBody (py "{" ++ quote ++ py "keyword" ++ quote
                                    ++ py ":" ++ quote ++ keyword ++ quote
                                    ++ rest))].
Proof.
  intros Hk data. rewrite keyword_run. fold data. rewrite post_trace.
  exists (headers (signed search_uri (Some data) w)).
  exists (more_members
            [(py "page", JInt page);
             (py "page_size", JInt page_size);
             (py "search_id", JStr (get_search_id (trace w)));
             (py "sort", sort);
             (py "note_type", note_type)] ++ [125%N]).
  set (others := [(py "page", JInt page);
                  (py "page_size", JInt page_size);
                  (py "search_id", JStr (get_search_id (trace w)));
                  (py "sort", sort);
                  (py "note_type", note_type)]).
  assert (Hb : dumps false data
               = py "{" ++ quote ++ py "keyword" ++ quote ++ py ":" ++ quote
                 ++ keyword ++ quote ++ more_members others ++ [125%N]).
  { change (dumps false data)
      with (123%N :: members_text ((py "keyword", JStr keyword) :: others)
            ++ [125%N]).
    rewrite members_text_cons. unfold member_text. cbn [fst snd dumps].
    rewrite (encode_unescaped keyword Hk).
    rewrite (encode_unescaped (py "keyword")) by (vm_compute; reflexivity).
    change (py "{") with [123%N]. change (py ":") with [58%N].
    unfold quote.
    repeat first [rewrite <- List.app_assoc | progress cbn [List.app]].
    reflexivity. }
  now rewrite Hb.
Qed.



(** X9: when the platform answers with a payload whose [items] is a list
    starting with a dictionary that has a [note_card], [get_note_by_id]
    returns that card, whatever follows in the list; it has sent one signed
    POST of the note id to the feed endpoint and logged nothing. *)
Theorem get_note_by_id_returns_first_card (note_id : pystr) (d first : dict)
    (more : list json) (card : json) (rest : list transport) (w : world) :
  network w = envelope_reply (JObj d) :: rest ->
  dict_get (py "items") d = Some (JArr (JObj first :: more)) ->
  dict_get (py "note_card") first = Some card ->
  exists w',
    get_note_by_id note_id w = (Return card, w')
    /\ trace w'
       = trace w ++ [EvSign feed_uri (Some (feed_data note_id));
                     EvHttp (py "POST") (_host ++ feed_uri)
                            (headers (signed feed_uri (Some (feed_data note_id)) w))
                            (TextBody (dumps false (feed_data note_id)))]
    /\ network w' = rest.
Proof.
  intros Hn Hi Hc. unfold feed_uri, feed_data.
  unfold get_note_by_id. unfold bind at 1.
  rewrite (post_envelope _ _ (JObj d) rest w Hn).
  set (w1 := set_network rest _).
  exists w1.
  assert (Hd : truthy (JObj d) = true).
  { destruct d; [discriminate|reflexivity]. }
  unfold pv_truthy. rewrite Hd. unfold_monad.
  unfold dict_get_default. rewrite Hi. cbn [truthy]. rewrite Hc.
  split; [reflexivity|]. split; [|reflexivity].
  subst w1. cbn [trace set_network add_event]. rewrite trace_signed.
  now rewrite <- List.app_assoc.
Qed.

(** X10: when the payload is falsy, or is a dictionary whose [items] is
    missing or falsy, [get_note_by_id] does not raise: it logs one error
    line after the request and returns an empty dictionary. *)
Theorem get_note_by_id_empty (note_id : pystr) (res : json)
    (rest : list transport) (w : world) :
  network w = envelope_reply res :: rest ->
  note_absent res = true ->
  exists w',
    get_note_by_id note_id w = (Return (JObj []), w')
    /\ trace w'
       = trace w ++ [EvSign feed_uri (Some (feed_data note_id));
                     EvHttp (py "POST") (_host ++ feed_uri)
                            (headers (signed feed_uri (Some (feed_data note_id)) w))
                            (TextBody (dumps false (feed_data note_id)));
                     note_empty]
    /\ network w' = rest.
Proof.
  intros Hn Ha. unfold feed_uri, feed_data.
  unfold get_note_by_id. unfold bind at 1.
  rewrite (post_envelope _ _ res rest w Hn).
  set (w1 := set_network rest _).
  assert (Ht : trace (add_event note_empty w1)
               = trace w
                 ++ [EvSign (py "/api/sns/web/v1/feed")
                            (Some (JObj [(py "source_note_id", JStr note_id)]));
                     EvHttp (py "POST") (_host ++ py "/api/sns/web/v1/feed")
                            (headers (signed (py "/api/sns/web/v1/feed")
                                        (Some (JObj [(py "source_note_id",
                                                      JStr note_id)])) w))
                            (TextBody (dumps false
                                         (JObj [(py "source_note_id",
                                                 JStr note_id)])));
                     note_empty]).
  { subst w1. cbn [trace set_network add_event]. rewrite trace_signed.
    now rewrite <- !List.app_assoc. }
  exists (add_event note_empty w1).
  unfold pv_truthy, note_absent in *.
  destruct (truthy res) eqn:Hr.
  - cbn [negb orb] in Ha. destruct res as [|b|z|f|s|l|d]; try discriminate.
    apply negb_true_iff in Ha. unfold_monad. rewrite Ha.
    split; [reflexivity|]. split; [exact Ht|reflexivity].
  - unfold_monad.
    split; [reflexivity|]. split; [exact Ht|reflexivity].
Qed.

End Bodies.

Section BodyRoundTrip.
Context {P : Platform}.
Variable ok : spec_float -> bool.
Hypothesis ok_reads_back : forall f, ok f = true -> float_reads_back f.


End BodyRoundTrip.

Section CookieUpdate.
Context {P : Platform}.
Variable convert_cookies : json -> pystr * dict.

(** X11: [update_cookies] stores the converted cookies in both places at
    once: the [Cookie] header becomes the cookie string and the cookie
    dictionary is replaced, with the other headers, the network and the
    trace untouched. The next signature is computed with the [a1] of the
    new cookies, and signing leaves the new [Cookie] header in place. *)
Theorem update_cookies_then_sign (browser_cookies : json) (url : pystr)
    (data : option json) (w : world) :
  let cookie_str := fst (convert_cookies browser_cookies) in
  let cookies := snd (convert_cookies browser_cookies) in
  let w1 := snd (update_cookies convert_cookies browser_cookies w) in
  let h := headers (snd (_pre_headers url data w1)) in
  fst (update_cookies convert_cookies browser_cookies w) = Return tt
  /\ dict_get (py "Cookie") (headers w1) = Some (JStr cookie_str)
  /\ (forall k, str_eqb k (py "Cookie") = false ->
                dict_get k (headers w1) = dict_get k (headers w))
  /\ cookie_dict w1 = cookies
  /\ trace w1 = trace w /\ network w1 = network w
  /\ dict_get (py "Cookie") h = Some (JStr cookie_str)
  /\ dict_get (py "X-S") h
     = Some (sg_x_s (sign (dict_get_default (py "a1") (JStr []) cookies)
                          (dict_get_default (py "b1") (JStr []) page_local_storage)
                          (dict_get_default (py "X-s") (JStr [])
                                            (page_webmsxyw url data))
                          (dict_get_default (py "X-t") (JStr [])
                                            (page_webmsxyw url data)))).
Proof.
  intros cookie_str cookies w1 h. subst cookie_str cookies w1 h.
  unfold update_cookies.
  destruct (convert_cookies browser_cookies) as [cs cd]. cbn [fst snd].
  set (w1 := set_cookie_dict cd _).
  assert (Hc : dict_get (py "Cookie") (headers w1) = Some (JStr cs))
    by apply dict_get_set_same.
  split; [reflexivity|]. split; [exact Hc|].
  split; [intros k Hk; now apply dict_get_set_other|].
  split; [reflexivity|]. split; [reflexivity|]. split; [reflexivity|].
  rewrite pre_headers_run. cbn [snd].
  destruct (signed_header_values url data w1) as (H1 & _).
  split.
  - rewrite signed_other_headers by (vm_compute; reflexivity). exact Hc.
  - exact H1.
Qed.

End CookieUpdate.

Lemma search_sends_keyword_verbatim_witness :
  let w := demo_world [] in
  let data := @search_data (py "小红书") 1 20
                (@get_search_id demo_platform (trace w))
                (JStr (py "general")) (JInt 0) in
  exists (hdrs : dict) (rest : pystr),
    trace (snd (@get_note_by_keyword demo_platform (py "小红书") 1 20
                  (JStr (py "general")) (JInt 0) w))
    = trace w ++ [EvSign search_uri (Some data);
                  EvHttp (py "POST") (_host ++ search_uri) hdrs
                         (TextBody (py "{" ++ quote ++ py "keyword" ++ quote
                                    ++ py ":" ++ quote ++ py "小红书" ++ quote
                                    ++ rest))].
Proof.
  intros w data.
  apply (@search_sends_keyword_verbatim demo_platform (py "小红书") 1 20
           (JStr (py "general")) (JInt 0) w).
  vm_compute. reflexivity.
Defined.

Lemma get_note_by_id_returns_first_card_witness :
  let d := [(py "items",
             JArr [JObj [(py "id", JStr (py "n1"));
                         (py "note_card", JObj [(py "title", JStr (py "t"))])];
                   JObj [(py "id", JStr (py "n2"))]])] in
  let w := demo_world [@envelope_reply demo_platform (JObj d)] in
  exists w',
    @get_note_by_id demo_platform (py "n1") w
    = (Return (JObj [(py "title", JStr (py "t"))]), w')
    /\ trace w'
       = trace w ++ [EvSign feed_uri (Some (feed_data (py "n1")));
                     EvHttp (py "POST") (_host ++ feed_uri)
                            (headers (@signed demo_platform feed_uri
                                        (Some (feed_data (py "n1"))) w))
                            (TextBody (@dumps demo_float_codec false
                                         (feed_data (py "n1"))))]
    /\ network w' = [].
Proof.
  intros d w.
  apply (@get_note_by_id_returns_first_card demo_platform (py "n1") d
           [(py "id", JStr (py "n1"));
            (py "note_card", JObj [(py "title", JStr (py "t"))])]
           [JObj [(py "id", JStr (py "n2"))]]
           (JObj [(py "title", JStr (py "t"))]) [] w).
  - reflexivity.
  - vm_compute. reflexivity.
  - vm_compute. reflexivity.
Defined.

Lemma get_note_by_id_empty_witness :
  let res := JObj [(py "items", JArr [])] in
  let w := demo_world [@envelope_reply demo_platform res] in
  exists w',
    @get_note_by_id demo_platform (py "n1") w = (Return (JObj []), w')
    /\ trace w'
       = trace w ++ [EvSign feed_uri (Some (feed_data (py "n1")));
                     EvHttp (py "POST") (_host ++ feed_uri)
                            (headers (@signed demo_platform feed_uri
                                        (Some (feed_data (py "n1"))) w))
                            (TextBody (@dumps demo_float_codec false
                                         (feed_data (py "n1"))));
                     note_empty]
    /\ network w' = [].
Proof.
  intros res w.
  apply (@get_note_by_id_empty demo_platform (py "n1") res [] w).
  - reflexivity.
  - vm_compute. reflexivity.
Defined.


(* --------------------------------------------------------------------- *)
(** ** Permits, transfers and image notes *)

Lemma dict_get_head (k : pystr) (v : json) (d : dict) :
  dict_get k ((k, v) :: d) = Some v.
Proof. cbn [dict_get]. now rewrite str_eqb_refl. Qed.

Lemma dict_get_skip (k k' : pystr) (v : json) (d : dict) :
  str_eqb k k' = false -> dict_get k ((k', v) :: d) = dict_get k d.
Proof. intros H. cbn [dict_get]. now rewrite H. Qed.

Lemma uploads_of_app (t u : list event) :
  uploads_of (t ++ u) = uploads_of t ++ uploads_of u.
Proof. apply flat_map_app. Qed.

Lemma posts_of_app (t u : list event) :
  posts_of (t ++ u) = posts_of t ++ posts_of u.
Proof. apply flat_map_app. Qed.

Lemma signatures_of_app (t u : list event) :
  signatures_of (t ++ u) = signatures_of t ++ signatures_of u.
Proof. apply flat_map_app. Qed.

Lemma posts_of_publish (d : json) (u : pystr) (x : option json) (url : pystr)
    (h : dict) (b : http_body) :
  posts_of [EvPrint d; EvSign u x; EvHttp (py "POST") url h b] = [(url, b)].
Proof. unfold posts_of. cbn [flat_map]. now rewrite str_eqb_refl. Qed.

Lemma uploads_of_publish (d : json) (u : pystr) (x : option json) (url : pystr)
    (h : dict) (b : http_body) :
  uploads_of [EvPrint d; EvSign u x; EvHttp (py "POST") url h b] = [].
Proof.
  unfold uploads_of. cbn [flat_map].
  change (str_eqb (py "POST") (py "PUT")) with false. reflexivity.
Qed.

Section Permits.
Context {P : Platform}.

Lemma permit_run (file_type : pystr) (count : Z) (data : json)
    (rest : list transport) (w : world) :
  network w = envelope_reply data :: rest ->
  get_upload_files_permit file_type count w
  = (permits <- py_getitem data (py "uploadTempPermits") ;;
     temp_permit <- py_first permits ;;
     file_ids <- py_getitem temp_permit (py "fileIds") ;;
     file_id <- py_first file_ids ;;
     token <- py_getitem temp_permit (py "token") ;;
     ret (file_id, token)) (after_get (permit_uri_for file_type count) rest w).
Proof.
  intros H. unfold get_upload_files_permit. unfold bind at 1.
  rewrite (get_envelope _ _ data rest w H).
  unfold permit_uri_for. cbv beta iota delta [pv_getitem]. reflexivity.
Qed.

Lemma permit_first_run (file_type : pystr) (count : Z) (file_id token : json)
    (more_ids more_permits : list json) (rest : list transport) (w : world) :
  network w
  = envelope_reply (permit_data file_id token more_ids more_permits) :: rest ->
  get_upload_files_permit file_type count w
  = (Return (file_id, token), after_get (permit_uri_for file_type count) rest w).
Proof.
  intros H. rewrite (permit_run file_type count _ rest w H).
  unfold permit_data. unfold_monad.
  rewrite dict_get_head. cbv beta iota.
  rewrite dict_get_head. cbv beta iota.
  rewrite dict_get_skip by (vm_compute; reflexivity).
  rewrite dict_get_head. reflexivity.
Qed.

(** X12: a permit request takes the first file id of the first permit the
    platform grants, with the token of that permit, whatever else the
    answer lists; it is one signed GET whose query names the scene and the
    file count asked for. *)
Theorem permit_takes_first (file_type : pystr) (count : Z) (file_id token : json)
    (more_ids more_permits : list json) (rest : list transport) (w : world) :
  network w
  = envelope_reply (permit_data file_id token more_ids more_permits) :: rest ->
  exists w',
    get_upload_files_permit file_type count w = (Return (file_id, token), w')
    /\ requests_of (trace w')
       = requests_of (trace w)
         ++ [(py "GET", _host ++ permit_uri_for file_type count)]
    /\ signatures_of (trace w')
       = signatures_of (trace w) ++ [permit_uri_for file_type count]
    /\ network w' = rest.
Proof.
  intros H. exists (after_get (permit_uri_for file_type count) rest w).
  split; [|split; [|split]].
  - exact (permit_first_run file_type count _ _ _ _ rest w H).
  - rewrite trace_after_get, requests_of_app. reflexivity.
  - rewrite trace_after_get, signatures_of_app. reflexivity.
  - apply network_after_get.
Qed.

(** X13: when the answer has no [uploadTempPermits], or an empty list of
    them, the permit request raises [KeyError], respectively [IndexError];
    the request was sent and its answer consumed. *)
Theorem permit_without_permits_raises (file_type : pystr) (count : Z) (d : dict)
    (rest : list transport) (w : world) :
  network w = envelope_reply (JObj d) :: rest ->
  dict_get (py "uploadTempPermits") d = None
  \/ dict_get (py "uploadTempPermits") d = Some (JArr []) ->
  exists w',
    get_upload_files_permit file_type count w
    = (Raise (match dict_get (py "uploadTempPermits") d with
              | None => KeyError (JStr (py "uploadTempPermits"))
              | Some _ => IndexError
              end), w')
    /\ requests_of (trace w')
       = requests_of (trace w)
         ++ [(py "GET", _host ++ permit_uri_for file_type count)]
    /\ network w' = rest.
Proof.
  intros H Hd. exists (after_get (permit_uri_for file_type count) rest w).
  split; [|split].
  - rewrite (permit_run file_type count _ rest w H). unfold_monad.
    destruct Hd as [Hd|Hd]; rewrite Hd; reflexivity.
  - rewrite trace_after_get, requests_of_app. reflexivity.
  - apply network_after_get.
Qed.

(** X14: [upload_file] checks before it sends: with a file id that is not
    a string it raises [TypeError], and with a file that is not there it
    raises [OSError]; in both cases the world is as before, nothing was
    sent. *)
Theorem upload_file_checks_before_sending (file_id token : json)
    (path content_type : pystr) (w : world) :
  match file_id with
  | JStr _ => file_size w path = None
  | _ => True
  end ->
  upload_file file_id token path content_type w
  = (Raise (match file_id with
            | JStr _ => OSError path
            | _ => TypeError
            end), w).
Proof.
  intros H. unfold upload_file. unfold_monad.
  destruct file_id; try reflexivity.
  unfold file_size in H. unfold getsize.
  destruct (find _ (files w)); [discriminate|reflexivity].
Qed.

(** X15: a transfer is not a signed request: [upload_file] computes no
    signature and leaves the headers of the client alone; what it sends, if
    anything, is one PUT with the token and the content type as its only
    headers. *)
Theorem upload_file_is_unsigned (file_id token : json) (path content_type : pystr)
    (w : world) :
  let w' := snd (upload_file file_id token path content_type w) in
  signatures_of (trace w') = signatures_of (trace w)
  /\ headers w' = headers w
  /\ cookie_dict w' = cookie_dict w
  /\ (trace w' = trace w
      \/ exists s,
           file_id = JStr s
           /\ trace w' = trace w ++ [EvHttp (py "PUT") (upload_url s)
                                            (upload_headers token content_type)
                                            (FileBody path)]).
Proof.
  intros w'. subst w'.
  assert (Hk : headers (snd (upload_file file_id token path content_type w))
               = headers w
               /\ cookie_dict (snd (upload_file file_id token path content_type w))
                  = cookie_dict w).
  { unfold upload_file. unfold_monad.
    destruct file_id; try (split; reflexivity).
    unfold getsize, open_rb.
    destruct (find _ (files w)) as [f|] eqn:F; [|split; reflexivity].
    destruct ((max_file_size <? snd f)%Z && str_eqb content_type (py "video/mp4"));
      [split; reflexivity|].
    rewrite F.
    destruct (request_keeps_client (py "PUT")
                (py "https://ros-upload.xiaohongshu.com/" ++ s)
                [(py "X-Cos-Security-Token", token);
                 (py "Content-Type", JStr content_type)]
                (FileBody path) w) as (Hh & Hc & _).
    split; assumption. }
  assert (Ht : trace (snd (upload_file file_id token path content_type w)) = trace w
               \/ exists s,
                    file_id = JStr s
                    /\ trace (snd (upload_file file_id token path content_type w))
                       = trace w ++ [EvHttp (py "PUT") (upload_url s)
                                            (upload_headers token content_type)
                                            (FileBody path)]).
  { destruct (upload_file file_id token path content_type w) as [[r|e] w'] eqn:E.
    - right. exact (upload_returns _ _ _ _ _ _ _ E).
    - exact (upload_raises _ _ _ _ _ _ _ E). }
  destruct Hk as [Hh Hc].
  split; [|split; [exact Hh|split; [exact Hc|exact Ht]]].
  destruct Ht as [Ht|[s [_ Ht]]]; rewrite Ht; [reflexivity|].
  rewrite signatures_of_app. cbn [signatures_of flat_map].
  now rewrite List.app_nil_r.
Qed.

End Permits.

Lemma permit_takes_first_witness :
  let data := @permit_data (JStr (py "file-1")) (JStr (py "token-1"))
                [JStr (py "file-1b")]
                [JObj [(py "fileIds", JArr [JStr (py "file-2")]);
                       (py "token", JStr (py "token-2"))]] in
  let w := demo_world [@envelope_reply demo_platform data] in
  exists w',
    @get_upload_files_permit demo_platform (py "image") 2 w
    = (Return (JStr (py "file-1"), JStr (py "token-1")), w')
    /\ requests_of (trace w')
       = requests_of (trace w)
         ++ [(py "GET", _host ++ @permit_uri_for demo_platform (py "image") 2)]
    /\ signatures_of (trace w')
       = signatures_of (trace w) ++ [@permit_uri_for demo_platform (py "image") 2]
    /\ network w' = [].
Proof.
  intros data w.
  apply (@permit_takes_first demo_platform (py "image") 2
           (JStr (py "file-1")) (JStr (py "token-1"))
           [JStr (py "file-1b")]
           [JObj [(py "fileIds", JArr [JStr (py "file-2")]);
                  (py "token", JStr (py "token-2"))]] [] w).
  reflexivity.
Defined.

Lemma permit_without_permits_raises_witness :
  let d := [(py "uploadTempPermits", JArr [])] in
  let w := demo_world [@envelope_reply demo_platform (JObj d)] in
  exists w',
    @get_upload_files_permit demo_platform (py "image") 1 w
    = (Raise (match dict_get (py "uploadTempPermits") d with
              | None => KeyError (JStr (py "uploadTempPermits"))
              | Some _ => IndexError
              end), w')
    /\ requests_of (trace w')
       = requests_of (trace w)
         ++ [(py "GET", _host ++ @permit_uri_for demo_platform (py "image") 1)]
    /\ network w' = [].
Proof.
  intros d w.
  apply (@permit_without_permits_raises demo_platform (py "image") 1 d [] w).
  - reflexivity.
  - right. vm_compute. reflexivity.
Defined.

Lemma upload_file_checks_before_sending_witness :
  let w := demo_world [demo_empty_reply] in
  upload_file (JStr (py "file-1")) (JStr (py "token-1"))
    (py "missing.jpg") (py "image/jpeg") w
  = (Raise (OSError (py "missing.jpg")), w).
Proof.
  intros w.
  apply (upload_file_checks_before_sending (JStr (py "file-1"))
           (JStr (py "token-1")) (py "missing.jpg") (py "image/jpeg") w).
  vm_compute. reflexivity.
Defined.

(* --------------------------------------------------------------------- *)
(** ** Image notes from first file to publication *)

Section ImageNotes.
Context {P : Platform}.

Lemma transfer_run (s : pystr) (token : json) (path : pystr) (size : Z)
    (rest : list transport) (w : world) :
  file_size w path = Some size ->
  network w = transfer_done :: rest ->
  upload_file (JStr s) token path (py "image/jpeg") w
  = (Return (VResponse {| status_code := 200; text := [];
                          json_of := JSONDecodeError |}),
     set_network rest
       (add_event (EvHttp (py "PUT") (upload_url s)
                          (upload_headers token (py "image/jpeg"))
                          (FileBody path)) w)).
Proof.
  intros Hs Hn. rewrite (upload_file_run s token path _ size w Hs).
  change (str_eqb (py "image/jpeg") (py "video/mp4")) with false.
  rewrite andb_false_r. unfold transfer_done in Hn.
  erewrite request_reply by exact Hn. reflexivity.
Qed.

Lemma permit_uri_image : permit_uri_for (py "image") 1 = permit_uri.
Proof. unfold permit_uri_for, permit_uri. reflexivity. Qed.

Lemma file_size_same_files (w w' : world) (path : pystr) :
  files w' = files w -> file_size w' path = file_size w path.
Proof. unfold file_size. now intros ->. Qed.

Lemma files_present_same_files (w w' : world) (ts : list transfer) :
  files w' = files w -> files_present w' ts = files_present w ts.
Proof. unfold files_present, file_size. now intros ->. Qed.

(** The loop over the files when every permit is granted and every
    transfer is answered. *)
Lemma upload_images_run (ts : list transfer) :
  forall (acc : list json) (rest : list transport) (w : world),
    network w = transfer_script ts ++ rest ->
    files_present w ts = true ->
    exists (w' : world) (new : list event),
      upload_images (map tr_file ts) acc w
      = (Return (acc ++ map (fun t => image_descriptor (JStr (tr_file_id t))) ts),
         w')
      /\ network w' = rest
      /\ files w' = files w
      /\ trace w' = trace w ++ new
      /\ requests_of new = transfer_requests ts
      /\ uploads_of new = transfer_uploads ts
      /\ prints_of new = []
      /\ posts_of new = [].
Proof.
  induction ts as [|t ts IH]; intros acc rest w Hn Hf.
  - exists w, []. cbn [map upload_images]. unfold ret.
    rewrite !List.app_nil_r. repeat split; try reflexivity. exact Hn.
  - unfold transfer_script in Hn. cbn [flat_map] in Hn.
    fold (transfer_script ts) in Hn. cbn [List.app] in Hn.
    unfold permit_reply in Hn.
    unfold files_present in Hf. cbn [forallb] in Hf.
    fold (files_present w ts) in Hf.
    destruct (file_size w (tr_file t)) as [size|] eqn:Hs; [|discriminate].
    cbn [andb] in Hf.
    cbn [map upload_images]. unfold bind at 1.
    rewrite (permit_first_run (py "image") 1 _ _ [] [] _ w Hn).
    rewrite permit_uri_image.
    set (w1 := after_get permit_uri (transfer_done :: transfer_script ts ++ rest) w).
    cbv beta iota. unfold bind at 1.
    assert (Hs1 : file_size w1 (tr_file t) = Some size).
    { rewrite <- Hs. apply file_size_same_files. reflexivity. }
    assert (Hn1 : network w1 = transfer_done :: transfer_script ts ++ rest)
      by apply network_after_get.
    rewrite (transfer_run (tr_file_id t) (JStr (tr_token t)) (tr_file t) size
               (transfer_script ts ++ rest) w1 Hs1 Hn1).
    set (w2 := set_network (transfer_script ts ++ rest) _).
    assert (Hf2 : files_present w2 ts = true).
    { rewrite <- Hf. apply files_present_same_files. reflexivity. }
    destruct (IH (acc ++ [image_descriptor (JStr (tr_file_id t))]) rest w2
                 eq_refl Hf2)
      as (w' & new & Hrun & Hnet & Hfiles & Htr & Hreq & Hup & Hpr & Hpo).
    exists w'.
    exists ([EvSign permit_uri None;
             EvHttp (py "GET") (_host ++ permit_uri)
                    (headers (signed permit_uri None w)) NoBody;
             EvHttp (py "PUT") (upload_url (tr_file_id t))
                    (upload_headers (JStr (tr_token t)) (py "image/jpeg"))
                    (FileBody (tr_file t))] ++ new).
    split; [|split; [|split; [|split; [|split; [|split; [|split]]]]]].
    + rewrite Hrun. rewrite <- List.app_assoc. reflexivity.
    + exact Hnet.
    + rewrite Hfiles. reflexivity.
    + rewrite Htr. subst w2. cbn [trace set_network add_event].
      subst w1. rewrite trace_after_get.
      rewrite <- !List.app_assoc. reflexivity.
    + rewrite requests_of_app, Hreq. reflexivity.
    + rewrite uploads_of_app, Hup. unfold uploads_of at 1. cbn [flat_map].
      change (str_eqb (py "GET") (py "PUT")) with false.
      rewrite str_eqb_refl. reflexivity.
    + rewrite prints_of_app, Hpr. reflexivity.
    + rewrite posts_of_app, Hpo. unfold posts_of. cbn [flat_map].
      change (str_eqb (py "GET") (py "POST")) with false.
      change (str_eqb (py "PUT") (py "POST")) with false.
      reflexivity.
Qed.

Lemma create_note_network
    (title desc note_type ats topics image_info video_info : json)
    (post_time : option pystr) (is_private : bool) (pt : json) (w : world) :
  post_time_value post_time w = (Return pt, w) ->
  network (snd (create_note title desc note_type ats topics image_info video_info
                            post_time is_private w))
  = tl (network w).
Proof.
  intros H. unfold create_note. unfold bind at 1. rewrite H.
  unfold bind at 1. unfold emit at 1. now rewrite post_network.
Qed.

(** X16: when every permit is granted and every transfer answered,
    [create_image_note] asks for a permit and transfers the file, file by
    file in the order given, each transfer going to the file id of its own
    permit with that permit's token, and only then makes one POST: the
    note, whose images are the granted file ids in the same order. The
    payload is printed once. Stated for a note without [post_time]. *)
Theorem image_note_uploads_then_publishes (title desc : json) (ts : list transfer)
    (ats topics : json) (is_private : bool) (rest : list transport) (w : world) :
  network w = transfer_script ts ++ rest ->
  files_present w ts = true ->
  let data := image_note_payload title desc ts JNull ats topics is_private in
  let w' := snd (create_image_note title desc (map tr_file ts) None
                                   ats topics is_private w) in
  requests_of (trace w')
  = requests_of (trace w) ++ transfer_requests ts
    ++ [(py "POST", _host ++ note_uri)]
  /\ uploads_of (trace w') = uploads_of (trace w) ++ transfer_uploads ts
  /\ posts_of (trace w')
     = posts_of (trace w) ++ [(_host ++ note_uri, TextBody (dumps false data))]
  /\ prints_of (trace w') = prints_of (trace w) ++ [data]
  /\ network w' = tl rest.
Proof.
  intros Hn Hf data w'. subst w'.
  destruct (upload_images_run ts [] rest w Hn Hf)
    as (w1 & new & Hrun & Hnet & _ & Htr & Hreq & Hup & Hpr & Hpo).
  assert (E : create_image_note title desc (map tr_file ts) None ats topics
                                is_private w
              = create_note title desc (JStr NoteType_NORMAL)
                  (match ats with JNull => JArr [] | _ => ats end)
                  (match topics with JNull => JArr [] | _ => topics end)
                  (JObj [(py "images",
                          JArr (map (fun t => image_descriptor (JStr (tr_file_id t)))
                                    ts))])
                  JNull None is_private w1).
  { unfold create_image_note. unfold bind at 1. rewrite Hrun. reflexivity. }
  rewrite E.
  assert (Hpt1 : post_time_value None w1 = (Return JNull, w1)) by reflexivity.
  pose proof (create_note_trace title desc (JStr NoteType_NORMAL)
                (match ats with JNull => JArr [] | _ => ats end)
                (match topics with JNull => JArr [] | _ => topics end)
                (JObj [(py "images",
                        JArr (map (fun t => image_descriptor (JStr (tr_file_id t)))
                                  ts))])
                JNull None is_private JNull w1 w1 Hpt1) as Hc.
  cbv zeta in Hc.
  fold (image_note_payload title desc ts JNull ats topics is_private) in Hc.
  fold data in Hc.
  pose proof (create_note_network title desc (JStr NoteType_NORMAL)
                (match ats with JNull => JArr [] | _ => ats end)
                (match topics with JNull => JArr [] | _ => topics end)
                (JObj [(py "images",
                        JArr (map (fun t => image_descriptor (JStr (tr_file_id t)))
                                  ts))])
                JNull None is_private JNull w1 Hpt1) as Hcn.
  rewrite Hc, Hcn, Htr, Hnet.
  split; [|split; [|split; [|split]]].
  - rewrite !requests_of_app, Hreq. cbn [requests_of flat_map List.app].
    now rewrite <- List.app_assoc.
  - rewrite !uploads_of_app, Hup, uploads_of_publish.
    now rewrite List.app_nil_r.
  - rewrite !posts_of_app, Hpo, posts_of_publish.
    now rewrite List.app_nil_r.
  - rewrite !prints_of_app, Hpr. cbn [prints_of flat_map List.app].
    now rewrite List.app_nil_r.
  - reflexivity.
Qed.

(** X17: [create_note] converts [post_time] before anything else: a
    non-empty [post_time] that does not parse makes it raise [ValueError]
    with the world as before, so nothing was printed, signed or sent. *)
Theorem create_note_rejects_bad_post_time
    (title desc note_type ats topics image_info video_info : json)
    (c : N) (s : pystr) (is_private : bool) (w : world) :
  strptime_timestamp (c :: s) = None ->
  create_note title desc note_type ats topics image_info video_info
              (Some (c :: s)) is_private w
  = (Raise ValueError, w).
Proof.
  intros H. unfold create_note. unfold bind at 1.
  unfold post_time_value. now rewrite H.
Qed.

(** What the loop over the files can leave in the trace, however it
    ends. *)
Lemma upload_images_sends (files : list pystr) :
  forall (acc : list json) (w : world),
    exists new : list event,
      trace (snd (upload_images files acc w)) = trace w ++ new
      /\ prints_of new = []
      /\ posts_of new = []
      /\ Forall (fun r => fst r = py "GET" \/ fst r = py "PUT") (requests_of new).
Proof.
  induction files as [|file files IH]; intros acc w.
  - exists []. cbn [upload_images]. unfold ret. cbn [snd].
    rewrite List.app_nil_r. repeat split; try reflexivity. apply Forall_nil.
  - cbn [upload_images]. unfold bind at 1.
    pose proof (permit_trace w) as T1.
    destruct (get_upload_files_permit (py "image") 1 w) as [[[id tok]|e] w1].
    + cbn [snd] in T1. unfold bind at 1.
      destruct (upload_file id tok file (py "image/jpeg") w1) as [[r|e] w2] eqn:Eu.
      * destruct (upload_returns _ _ _ _ _ _ _ Eu) as [s [-> T2]].
        destruct (IH (acc ++ [image_descriptor (JStr s)]) w2)
          as (new & Htr & Hpr & Hpo & Hall).
        exists ([EvSign permit_uri None;
                 EvHttp (py "GET") (_host ++ permit_uri)
                        (headers (signed permit_uri None w)) NoBody;
                 EvHttp (py "PUT") (upload_url s)
                        (upload_headers tok (py "image/jpeg")) (FileBody file)]
                ++ new).
        split; [|split; [|split]].
        -- rewrite Htr, T2, T1. now rewrite <- !List.app_assoc.
        -- rewrite prints_of_app, Hpr. reflexivity.
        -- rewrite posts_of_app, Hpo. unfold posts_of. cbn [flat_map].
           change (str_eqb (py "GET") (py "POST")) with false.
           change (str_eqb (py "PUT") (py "POST")) with false.
           reflexivity.
        -- rewrite requests_of_app. cbn [requests_of flat_map List.app].
           apply Forall_cons; [left; reflexivity|].
           apply Forall_cons; [right; reflexivity|]. exact Hall.
      * cbn [snd].
        destruct (upload_raises _ _ _ _ _ _ _ Eu) as [T2|[s [-> T2]]].
        -- exists [EvSign permit_uri None;
                   EvHttp (py "GET") (_host ++ permit_uri)
                          (headers (signed permit_uri None w)) NoBody].
           split; [|split; [|split]].
           ++ now rewrite T2, T1.
           ++ reflexivity.
           ++ unfold posts_of. cbn [flat_map].
              change (str_eqb (py "GET") (py "POST")) with false. reflexivity.
           ++ cbn [requests_of flat_map List.app].
              apply Forall_cons; [left; reflexivity|apply Forall_nil].
        -- exists [EvSign permit_uri None;
                   EvHttp (py "GET") (_host ++ permit_uri)
                          (headers (signed permit_uri None w)) NoBody;
                   EvHttp (py "PUT") (upload_url s)
                          (upload_headers tok (py "image/jpeg")) (FileBody file)].
           split; [|split; [|split]].
           ++ rewrite T2, T1. now rewrite <- !List.app_assoc.
           ++ reflexivity.
           ++ unfold posts_of. cbn [flat_map].
              change (str_eqb (py "GET") (py "POST")) with false.
              change (str_eqb (py "PUT") (py "POST")) with false.
              reflexivity.
           ++ cbn [requests_of flat_map List.app].
              apply Forall_cons; [left; reflexivity|].
              apply Forall_cons; [right; reflexivity|apply Forall_nil].
    + cbn [snd] in *.
      exists [EvSign permit_uri None;
              EvHttp (py "GET") (_host ++ permit_uri)
                     (headers (signed permit_uri None w)) NoBody].
      split; [|split; [|split]].
      * exact T1.
      * reflexivity.
      * unfold posts_of. cbn [flat_map].
        change (str_eqb (py "GET") (py "POST")) with false. reflexivity.
      * cbn [requests_of flat_map List.app].
        apply Forall_cons; [left; reflexivity|apply Forall_nil].
Qed.

(** X18: if the loop over the files raises, at whichever file and whether
    at the permit or at the transfer, [create_image_note] raises the same
    error where the loop stopped: it has sent permit requests and transfers
    only, and has neither printed nor posted a note. Files already
    transferred are not taken back. *)
Theorem image_note_aborts_when_upload_raises (title desc : json)
    (files : list pystr) (post_time : option pystr) (ats topics : json)
    (is_private : bool) (e : exn) (w : world) :
  fst (upload_images files [] w) = Raise e ->
  let out := create_image_note title desc files post_time ats topics
                               is_private w in
  out = (Raise e, snd (upload_images files [] w))
  /\ exists new : list event,
       trace (snd out) = trace w ++ new
       /\ prints_of new = []
       /\ posts_of new = []
       /\ Forall (fun r => fst r = py "GET" \/ fst r = py "PUT")
                 (requests_of new).
Proof.
  intros H out. subst out.
  assert (E : create_image_note title desc files post_time ats topics is_private w
              = (Raise e, snd (upload_images files [] w))).
  { unfold create_image_note. unfold bind at 1.
    destruct (upload_images files [] w) as [[images|e'] w1]; cbn [fst snd] in *.
    - discriminate.
    - now injection H as ->. }
  rewrite E. split; [reflexivity|]. cbn [snd].
  apply upload_images_sends.
Qed.

End ImageNotes.

Lemma image_note_uploads_then_publishes_witness :
  let w := demo_world (@transfer_script demo_platform demo_transfers
                       ++ [@envelope_reply demo_platform (JObj [])]) in
  let data := @image_note_payload demo_platform (JStr (py "标题")) (JStr (py "正文"))
                demo_transfers JNull JNull (JArr [JStr (py "话题")]) false in
  let w' := snd (@create_image_note demo_platform (JStr (py "标题"))
                   (JStr (py "正文")) (map tr_file demo_transfers) None
                   JNull (JArr [JStr (py "话题")]) false w) in
  requests_of (trace w')
  = requests_of (trace w) ++ @transfer_requests demo_platform demo_transfers
    ++ [(py "POST", _host ++ note_uri)]
  /\ uploads_of (trace w') = uploads_of (trace w) ++ transfer_uploads demo_transfers
  /\ posts_of (trace w')
     = posts_of (trace w)
       ++ [(_host ++ note_uri, TextBody (@dumps demo_float_codec false data))]
  /\ prints_of (trace w') = prints_of (trace w) ++ [data]
  /\ network w' = tl [@envelope_reply demo_platform (JObj [])].
Proof.
  intros w data w'.
  apply (@image_note_uploads_then_publishes demo_platform (JStr (py "标题"))
           (JStr (py "正文")) demo_transfers JNull (JArr [JStr (py "话题")])
           false [@envelope_reply demo_platform (JObj [])] w).
  - reflexivity.
  - vm_compute. reflexivity.
Defined.

Lemma create_note_rejects_bad_post_time_witness :
  let w := demo_world [] in
  @create_note demo_platform (JStr (py "t")) (JStr (py "d")) (JStr NoteType_NORMAL)
    (JArr []) (JArr []) (JObj []) JNull (Some (py "tomorrow")) false w
  = (Raise ValueError, w).
Proof.
  intros w.
  apply (@create_note_rejects_bad_post_time demo_platform (JStr (py "t"))
           (JStr (py "d")) (JStr NoteType_NORMAL) (JArr []) (JArr []) (JObj [])
           JNull 116%N (py "omorrow") false w).
  vm_compute. reflexivity.
Defined.

Lemma image_note_aborts_when_upload_raises_witness :
  let w := demo_world [demo_permit_reply (py "file-1") (py "token-1");
                       demo_empty_reply;
                       Fails (py "connection reset")] in
  let out := @create_image_note demo_platform (JStr (py "标题")) (JStr (py "正文"))
               [py "a.jpg"; py "b.jpg"; py "c.jpg"] None JNull JNull false w in
  out = (Raise (TransportError (py "connection reset")),
         snd (@upload_images demo_platform [py "a.jpg"; py "b.jpg"; py "c.jpg"] [] w))
  /\ exists new : list event,
       trace (snd out) = trace w ++ new
       /\ prints_of new = []
       /\ posts_of new = []
       /\ Forall (fun r => fst r = py "GET" \/ fst r = py "PUT")
                 (requests_of new).
Proof.
  intros w out.
  apply (@image_note_aborts_when_upload_raises demo_platform (JStr (py "标题"))
           (JStr (py "正文")) [py "a.jpg"; py "b.jpg"; py "c.jpg"] None JNull JNull
           false (TransportError (py "connection reset")) w).
  vm_compute. reflexivity.
Defined.

(* --------------------------------------------------------------------- *)
(** ** The crawl: cursors, errors on a later page, termination *)

Section CrawlChain.
Context {P : Platform}.
Variables (note_id : pystr) (interval : spec_float) (supplied : bool).

Lemma chain_requests_end (pages : list dict) :
  forall cursor,
    chain_requests note_id cursor pages
    ++ [(py "GET", _host ++ comments_uri note_id (chain_end cursor pages))]
    = map (fun c => (py "GET", _host ++ comments_uri note_id c))
          (cursor :: map page_cursor pages).
Proof.
  induction pages as [|d pages IH]; intros cursor; [reflexivity|].
  cbn [chain_requests chain_end List.app]. rewrite IH. reflexivity.
Qed.

Lemma requests_after_page (cursor comments : json) (rest : list transport)
    (w : world) :
  requests_of
    (trace (add_events (page_events supplied note_id interval comments)
                       (after_get (comments_uri note_id cursor) rest w)))
  = requests_of (trace w) ++ [(py "GET", _host ++ comments_uri note_id cursor)].
Proof.
  rewrite trace_add_events, trace_after_get, !requests_of_app.
  unfold page_events. destruct supplied;
    cbn [requests_of flat_map List.app]; now rewrite List.app_nil_r.
Qed.

Lemma callbacks_after_page (cursor comments : json) (rest : list transport)
    (w : world) :
  callbacks_of
    (trace (add_events (page_events supplied note_id interval comments)
                       (after_get (comments_uri note_id cursor) rest w)))
  = callbacks_of (trace w) ++ (if supplied then [(note_id, comments)] else []).
Proof.
  rewrite trace_add_events, trace_after_get, !callbacks_of_app.
  unfold page_events. destruct supplied;
    cbn [callbacks_of flat_map List.app]; now rewrite ?List.app_nil_r.
Qed.

(** A run of pages that all go on, with the cursor handed from page to
    page. *)
Lemma crawl_chain (pre : list dict) :
  forall (fuel : nat) (result : list json) (has_more cursor : json)
         (rest : list transport) (w : world),
    truthy has_more = true ->
    forallb page_continues pre = true ->
    network w = map page_reply pre ++ rest ->
    exists (w' : world) (has_more' : json),
      comments_loop (List.length pre + fuel) note_id interval (sink supplied)
                    (result, has_more, cursor) w
      = comments_loop fuel note_id interval (sink supplied)
                      (result ++ flat_map page_items pre, has_more',
                       chain_end cursor pre) w'
      /\ truthy has_more' = true
      /\ network w' = rest
      /\ requests_of (trace w')
         = requests_of (trace w) ++ chain_requests note_id cursor pre
      /\ callbacks_of (trace w')
         = callbacks_of (trace w) ++ sink_calls supplied note_id pre.
Proof.
  induction pre as [|d pre IH]; intros fuel result has_more cursor rest w Ht Hp Hn.
  - exists w, has_more. cbn [List.length Nat.add flat_map chain_end chain_requests].
    rewrite !List.app_nil_r.
    split; [reflexivity|]. split; [exact Ht|]. split; [exact Hn|].
    split; [reflexivity|].
    unfold sink_calls. destruct supplied; cbn [map]; now rewrite List.app_nil_r.
  - cbn [forallb] in Hp. apply andb_true_iff in Hp. destruct Hp as [Hd Hp].
    destruct (page_continues_inv d Hd) as [c [items [Hc [Hi [Hpi [Hpc Hm]]]]]].
    cbn [map List.app] in Hn.
    cbn [List.length Nat.add comments_loop]. rewrite Ht.
    rewrite (comments_page_items note_id interval supplied d _ result cursor c
               items w Hn Hc Hi).
    set (w1 := add_events _ _).
    assert (Hn1 : network w1 = map page_reply pre ++ rest).
    { unfold w1. now rewrite network_add_events, network_after_get. }
    destruct (IH fuel (result ++ items) (page_has_more d) (page_cursor d) rest w1
                 Hm Hp Hn1) as (w' & hm' & E & Ht' & Hn' & Hr & Hcb).
    exists w', hm'. rewrite E. cbn [flat_map chain_end chain_requests].
    rewrite Hpi, <- List.app_assoc.
    split; [reflexivity|]. split; [exact Ht'|]. split; [exact Hn'|].
    split.
    + rewrite Hr. unfold w1. rewrite requests_after_page.
      now rewrite <- List.app_assoc.
    + rewrite Hcb. unfold w1. rewrite callbacks_after_page.
      rewrite sink_calls_cons, Hpc. now rewrite <- List.app_assoc.
Qed.

Lemma comments_page_raises (r : response) (e : exn) (rest : list transport)
    (result : list json) (cursor : json) (w : world) :
  network w = Reply r :: rest ->
  fst (handle_response r w) = Raise e ->
  comments_page note_id interval (sink supplied) result cursor w
  = (Raise e, after_get (comments_uri note_id cursor) rest w).
Proof.
  intros Hn He. unfold comments_page, get_note_comments. unfold bind at 1.
  rewrite (get_reply _ _ r rest w Hn).
  unfold comments_uri.
  set (w1 := after_get _ rest w).
  pose proof (handle_response_fst r w1 w) as Hf.
  pose proof (handle_response_world r w1) as Hw.
  destruct (handle_response r w1) as [res w2]. cbn [fst snd] in *.
  subst w2. rewrite He in Hf. subst res. reflexivity.
Qed.

Lemma comments_page_not_dict (r : response) (v : pyval) (rest : list transport)
    (result : list json) (cursor : json) (w : world) :
  network w = Reply r :: rest ->
  fst (handle_response r w) = Return v ->
  not_dict v = true ->
  comments_page note_id interval (sink supplied) result cursor w
  = (Raise AttributeError, after_get (comments_uri note_id cursor) rest w).
Proof.
  intros Hn He Hv. unfold comments_page, get_note_comments. unfold bind at 1.
  rewrite (get_reply _ _ r rest w Hn).
  unfold comments_uri.
  set (w1 := after_get _ rest w).
  pose proof (handle_response_fst r w1 w) as Hf.
  pose proof (handle_response_world r w1) as Hw.
  destruct (handle_response r w1) as [res w2]. cbn [fst snd] in *.
  subst w2. rewrite He in Hf. subst res.
  unfold_monad.
  destruct v as [resp|[|b|z|f|s|l|d]]; try reflexivity. discriminate.
Qed.

(** X19: the crawl hands the cursor from page to page: the first request
    carries the empty cursor and each later one the cursor of the page
    before it, one request per page and none after the page that ends the
    crawl, be it the last page or one without the items key. *)
Theorem crawl_follows_cursors (pre : list dict) (last : dict) (fuel : nat)
    (rest : list transport) (w : world) :
  forallb page_continues pre = true ->
  page_last last = true \/ page_malformed last = true ->
  network w = map page_reply pre ++ page_reply last :: rest ->
  exists (out : list json) (w' : world),
    get_note_all_comments (List.length pre + S fuel) note_id interval
                          (sink supplied) w
    = Some (Return out, w')
    /\ requests_of (trace w')
       = requests_of (trace w)
         ++ map (fun c => (py "GET", _host ++ comments_uri note_id c))
                (JStr [] :: map page_cursor pre)
    /\ network w' = rest.
Proof.
  intros Hp Hl Hn. unfold get_note_all_comments.
  destruct (crawl_chain pre (S fuel) [] (JBool true) (JStr [])
              (page_reply last :: rest) w eq_refl Hp Hn)
    as (w1 & hm & E & Ht & Hn1 & Hr & _).
  rewrite E. cbn [comments_loop]. rewrite Ht.
  rewrite <- chain_requests_end, List.app_assoc, <- Hr.
  destruct Hl as [Hl|Hl].
  - destruct (page_last_inv last Hl) as [c [items [Hc [Hi [Hpi [Hpc Hm]]]]]].
    rewrite (comments_page_items note_id interval supplied last rest _ _ c items
               w1 Hn1 Hc Hi).
    eexists _, _. split; [|split].
    + destruct fuel; cbn [comments_loop]; rewrite Hm; reflexivity.
    + apply requests_after_page.
    + now rewrite network_add_events, network_after_get.
  - rewrite (comments_page_malformed note_id interval supplied last rest _ _
               w1 Hn1 Hl).
    eexists _, _. split; [reflexivity|]. split.
    + rewrite trace_add_events, trace_after_get, !requests_of_app.
      cbn [requests_of flat_map List.app]. now rewrite List.app_nil_r.
    + now rewrite network_add_events, network_after_get.
Qed.

(** X20: when a request of the crawl raises on some page, an error of the
    platform or a blocked address, the crawl raises that error: the items
    of the pages before are not returned to the caller; only the sink has
    seen them, once per page. No request follows the failed one. *)
Theorem crawl_error_discards_result (pre : list dict) (r : response) (e : exn)
    (fuel : nat) (rest : list transport) (w : world) :
  forallb page_continues pre = true ->
  network w = map page_reply pre ++ Reply r :: rest ->
  fst (handle_response r w) = Raise e ->
  exists w' : world,
    get_note_all_comments (List.length pre + S fuel) note_id interval
                          (sink supplied) w
    = Some (Raise e, w')
    /\ callbacks_of (trace w')
       = callbacks_of (trace w) ++ sink_calls supplied note_id pre
    /\ requests_of (trace w')
       = requests_of (trace w)
         ++ map (fun c => (py "GET", _host ++ comments_uri note_id c))
                (JStr [] :: map page_cursor pre)
    /\ network w' = rest.
Proof.
  intros Hp Hn He. unfold get_note_all_comments.
  destruct (crawl_chain pre (S fuel) [] (JBool true) (JStr [])
              (Reply r :: rest) w eq_refl Hp Hn)
    as (w1 & hm & E & Ht & Hn1 & Hr & Hcb).
  rewrite E. cbn [comments_loop]. rewrite Ht.
  assert (He1 : fst (handle_response r w1) = Raise e).
  { now rewrite (handle_response_fst r w1 w). }
  rewrite (comments_page_raises r e rest _ _ w1 Hn1 He1).
  eexists. split; [reflexivity|]. split; [|split].
  - rewrite trace_after_get, callbacks_of_app, Hcb.
    cbn [callbacks_of flat_map]. now rewrite List.app_nil_r.
  - rewrite <- chain_requests_end, List.app_assoc, <- Hr.
    rewrite trace_after_get, requests_of_app. reflexivity.
  - apply network_after_get.
Qed.

(** X21: when the request for a page returns something that is not a
    dictionary, the raw response of a body that is empty or not JSON, or a
    payload of another type, the crawl raises [AttributeError] at that
    page; the sink has seen the pages before it. *)
Theorem crawl_non_dict_page_raises (pre : list dict) (r : response) (v : pyval)
    (fuel : nat) (rest : list transport) (w : world) :
  forallb page_continues pre = true ->
  network w = map page_reply pre ++ Reply r :: rest ->
  fst (handle_response r w) = Return v ->
  not_dict v = true ->
  exists w' : world,
    get_note_all_comments (List.length pre + S fuel) note_id interval
                          (sink supplied) w
    = Some (Raise AttributeError, w')
    /\ callbacks_of (trace w')
       = callbacks_of (trace w) ++ sink_calls supplied note_id pre
    /\ network w' = rest.
Proof.
  intros Hp Hn He Hv. unfold get_note_all_comments.
  destruct (crawl_chain pre (S fuel) [] (JBool true) (JStr [])
              (Reply r :: rest) w eq_refl Hp Hn)
    as (w1 & hm & E & Ht & Hn1 & Hr & Hcb).
  rewrite E. cbn [comments_loop]. rewrite Ht.
  assert (He1 : fst (handle_response r w1) = Return v).
  { now rewrite (handle_response_fst r w1 w). }
  rewrite (comments_page_not_dict r v rest _ _ w1 Hn1 He1 Hv).
  eexists. split; [reflexivity|]. split.
  - rewrite trace_after_get, callbacks_of_app, Hcb.
    cbn [callbacks_of flat_map]. now rewrite List.app_nil_r.
  - apply network_after_get.
Qed.

(** One turn of the loop sends one request, however the turn ends. *)
Lemma comments_page_one_request (result : list json) (cursor : json) (w : world) :
  List.length
    (requests_of
       (trace (snd (comments_page note_id interval (sink supplied) result cursor w))))
  = S (List.length (requests_of (trace w))).
Proof.
  unfold comments_page, get_note_comments.
  pose proof (get_trace (py "/api/sns/web/v2/comment/page")
                [(py "note_id", JStr note_id); (py "cursor", cursor)] w) as Ht.
  unfold bind at 1.
  destruct (get _ _ w) as [[res|e] w1]; cbn [snd] in Ht.
  - unfold_monad.
    destruct res as [r|[|b|z|f|s|l|d]]; cbn [snd];
      try (rewrite Ht, requests_of_app, length_app;
           cbn [requests_of flat_map List.app List.length]; lia).
    unfold dict_mem.
    destruct (dict_get (py "comments") d) as [c|]; cbn [negb].
    + unfold sink, recording_sink, emit.
      destruct supplied; destruct (py_iter c); cbn [snd trace add_event];
        repeat rewrite requests_of_app; rewrite Ht;
        repeat rewrite requests_of_app; repeat rewrite length_app;
        cbn [requests_of flat_map List.app List.length]; lia.
    + cbn [snd trace add_event].
      repeat rewrite requests_of_app. rewrite Ht.
      repeat rewrite requests_of_app. repeat rewrite length_app.
      cbn [requests_of flat_map List.app List.length]. lia.
  - cbn [snd]. rewrite Ht, requests_of_app, length_app.
    cbn [requests_of flat_map List.app List.length]. lia.
Qed.

(** The loop ends once it may turn more often than there are answers, and
    has then sent no more requests than there were answers, and one. *)
Lemma crawl_bounded (fuel : nat) :
  forall (st : crawl_state) (w : world),
    (List.length (network w) < fuel)%nat ->
    exists (out : result (list json)) (w' : world),
      comments_loop fuel note_id interval (sink supplied) st w = Some (out, w')
      /\ (List.length (requests_of (trace w'))
          <= List.length (requests_of (trace w)) + S (List.length (network w)))%nat
      /\ (List.length (network w') <= List.length (network w))%nat.
Proof.
  induction fuel as [|fuel IH]; intros [[result has_more] cursor] w Hl; [lia|].
  cbn [comments_loop].
  destruct (truthy has_more);
    [|eexists _, _; split; [reflexivity|split; lia]].
  assert (Hn := comments_page_network note_id interval supplied result cursor w).
  assert (He := comments_page_no_answer note_id interval supplied result cursor w).
  assert (Hr := comments_page_one_request result cursor w).
  destruct (comments_page note_id interval (sink supplied) result cursor w)
    as [[[|st']|e] w1]; cbn [fst snd] in *.
  - eexists _, _. split; [reflexivity|]. rewrite Hr, Hn.
    destruct (network w); cbn [tl List.length]; split; lia.
  - destruct (network w) as [|a rest] eqn:E; [now discriminate He|].
    cbn [tl List.length] in *.
    destruct (IH st' w1) as (out & w' & Hrun & Hreq & Hnet); [rewrite Hn; lia|].
    exists out, w'. split; [exact Hrun|]. rewrite Hr, Hn in *. split; lia.
  - eexists _, _. split; [reflexivity|]. rewrite Hr, Hn.
    destruct (network w); cbn [tl List.length]; split; lia.
Qed.

(** X22: the crawl cannot go on without an answer: every turn of its loop
    sends one request and takes one answer off the network, so allowed one
    more turn than there are answers left it has ended, returning or
    raising, after at most one request more than there were answers. *)
Theorem crawl_ends_when_answers_run_out (fuel : nat) (w : world) :
  (List.length (network w) < fuel)%nat ->
  exists (out : result (list json)) (w' : world),
    get_note_all_comments fuel note_id interval (sink supplied) w = Some (out, w')
    /\ (List.length (requests_of (trace w'))
        <= List.length (requests_of (trace w)) + S (List.length (network w)))%nat
    /\ (List.length (network w') <= List.length (network w))%nat.
Proof.
  intros H. unfold get_note_all_comments.
  destruct (crawl_bounded fuel ([], JBool true, JStr []) w H)
    as (out & w' & Hrun & Hreq & Hnet).
  exists out, w'. split; [exact Hrun|]. split; [exact Hreq|exact Hnet].
Qed.

End CrawlChain.

Lemma crawl_follows_cursors_witness :
  let pre := [page (JStr (py "c1")) (JBool true) [JStr (py "a")];
              page (JStr (py "c2")) (JBool true) [JStr (py "b")]] in
  let last := page (JStr (py "c3")) (JBool false) [JStr (py "c")] in
  let w := demo_world (map (@page_reply demo_platform) pre
                       ++ [@page_reply demo_platform last]) in
  exists (out : list json) (w' : world),
    @get_note_all_comments demo_platform 3 (py "note-1") one_second (sink true) w
    = Some (Return out, w')
    /\ requests_of (trace w')
       = requests_of (trace w)
         ++ map (fun c => (py "GET",
                           _host ++ @comments_uri demo_platform (py "note-1") c))
                (JStr [] :: map page_cursor pre)
    /\ network w' = [].
Proof.
  intros pre last w.
  apply (@crawl_follows_cursors demo_platform (py "note-1") one_second true
           pre last 0 [] w).
  - vm_compute. reflexivity.
  - left. vm_compute. reflexivity.
  - reflexivity.
Defined.

Lemma crawl_error_discards_result_witness :
  let pre := [page (JStr (py "c1")) (JBool true) [JStr (py "a")]] in
  let w := demo_world (map (@page_reply demo_platform) pre
                       ++ [Reply ip_block_response]) in
  exists w' : world,
    @get_note_all_comments demo_platform 2 (py "note-1") one_second (sink true) w
    = Some (Raise (IPBlockError IP_ERROR_STR), w')
    /\ callbacks_of (trace w')
       = callbacks_of (trace w) ++ sink_calls true (py "note-1") pre
    /\ requests_of (trace w')
       = requests_of (trace w)
         ++ map (fun c => (py "GET",
                           _host ++ @comments_uri demo_platform (py "note-1") c))
                (JStr [] :: map page_cursor pre)
    /\ network w' = [].
Proof.
  intros pre w.
  apply (@crawl_error_discards_result demo_platform (py "note-1") one_second true
           pre ip_block_response (IPBlockError IP_ERROR_STR) 0 [] w).
  - vm_compute. reflexivity.
  - reflexivity.
  - vm_compute. reflexivity.
Defined.

Lemma crawl_non_dict_page_raises_witness :
  let pre := [page (JStr (py "c1")) (JBool true) [JStr (py "a")]] in
  let r := {| status_code := 502; text := py "<html>Bad Gateway</html>";
              json_of := JSONDecodeError |} in
  let w := demo_world (map (@page_reply demo_platform) pre ++ [Reply r]) in
  exists w' : world,
    @get_note_all_comments demo_platform 2 (py "note-1") one_second (sink true) w
    = Some (Raise AttributeError, w')
    /\ callbacks_of (trace w')
       = callbacks_of (trace w) ++ sink_calls true (py "note-1") pre
    /\ network w' = [].
Proof.
  intros pre r w.
  apply (@crawl_non_dict_page_raises demo_platform (py "note-1") one_second true
           pre r (VResponse r) 0 [] w).
  - vm_compute. reflexivity.
  - reflexivity.
  - vm_compute. reflexivity.
  - reflexivity.
Defined.

Lemma crawl_ends_when_answers_run_out_witness :
  let w := demo_world [@page_reply demo_platform
                         (page (JStr (py "c1")) (JBool true) [JStr (py "a")])] in
  exists (out : result (list json)) (w' : world),
    @get_note_all_comments demo_platform 2 (py "note-1") one_second (sink true) w
    = Some (out, w')
    /\ (List.length (requests_of (trace w'))
        <= List.length (requests_of (trace w)) + S (List.length (network w)))%nat
    /\ (List.length (network w') <= List.length (network w))%nat.
Proof.
  intros w.
  apply (@crawl_ends_when_answers_run_out demo_platform (py "note-1") one_second
           true 2 w).
  vm_compute. lia.
Defined.

(* --------------------------------------------------------------------- *)
(** ** The size check and the permit *)

Lemma image_is_not_mp4 (content_type : pystr) :
  denotes_image content_type = true -> str_eqb content_type (py "video/mp4") = false.
Proof.
  intros H. apply str_eqb_neq. intros ->. vm_compute in H. discriminate.
Qed.

Section SizeCheck.
Context {P : Platform}.

(** The loop asks for the permit of a file before [upload_file] is given
    the file: the first thing it does is the permit request. *)
Lemma upload_images_permit_first (file : pystr) (files : list pystr)
    (acc : list json) (w : world) :
  exists tail : list event,
    trace (snd (upload_images (file :: files) acc w))
    = trace w ++ [EvSign permit_uri None;
                  EvHttp (py "GET") (_host ++ permit_uri)
                         (headers (signed permit_uri None w)) NoBody] ++ tail.
Proof.
  cbn [upload_images]. unfold bind at 1.
  pose proof (permit_trace w) as T1.
  destruct (get_upload_files_permit (py "image") 1 w) as [[[id tok]|e] w1];
    cbn [snd] in T1.
  - unfold bind at 1.
    destruct (upload_file id tok file (py "image/jpeg") w1) as [[r|e] w2] eqn:Eu.
    + destruct (upload_returns _ _ _ _ _ _ _ Eu) as [s [-> T2]].
      destruct (upload_images_sends files (acc ++ [image_descriptor (JStr s)]) w2)
        as (new & Htr & _).
      eexists. rewrite Htr, T2, T1. rewrite <- !List.app_assoc. reflexivity.
    + cbn [snd]. destruct (upload_raises _ _ _ _ _ _ _ Eu) as [T2|[s [_ T2]]].
      * exists []. now rewrite T2, T1.
      * eexists. rewrite T2, T1. rewrite <- !List.app_assoc. reflexivity.
  - cbn [snd]. exists []. exact T1.
Qed.

(** C6 (amended): [upload_file] raises the size-limit error, and leaves
    the world as it was (it has made no call of any kind), for a file
    above 5 MiB whose content type is ["video/mp4"]; an image of any size,
    and any file within the limit, is not stopped by the check and goes to
    the transfer. The permit is not [upload_file]'s to ask for: the file id
    and the token are its arguments, and the loop of [create_image_note]
    has sent the permit request of a file before [upload_file] sees the
    file, whatever its size. *)
Theorem upload_rejects_oversized_video (file_id : pystr) (token : json)
    (path content_type : pystr) (size : Z) (files : list pystr)
    (acc : list json) (w : world) :
  file_size w path = Some size ->
  ((max_file_size < size)%Z -> content_type = py "video/mp4" ->
   upload_file (JStr file_id) token path content_type w
   = (Raise size_limit_error, w)) /\
  ((size <= max_file_size)%Z \/ denotes_image content_type = true ->
   upload_file (JStr file_id) token path content_type w
   = request (py "PUT") (upload_url file_id) (upload_headers token content_type)
             (FileBody path) w) /\
  (exists tail : list event,
     trace (snd (upload_images (path :: files) acc w))
     = trace w ++ [EvSign permit_uri None;
                   EvHttp (py "GET") (_host ++ permit_uri)
                          (headers (signed permit_uri None w)) NoBody] ++ tail).
Proof.
  intros Hs. rewrite (upload_file_run file_id token path content_type size w Hs).
  split; [|split].
  - intros Hlt ->. apply Z.ltb_lt in Hlt. now rewrite Hlt.
  - intros [Hle|Hi].
    + apply Z.ltb_ge in Hle. now rewrite Hle.
    + rewrite (image_is_not_mp4 content_type Hi). now rewrite andb_false_r.
  - apply upload_images_permit_first.
Qed.

End SizeCheck.

Lemma upload_rejects_oversized_video_witness :
  upload_file (JStr (py "file-1")) (JStr (py "token-1")) (py "big.mp4")
              (py "video/mp4") (demo_world [])
  = (Raise size_limit_error, demo_world []).
Proof.
  refine (proj1 (@upload_rejects_oversized_video demo_platform (py "file-1")
                   (JStr (py "token-1")) (py "big.mp4") (py "video/mp4") 6291456
                   [] [] (demo_world []) eq_refl) _ eq_refl).
  reflexivity.
Defined.

(** C6, as stated, fails: the check names one content type. A file above
    5 MiB whose content type is another video type is not stopped: it is
    read and sent like any other file. *)
Lemma oversized_quicktime_is_sent :
  let w := demo_world [demo_empty_reply] in
  let out := upload_file (JStr (py "file-1")) (JStr (py "token-1")) (py "big.mp4")
                         (py "video/quicktime") w in
  file_size w (py "big.mp4") = Some 6291456%Z
  /\ (max_file_size <? 6291456)%Z = true
  /\ denotes_video (py "video/quicktime") = true
  /\ fst out = Return (VResponse {| status_code := 200; text := [];
                                    json_of := JSONDecodeError |})
  /\ requests_of (trace (snd out)) = [(py "PUT", upload_url (py "file-1"))]
  /\ uploads_of (trace (snd out))
     = [(upload_url (py "file-1"),
         upload_headers (JStr (py "token-1")) (py "video/quicktime"),
         FileBody (py "big.mp4"))].
Proof. vm_compute. repeat split; reflexivity. Qed.
